(** * Phase segmentation and thermal flux of the mashing analysis tool

    A shallow embedding of [detect_phases_new], [detect_phases] and
    [calculate_heat_available] (src/v3.py and src/pages/1_Phase_Analysis.py)
    together with the pandas operations they use, and the properties of the
    specification that concern them.

    Numbers.  Every column of a batch is a float64 pandas Series.  The code
    is written once, over an interface [Number] of the float operations it
    uses, and read at two instances:
    - [float], IEEE 754 binary64 (Rocq's primitive floats), which is what the
      Python program computes with;
    - [xnum], exact rationals extended with NaN, the idealisation in which
      rounding is absent, used for the properties that need order and
      arithmetic reasoning.

    DataFrames.  A frame is the list of its rows, in positional order; index
    labels are unique in every frame the callers pass (a slice of the frame
    read from the CSV file), so a label is identified with its position.
    Frames bound to names that the code mutates live in a store and are
    handled by reference. *)

From Stdlib Require Import QArith Qminmax Lqa Floats.PrimFloat Numbers.Cyclic.Int63.Uint63.
From stdpp Require Import gmap strings list.
From Stdlib Require Import Ascii.

(** ** Float operations used by the code *)

Class Number (F : Type) := {
  lit : Q -> F;            (* a numeric literal of the source *)
  nan : F;                 (* NaN, pandas' missing value *)
  fadd : F -> F -> F;
  fsub : F -> F -> F;
  fmul : F -> F -> F;
  fdiv : F -> F -> F;
  fneg : F -> F;
  flt : F -> F -> bool;    (* x < y *)
  fle : F -> F -> bool;    (* x <= y *)
  feq : F -> F -> bool     (* x == y *)
}.
Arguments lit {F _} q%_Q.

Declare Scope py_scope.
Delimit Scope py_scope with py.
Notation "x + y" := (fadd x y) : py_scope.
Notation "x - y" := (fsub x y) : py_scope.
Notation "x * y" := (fmul x y) : py_scope.
Notation "x / y" := (fdiv x y) : py_scope.
Notation "- x" := (fneg x) : py_scope.
Notation "x <? y" := (flt x y) : py_scope.
Notation "x <=? y" := (fle x y) : py_scope.
Notation "x >? y" := (flt y x) (at level 70) : py_scope.
Notation "x >=? y" := (fle y x) (at level 70) : py_scope.
Notation "x ==? y" := (feq x y) (at level 70) : py_scope.

(** *** Exact rationals with NaN *)

Inductive xnum : Type :=
  | Fin (q : Q)
  | NaN.

Definition xnum_lift2 (f : Q -> Q -> Q) (x y : xnum) : xnum :=
  match x, y with
  | Fin a, Fin b => Fin (f a b)
  | _, _ => NaN
  end.

Definition xnum_div (x y : xnum) : xnum :=
  match x, y with
  | Fin a, Fin b => if Qeq_bool b 0 then NaN else Fin (a / b)
  | _, _ => NaN
  end.

Definition xnum_cmp (f : Q -> Q -> bool) (x y : xnum) : bool :=
  match x, y with
  | Fin a, Fin b => f a b
  | _, _ => false
  end.

#[export] Instance xnum_number : Number xnum := {|
  lit := Fin;
  nan := NaN;
  fadd := xnum_lift2 Qplus;
  fsub := xnum_lift2 Qminus;
  fmul := xnum_lift2 Qmult;
  fdiv := xnum_div;
  fneg := fun x => match x with Fin a => Fin (- a) | NaN => NaN end;
  flt := xnum_cmp (fun a b => negb (Qle_bool b a));
  fle := xnum_cmp Qle_bool;
  feq := xnum_cmp Qeq_bool
|}.

(** *** IEEE 754 binary64 *)

Definition float_of_Z (z : Z) : float :=
  match z with
  | Z0 => PrimFloat.zero
  | Zpos _ => PrimFloat.of_uint63 (Uint63.of_Z z)
  | Zneg p => PrimFloat.opp (PrimFloat.of_uint63 (Uint63.of_Z (Zpos p)))
  end.

(** A decimal literal denotes the double nearest to it; for the literals of
    the source (small integers, 0.5, 4.18, 60.0) that is the correctly
    rounded quotient of numerator and denominator. *)
Definition float_lit (q : Q) : float :=
  PrimFloat.div (float_of_Z (Qnum q)) (float_of_Z (Zpos (Qden q))).

#[export] Instance float_number : Number float := {|
  lit := float_lit;
  nan := PrimFloat.nan;
  fadd := PrimFloat.add;
  fsub := PrimFloat.sub;
  fmul := PrimFloat.mul;
  fdiv := PrimFloat.div;
  fneg := PrimFloat.opp;
  flt := PrimFloat.ltb;
  fle := PrimFloat.leb;
  feq := PrimFloat.eqb
|}.

(** ** Python exceptions and results *)

Inductive pyexn : Type :=
  | ValueError       (* idxmin of an empty Series, or of an all-NaN one (pandas 3) *)
  | KeyError         (* .loc with a label that is not in the index *)
  | IndexError       (* .iloc out of bounds *)
  | ReferenceError.  (* a name bound to no object, which no caller produces *)

Inductive result (A : Type) : Type :=
  | Ok (a : A)
  | Raise (e : pyexn).
Arguments Ok {A} a.
Arguments Raise {A} e.

(** ** The pandas release

    The repository pins no pandas release, and one operation the code uses
    changed between major releases: [Series.idxmin()] on a column whose
    values are all NaN returns NaN up to pandas 2.x and raises ValueError
    from pandas 3.0 on.  Every definition that reaches it takes the release
    as a parameter. *)

Inductive pandas_release : Type :=
  | Pandas2    (* pandas 1.x and 2.x *)
  | Pandas3.   (* pandas 3.0 and later *)
Existing Class pandas_release.

(** ** Frames, Series and the pandas operations of the source *)

Section Frames.
Context {F : Type} `{Number F} {pd : pandas_release}.
Local Open Scope py_scope.

(** One row of a batch.  The first five fields are the input columns the
    core reads.  [grist_flow], [gap] and [heat_available] are the columns
    the code creates by assignment: each is written before it is read, so
    its content in a frame that does not have the column yet is never
    observed. *)
Record row : Type := Row {
  minutes : F;
  greast_case_weight : F;
  sparging_mashing_water_flow : F;
  mashing_temp : F;
  mashing_sparging_water_temp : F;
  grist_flow : F;
  gap : F;
  heat_available : F
}.

Local Abbreviation frame := (list row).

Definition set_grist_flow (r : row) (v : F) : row :=
  Row (minutes r) (greast_case_weight r) (sparging_mashing_water_flow r)
      (mashing_temp r) (mashing_sparging_water_temp r) v (gap r) (heat_available r).

Definition set_gap (r : row) (v : F) : row :=
  Row (minutes r) (greast_case_weight r) (sparging_mashing_water_flow r)
      (mashing_temp r) (mashing_sparging_water_temp r) (grist_flow r) v (heat_available r).

Definition set_heat_available (r : row) (v : F) : row :=
  Row (minutes r) (greast_case_weight r) (sparging_mashing_water_flow r)
      (mashing_temp r) (mashing_sparging_water_temp r) (grist_flow r) (gap r) v.

(** [pd.notna(x)] and [pd.isna(x)] on a float. *)
Definition notna (x : F) : bool := x ==? x.
Definition isna (x : F) : bool := negb (x ==? x).

(** Python's builtins [max(x, y)] and [min(x, y)]: the first argument
    unless the second is strictly better. *)
Definition py_max (x y : F) : F := if y >? x then y else x.
Definition py_min (x y : F) : F := if y <? x then y else x.

(** [Series.min()] and [Series.max()], which skip NaN and give NaN when
    nothing is left. *)
Definition nanmin2 (acc x : F) : F :=
  if isna x then acc else if isna acc then x else if x <? acc then x else acc.
Definition nanmax2 (acc x : F) : F :=
  if isna x then acc else if isna acc then x else if x >? acc then x else acc.
Definition series_min (xs : list F) : F := fold_left nanmin2 xs nan.
Definition series_max (xs : list F) : F := fold_left nanmax2 xs nan.

(** [Series.diff()]: NaN first, then the difference to the previous row. *)
Fixpoint diff_from (prev : F) (xs : list F) : list F :=
  match xs with
  | [] => []
  | x :: t => (x - prev) :: diff_from x t
  end.
Definition series_diff (xs : list F) : list F :=
  match xs with
  | [] => []
  | x :: t => nan :: diff_from x t
  end.

(** [Series.fillna(c)], unary minus, [Series.clip(lower=c)]. *)
Definition fillna (c : F) (xs : list F) : list F :=
  (fun x => if isna x then c else x) <$> xs.
Definition series_neg (xs : list F) : list F := fneg <$> xs.
Definition clip_lower (c : F) (xs : list F) : list F :=
  (fun x => if x <? c then c else x) <$> xs.

(** [Series.idxmin()]: the first position of the least value, NaN skipped.
    On an empty Series it raises ValueError.  When every value is NaN it
    returns NaN up to pandas 2.x, here [None], and the [.loc] lookup that
    follows raises KeyError; from pandas 3.0 on it raises ValueError
    itself. *)
Fixpoint idxmin_from (i : nat) (xs : list F) (best : option (nat * F)) : option (nat * F) :=
  match xs with
  | [] => best
  | x :: t =>
      idxmin_from (S i) t
        (if isna x then best
         else match best with
              | None => Some (i, x)
              | Some (_, b) => if x <? b then Some (i, x) else best
              end)
  end.
Definition idxmin (xs : list F) : result (option nat) :=
  match xs with
  | [] => Raise ValueError
  | _ =>
      match idxmin_from 0 xs None with
      | Some (i, _) => Ok (Some i)
      | None =>
          match pd with
          | Pandas2 => Ok None
          | Pandas3 => Raise ValueError
          end
      end
  end.

(** [df.loc[label, 'minutes']]. *)
Definition loc_minutes (df : frame) (label : option nat) : result F :=
  match label with
  | Some i => match df !! i with
              | Some r => Ok (minutes r)
              | None => Raise KeyError
              end
  | None => Raise KeyError
  end.

(** [df[col] = series] on a Series with the index of [df]. *)
Definition assign (set : row -> F -> row) (df : frame) (xs : list F) : frame :=
  zip_with set df xs.

(** [hf['gap'] = hf['minutes'].diff()]. *)
Definition with_gap (hf : frame) : frame :=
  assign set_gap hf (series_diff (minutes <$> hf)).

End Frames.
Arguments row F : clear implicits.

(** A DataFrame: its rows in positional order. *)
Abbreviation frame F := (list (row F)).

(** ** The store of frames and the monad of the code *)

#[export] Instance result_ret : MRet result := fun _ a => Ok a.
#[export] Instance result_bind : MBind result := fun _ _ f x =>
  match x with
  | Ok a => f a
  | Raise e => Raise e
  end.

(** A reference to a frame object. *)
Definition ref : Type := nat.

(** A computation reads and writes the store and returns or raises. *)
Definition M (F A : Type) : Type := gmap ref (frame F) -> gmap ref (frame F) * result A.

#[export] Instance M_ret {F} : MRet (M F) := fun _ a σ => (σ, Ok a).
#[export] Instance M_bind {F} : MBind (M F) := fun _ _ f c σ =>
  match c σ with
  | (σ', Ok a) => f a σ'
  | (σ', Raise e) => (σ', Raise e)
  end.

Section Store.
Context {F : Type}.

Definition read (r : ref) : M F (frame F) := fun σ =>
  match σ !! r with
  | Some df => (σ, Ok df)
  | None => (σ, Raise ReferenceError)
  end.

Definition new_frame (df : frame F) : M F ref := fun σ =>
  let r := fresh (dom σ) in (<[r := df]> σ, Ok r).

(** [df.copy()]: a new object with the same content. *)
Definition copy (r : ref) : M F ref := df ← read r; new_frame df.

(** In-place update of the object behind [r]. *)
Definition update (r : ref) (f : frame F -> frame F) : M F unit := fun σ =>
  match σ !! r with
  | Some df => (<[r := f df]> σ, Ok tt)
  | None => (σ, Raise ReferenceError)
  end.

Definition lift {A} (x : result A) : M F A := fun σ => (σ, x).

(** [for i in range(...)]: the body run for each index in turn. *)
Fixpoint for_each (range : list nat) (body : nat -> M F unit) : M F unit :=
  match range with
  | [] => mret tt
  | i :: rest => body i;; for_each rest body
  end.
End Store.

(** ** Phases *)

Record phase (F : Type) : Type := Phase {
  name : string;
  start : F;
  end_ : F      (* the key 'end' of the source *)
}.
Arguments Phase {F} name start end_.
Arguments name {F} p.
Arguments start {F} p.
Arguments end_ {F} p.

(** ** src/v3.py *)

Module V3.
Section Code.
Context {F : Type} `{Number F} {pd : pandas_release}.
Local Open Scope py_scope.

(** *** detect_phases_new, phase by phase (lines 191-273) *)

(* PHASE 1: Water Pre-Fill *)
Definition new_p1_end (batch_mashing : frame F) (process_start : F) : F :=
  let grist_starts := List.filter (fun s => grist_flow s >? lit 0.5) batch_mashing in
  match grist_starts with
  | s :: _ => minutes s
  | [] => process_start + lit 5
  end.

(* PHASE 2: Grist Addition *)
Definition new_p2_end (batch_mashing : frame F) (p2_start : F) : result F :=
  let grist_data := List.filter (fun s => minutes s >=? p2_start) batch_mashing in
  match grist_data with
  | _ :: _ =>
      let grist_active := List.filter (fun s => grist_flow s >? lit 0.5) grist_data in
      match last grist_active with
      | Some s => let last_grist_time := minutes s in Ok (last_grist_time + lit 1)
      | None =>
          min_grist_idx ← idxmin (greast_case_weight <$> batch_mashing);
          loc_minutes batch_mashing min_grist_idx
      end
  | [] => Ok (p2_start + lit 10)
  end.

(* PHASE 3: Resting (Saccharification) *)
Definition new_p3_end (batch_mashing : frame F) (p3_start process_end : F) : F :=
  let post_grist := List.filter (fun s => minutes s >? p3_start) batch_mashing in
  let sparge_starts :=
    List.filter (fun s => sparging_mashing_water_flow s >? lit 200) post_grist in
  match sparge_starts with
  | s :: _ => minutes s
  | [] => py_min (p3_start + lit 60) process_end
  end.

(* PHASE 4: Sparge *)
Definition new_p4_end (batch_mashing : frame F) (p4_start process_end : F) : F :=
  let sparge_data := List.filter (fun s => minutes s >=? p4_start) batch_mashing in
  let high_flow_data :=
    List.filter (fun s => sparging_mashing_water_flow s >? lit 200) sparge_data in
  match high_flow_data with
  | first_high :: _ =>
      let high_flow_data := with_gap high_flow_data in
      let gaps := List.filter (fun s => gap s >? lit 3) high_flow_data in
      match gaps with
      | g :: _ => minutes g - lit 1
      | [] =>
          let flow_data :=
            List.filter (fun s => minutes s >? minutes (hd first_high high_flow_data))
                        sparge_data in
          let low_flow :=
            List.filter (fun s => sparging_mashing_water_flow s <? lit 50) flow_data in
          match low_flow with
          | l :: _ => minutes l
          | [] => minutes (List.last high_flow_data first_high) + lit 2
          end
      end
  | [] => py_min (p4_start + lit 15) process_end
  end.

(* PHASE 5: First Wort Collection *)
Definition new_p5_end (batch_mashing : frame F) (p5_start process_end : F) : F :=
  let post_sparge := List.filter (fun s => minutes s >? p5_start) batch_mashing in
  let second_sparge :=
    List.filter (fun s => sparging_mashing_water_flow s >? lit 200) post_sparge in
  match second_sparge with
  | s :: _ => minutes s - lit 1
  | [] => py_min (p5_start + lit 30) process_end
  end.

(* PHASE 6: Second Sparge *)
Definition new_p6_end (batch_mashing : frame F) (p6_start process_end : F) : F :=
  let post_p5 := List.filter (fun s => minutes s >=? p6_start) batch_mashing in
  let high_flow_p6 :=
    List.filter (fun s => sparging_mashing_water_flow s >? lit 200) post_p5 in
  match last high_flow_p6 with
  | Some s =>
      let last_high := minutes s in
      let after_sparge := List.filter (fun s => minutes s >? last_high) batch_mashing in
      let low_flow :=
        List.filter (fun s => sparging_mashing_water_flow s <? lit 50) after_sparge in
      match low_flow with
      | l :: _ => minutes l
      | [] => last_high + lit 5
      end
  | None => py_min (p6_start + lit 20) process_end
  end.

(** The body of detect_phases_new after the derived column is in place:
    the seven assignments to [phases]. *)
Definition new_phases (batch_mashing : frame F) (process_start process_end : F)
  : result (gmap nat (phase F)) :=
  let phases : gmap nat (phase F) := ∅ in
  let p1_start := process_start in
  let p1_end := new_p1_end batch_mashing process_start in
  let phases := <[1%nat := Phase "Water Pre-Fill" p1_start p1_end]> phases in
  let p2_start := p1_end in
  p2_end ← new_p2_end batch_mashing p2_start;
  let phases := <[2%nat := Phase "Grist Addition" p2_start p2_end]> phases in
  let p3_start := p2_end in
  let p3_end := new_p3_end batch_mashing p3_start process_end in
  let phases := <[3%nat := Phase "Resting" p3_start p3_end]> phases in
  let p4_start := p3_end in
  let p4_end := new_p4_end batch_mashing p4_start process_end in
  let phases := <[4%nat := Phase "Sparge" p4_start p4_end]> phases in
  let p5_start := p4_end in
  let p5_end := new_p5_end batch_mashing p5_start process_end in
  let phases := <[5%nat := Phase "First Wort" p5_start p5_end]> phases in
  let p6_start := p5_end in
  let p6_end := new_p6_end batch_mashing p6_start process_end in
  let phases := <[6%nat := Phase "Second Sparge" p6_start p6_end]> phases in
  let p7_start := p6_end in
  let p7_end := process_end in
  let phases := <[7%nat := Phase "Grain Disposal" p7_start p7_end]> phases in
  mret phases.

(** The derived column: [-weight.diff().fillna(0)], then [max(x, 0)] row
    by row (lines 185-186). *)
Definition grist_flow_raw (weights : list F) : list F :=
  series_neg (fillna (lit 0) (series_diff weights)).
Definition grist_flow_new (weights : list F) : list F :=
  (fun x => py_max x (lit 0)) <$> grist_flow_raw weights.

Definition detect_phases_new (batch_mashing : ref) : M F (gmap nat (phase F)) :=
  bm ← read batch_mashing;
  let process_start := series_min (minutes <$> bm) in
  let process_end := series_max (minutes <$> bm) in
  batch_mashing ← copy batch_mashing;
  bm ← read batch_mashing;
  update batch_mashing (fun df => assign set_grist_flow df
                                    (grist_flow_raw (greast_case_weight <$> bm)));;
  bm ← read batch_mashing;
  update batch_mashing (fun df => assign set_grist_flow df
                                    ((fun x => py_max x (lit 0)) <$> (grist_flow <$> bm)));;
  bm ← read batch_mashing;
  lift (new_phases bm process_start process_end).

(** *** detect_phases, the alternative method (lines 282-360) *)

(* Phase 1: Water Pre-Fill *)
Definition old_p1_end (batch_mashing : frame F) (process_start : F) : F :=
  let grist_starts := List.filter (fun s => grist_flow s >? lit 10) batch_mashing in
  match grist_starts with
  | s :: _ => minutes s
  | [] => process_start + lit 5
  end.

(** [Series.iloc[i]]. *)
Definition iloc (xs : list F) (i : nat) : result F :=
  match xs !! i with
  | Some x => Ok x
  | None => Raise IndexError
  end.

(* Phase 2: Grist Addition *)
Definition old_p2_end (batch_mashing : frame F) : result F :=
  initial_grist ← iloc (greast_case_weight <$> batch_mashing) 0;
  min_grist_idx ← idxmin (greast_case_weight <$> batch_mashing);
  loc_minutes batch_mashing min_grist_idx.

(* Phase 3: Resting *)
Definition old_p3_end (batch_mashing : frame F) (p2_end : F) : F :=
  let post_grist := List.filter (fun s => minutes s >? p2_end) batch_mashing in
  let p3_start := p2_end in
  let high_flow :=
    List.filter (fun s => sparging_mashing_water_flow s >? lit 300) post_grist in
  match high_flow with
  | s :: _ => minutes s
  | [] => p3_start + lit 45
  end.

(* Phase 4: Sparge *)
Definition old_p4_end (batch_mashing : frame F) (p4_start : F) : F :=
  let sparge_data := List.filter (fun s => minutes s >=? p4_start) batch_mashing in
  let high_flow_data :=
    List.filter (fun s => sparging_mashing_water_flow s >? lit 300) sparge_data in
  match high_flow_data with
  | first_high :: _ =>
      let high_flow_data := with_gap high_flow_data in
      let gaps := List.filter (fun s => gap s >? lit 5) high_flow_data in
      match gaps with
      | g :: _ => minutes g - lit 2
      | [] => minutes (List.last high_flow_data first_high) + lit 2
      end
  | [] => p4_start + lit 20
  end.

(* Phase 5: First Wort Collection *)
Definition old_p5_end (batch_mashing : frame F) (p5_start process_end : F) : F :=
  let post_sparge1 := List.filter (fun s => minutes s >? p5_start) batch_mashing in
  let second_sparge :=
    List.filter (fun s => sparging_mashing_water_flow s >? lit 300) post_sparge1 in
  match second_sparge with
  | s :: _ => minutes s - lit 2
  | [] => py_min (p5_start + lit 40) process_end
  end.

(* Phase 6: Second Sparge *)
Definition old_p6_end (batch_mashing : frame F) (p6_start process_end : F) : F :=
  let post_p5 := List.filter (fun s => minutes s >=? p6_start) batch_mashing in
  let high_flow_p6 :=
    List.filter (fun s => sparging_mashing_water_flow s >? lit 300) post_p5 in
  match last high_flow_p6 with
  | Some s => minutes s + lit 5
  | None => py_min (p6_start + lit 30) process_end
  end.

(** The seven assignments to [phases]; [p2] is the Phase 2 block, the only
    place where src/v3.py and src/pages/1_Phase_Analysis.py differ. *)
Definition old_phases (p2 : frame F -> result F)
    (batch_mashing : frame F) (process_start process_end : F)
  : result (gmap nat (phase F)) :=
  let phases : gmap nat (phase F) := ∅ in
  let p1_start := process_start in
  let p1_end := old_p1_end batch_mashing process_start in
  let phases := <[1%nat := Phase "Water Pre-Fill" p1_start p1_end]> phases in
  let p2_start := p1_end in
  p2_end ← p2 batch_mashing;
  let phases := <[2%nat := Phase "Grist Addition" p2_start p2_end]> phases in
  let p3_start := p2_end in
  let p3_end := old_p3_end batch_mashing p2_end in
  let phases := <[3%nat := Phase "Resting" p3_start p3_end]> phases in
  let p4_start := p3_end in
  let p4_end := old_p4_end batch_mashing p4_start in
  let phases := <[4%nat := Phase "Sparge" p4_start p4_end]> phases in
  let p5_start := p4_end in
  let p5_end := old_p5_end batch_mashing p5_start process_end in
  let phases := <[5%nat := Phase "First Wort" p5_start p5_end]> phases in
  let p6_start := p5_end in
  let p6_end := old_p6_end batch_mashing p6_start process_end in
  let phases := <[6%nat := Phase "Second Sparge" p6_start p6_end]> phases in
  let p7_start := p6_end in
  let p7_end := process_end in
  let phases := <[7%nat := Phase "Grain Disposal" p7_start p7_end]> phases in
  mret phases.

(** The derived column with [.clip(lower=0)] (lines 290-291). *)
Definition grist_flow_old (weights : list F) : list F :=
  clip_lower (lit 0) (grist_flow_raw weights).

Definition detect_phases_with (p2 : frame F -> result F) (batch_mashing : ref)
  : M F (gmap nat (phase F)) :=
  bm ← read batch_mashing;
  let process_start := series_min (minutes <$> bm) in
  let process_end := series_max (minutes <$> bm) in
  batch_mashing ← copy batch_mashing;
  bm ← read batch_mashing;
  update batch_mashing (fun df => assign set_grist_flow df
                                    (grist_flow_raw (greast_case_weight <$> bm)));;
  bm ← read batch_mashing;
  update batch_mashing (fun df => assign set_grist_flow df
                                    (clip_lower (lit 0) (grist_flow <$> bm)));;
  bm ← read batch_mashing;
  lift (old_phases p2 bm process_start process_end).

Definition detect_phases : ref -> M F (gmap nat (phase F)) :=
  detect_phases_with old_p2_end.

(** *** calculate_heat_available (lines 362-376) *)

Definition cp_water : F := lit 4.18.
Definition rho_water : F := lit 1.0.

(** The body of the loop [for i in range(1, len(data))]. *)
Definition heat_iteration (data : ref) (i : nat) : M F unit :=
  df ← read (F:=F) data;
  T_initial ← lift (iloc (mashing_sparging_water_temp <$> df) (i - 1)%nat);
  T_final ← lift (iloc (mashing_temp <$> df) i);
  flow ← lift (iloc (sparging_mashing_water_flow <$> df) (i - 1)%nat);
  let flow_prev := flow / lit 60.0 in
  let mass_prev := rho_water * flow_prev in
  let delta_T :=
    if notna T_initial && notna T_final then T_final - T_initial else lit 0 in
  let Q_heat := mass_prev * cp_water * delta_T in
  update (F:=F) data (fun df => alter (fun r => set_heat_available r Q_heat) i df).

Definition calculate_heat_available (data : ref) : M F ref :=
  data ← copy (F:=F) data;
  update (F:=F) data (fun df => (fun r => set_heat_available r (lit 0.0)) <$> df);;
  df ← read (F:=F) data;
  for_each (seq 1 (length df - 1)%nat) (heat_iteration data);;
  mret data.

End Code.
End V3.

(** ** src/pages/1_Phase_Analysis.py *)

Module PhaseAnalysis.
Section Code.
Context {F : Type} `{Number F} {pd : pandas_release}.

(** Lines 23-97.  The text is that of [V3.detect_phases] except for the
    Phase 2 block, which has no [initial_grist] lookup. *)
Definition old_p2_end (batch_mashing : frame F) : result F :=
  min_grist_idx ← idxmin (greast_case_weight <$> batch_mashing);
  loc_minutes batch_mashing min_grist_idx.

Definition detect_phases : ref -> M F (gmap nat (phase F)) :=
  V3.detect_phases_with old_p2_end.

(** Lines 99-113, the same text as in src/v3.py. *)
Definition calculate_heat_available : ref -> M F ref :=
  V3.calculate_heat_available.
End Code.
End PhaseAnalysis.

(** ** Vocabulary of the specification *)

Section Vocabulary.
Context {F : Type} `{Number F}.
Local Open Scope py_scope.

(** The batch as the segmentation sees it: the private copy with the
    derived column (Flow Derivation). *)
Definition derive_new (bm : frame F) : frame F :=
  assign set_grist_flow bm (V3.grist_flow_new (greast_case_weight <$> bm)).
Definition derive_old (bm : frame F) : frame F :=
  assign set_grist_flow bm (V3.grist_flow_old (greast_case_weight <$> bm)).

(** A batch is ordered: every elapsed time is a number and the sequence
    of elapsed times never decreases (the callers sort by timestamp). *)
Fixpoint ordered_from (prev : F) (bm : frame F) : bool :=
  match bm with
  | [] => true
  | s :: t => (prev <=? minutes s) && ordered_from (minutes s) t
  end.
Definition ordered (bm : frame F) : bool :=
  match bm with
  | [] => true
  | s :: t => notna (minutes s) && ordered_from (minutes s) t
  end.

(** Every elapsed time of the frame is a number. *)
Definition timed (df : frame F) : Prop :=
  forall s, In s df -> notna (minutes s) = true.

(** The vessel weight is carried by at least one sample. *)
Definition has_weight (bm : frame F) : bool :=
  existsb (fun s => notna (greast_case_weight s)) bm.

(** The ids of the seven phases. *)
Definition phase_ids : gset nat := list_to_set (seq 1 7).

(** The dictionary with the seven named phases cut at the boundaries
    [b0] ... [b7]: the shape of every dictionary the code returns. *)
Definition seven (b0 b1 b2 b3 b4 b5 b6 b7 : F) : gmap nat (phase F) :=
  <[7%nat := Phase "Grain Disposal" b6 b7]>
  (<[6%nat := Phase "Second Sparge" b5 b6]>
  (<[5%nat := Phase "First Wort" b4 b5]>
  (<[4%nat := Phase "Sparge" b3 b4]>
  (<[3%nat := Phase "Resting" b2 b3]>
  (<[2%nat := Phase "Grist Addition" b1 b2]>
  (<[1%nat := Phase "Water Pre-Fill" b0 b1]> ∅)))))).

(** The thermal flux of one pair of consecutive samples, as the loop body
    of calculate_heat_available computes it. *)
Definition heat_of (prev cur : row F) : F :=
  let T_initial := mashing_sparging_water_temp prev in
  let T_final := mashing_temp cur in
  V3.rho_water * (sparging_mashing_water_flow prev / lit 60.0) * V3.cp_water
  * (if notna T_initial && notna T_final then T_final - T_initial else lit 0).

(** The frame calculate_heat_available returns, as a scan that carries the
    previous sample. *)
Fixpoint heat_from (prev : row F) (rest : frame F) : frame F :=
  match rest with
  | [] => []
  | cur :: rest' => set_heat_available cur (heat_of prev cur) :: heat_from cur rest'
  end.
Definition heat_frame (data : frame F) : frame F :=
  match data with
  | [] => []
  | r0 :: rest => set_heat_available r0 (lit 0.0) :: heat_from r0 rest
  end.

(** A sample with the three signals of the segmentation and no
    temperature reading. *)
Definition sample (t w flow : Q) : row F :=
  Row (lit t) (lit w) (lit flow) nan nan nan nan nan.

(** A sample with the three signals of the thermal flux estimator. *)
Definition thermal_sample (flow mash water : F) : row F :=
  Row (lit 0) (lit 0) flow mash water nan nan nan.

(** A store that holds one batch, bound to reference 0. *)
Definition store_of (bm : frame F) : gmap ref (frame F) := <[0%nat := bm]> ∅.

(** One sample at minute 0. *)
Definition batch_single : frame F := [sample 0 100 0].

(** Seven samples, one per minute, with no grist movement and no water. *)
Definition batch_idle : frame F :=
  (fun t => sample (inject_Z (Z.of_nat t)) 100 0) <$> seq 0 7.

(** The scenario of the specification: 100 samples, minutes 0 to 99, water
    flow 400 for minutes 10 to 30, weight falling from 1000 to 800 between
    minute 2 and minute 8. *)
Definition batch_scenario : frame F :=
  (fun t =>
     let q := inject_Z (Z.of_nat t) in
     sample q
       (if (t <=? 2)%nat then 1000
        else if (8 <=? t)%nat then 800
        else Qred (1000 - (q - 2) * (200 / 6)))
       (if (10 <=? t)%nat && (t <=? 30)%nat then 400 else 0)) <$> seq 0 100.

(** The last sample is the first one with a high water flow. *)
Definition batch_boundary : frame F :=
  [sample 0 100 0; sample 1 80 0; sample 2 80 250; sample 3 80 250].

(** Water flow 250 from minute 2 on: above the strict high-flow threshold
    (200), below the loose one (300). *)
Definition batch_between : frame F :=
  [sample 0 100 0; sample 1 80 0; sample 2 80 250; sample 3 80 250; sample 4 80 0].

(** The thermal scenario of the specification: 300 L/hr of water at 20
    degrees, mash at 65 degrees in the next sample. *)
Definition batch_thermal : frame F :=
  [thermal_sample (lit 300) (lit 60) (lit 20); thermal_sample (lit 300) (lit 65) (lit 20)].

(** Both temperatures and the water flow missing in the first sample. *)
Definition batch_no_flow : frame F :=
  [thermal_sample nan nan nan; thermal_sample (lit 300) nan (lit 20)].

(** The column heat_available of the frame a call returns. *)
Definition heat_column (out : gmap ref (frame F) * result ref) : option (list F) :=
  match out with
  | (σ, Ok r) => (fun df : frame F => heat_available <$> df) <$> σ !! r
  | (_, Raise _) => None
  end.

(** The boundary pair of phase [k] in what a segmentation call returns. *)
Definition bounds (out : gmap ref (frame F) * result (gmap nat (phase F))) (k : nat)
  : option (F * F) :=
  match out.2 with
  | Ok ph => (fun p => (start p, end_ p)) <$> ph !! k
  | Raise _ => None
  end.

End Vocabulary.

(** ** The helpers and callers around the core *)

(** The exception a minimum-weight lookup ends in when no sample carries
    the vessel weight: KeyError, raised by [.loc] on the NaN label, up to
    pandas 2.x; ValueError, raised by [idxmin] itself, from pandas 3.0 on. *)
Definition no_weight_error (pd : pandas_release) : pyexn :=
  match pd with
  | Pandas2 => KeyError
  | Pandas3 => ValueError
  end.

Section MoreBatches.
Context {F : Type} `{Number F}.

(** Seven samples, one per minute, none with a weight reading. *)
Definition batch_weightless : frame F :=
  (fun t => Row (lit (inject_Z (Z.of_nat t))) nan (lit 0) nan nan nan nan nan) <$> seq 0 7.

(** Samples taken at 0, 60, 150, 184, 244 and 300 seconds: a sparge runs
    from 150 s to 184 s and a second one starts at 244 s. *)
Definition batch_one_ulp : frame F :=
  [sample 0 100 0; sample 1 80 0; sample (150 # 60) 80 400; sample (184 # 60) 80 0;
   sample (244 # 60) 80 400; sample 5 80 0].

End MoreBatches.

(** *** generate_color_shades (src/v3.py, lines 154-166) *)

Section Shades.
Context {F : Type} `{Number F}.
Local Open Scope py_scope.

(** A Python int used where a float is expected. *)
Definition of_int (z : Z) : F := lit (inject_Z z).

(** [matplotlib.colors.to_rgb] is the library's: it gives the three
    components of a colour or raises. *)
Variable to_rgb : string -> result (F * F * F).

Definition generate_color_shades (base_color : string) (n_shades : Z) : list (F * F * F) :=
  let rgb :=
    match to_rgb base_color with
    | Ok c => c
    | Raise _ => (lit 0.5, lit 0.5, lit 0.5)
    end in
  (fun i : nat =>
     let factor :=
       lit 0.4 + (lit 0.6 * of_int (Z.of_nat i) / of_int (Z.max (n_shades - 1) 1)) in
     (rgb.1.1 * factor, rgb.1.2 * factor, rgb.2 * factor))
  <$> seq 0 (Z.to_nat n_shades).

End Shades.

(** The factor of shade [i] out of [n], in exact arithmetic. *)
Definition shade_factor (n : Z) (i : nat) : Q :=
  0.4 + 0.6 * inject_Z (Z.of_nat i) / inject_Z (Z.max (n - 1) 1).

(** *** get_batch_numeric (src/v3.py, lines 123-134, and
    src/pages/2_Statistics.py, lines 17-28) and the short batch name of
    plot_multi_batch (src/v3.py, line 519) *)

(** ['c' in s] for a single character. *)
Fixpoint contains (c : ascii) (s : string) : bool :=
  match s with
  | EmptyString => false
  | String a rest => Ascii.eqb a c || contains c rest
  end.

(** [s.split(c)] for a single character: one part more than there are
    occurrences of [c]. *)
Fixpoint split_on (c : ascii) (s : string) : list string :=
  match s with
  | EmptyString => [EmptyString]
  | String a rest =>
      if Ascii.eqb a c then EmptyString :: split_on c rest
      else match split_on c rest with
           | part :: parts => String a part :: parts
           | [] => [String a EmptyString]
           end
  end.

Section BatchIds.

(** The builtin [int] on a string is Python's: [None] stands for the
    ValueError it raises on text that is not a number. *)
Variable py_int : string -> option Z.

(** Batch ids are strings (2_Statistics.py joins them), so [str(batch_id)]
    is the id itself.  Both [except:] clauses turn any exception into
    [None]. *)
Definition get_batch_numeric (batch_id : string) : option Z :=
  if contains "_" batch_id then
    let parts := split_on "_" batch_id in
    if (1 <? length parts)%nat then
      match parts !! 1%nat with
      | Some part => py_int part
      | None => None
      end
    else None
  else py_int batch_id.

End BatchIds.

(** [str(batch_id).split('_')[-1] if '_' in str(batch_id) else str(batch_id)]. *)
Definition short_name (batch_id : string) : string :=
  if contains "_" batch_id then default batch_id (last (split_on "_" batch_id))
  else batch_id.

(** *** The callers of the segmentation (src/v3.py, lines 379-392 and
    434-449; src/pages/1_Phase_Analysis.py, lines 361-381 and 418-430) *)

(** [timestamp] ordering with NaT last, as [sort_values] places it. *)
Definition ts_le (a b : option Z) : bool :=
  match a, b with
  | Some x, Some y => (x <=? y)%Z
  | _, None => true
  | None, Some _ => false
  end.

Fixpoint ts_sorted_from (prev : option Z) (ts : list (option Z)) : bool :=
  match ts with
  | [] => true
  | t :: rest => ts_le prev t && ts_sorted_from t rest
  end.

Definition ts_sorted (ts : list (option Z)) : bool :=
  match ts with
  | [] => true
  | t :: rest => ts_sorted_from t rest
  end.

(** [Series.min()] of the timestamps: NaT is skipped. *)
Definition timestamp_min (ts : list (option Z)) : option Z :=
  fold_left (fun acc t =>
               match t, acc with
               | None, _ => acc
               | Some a, None => Some a
               | Some a, Some b => Some (Z.min b a)
               end) ts None.

Section Callers.
Context {F : Type} `{Number F} {pd : pandas_release}.
Local Open Scope py_scope.

Definition set_minutes (r : row F) (v : F) : row F :=
  Row v (greast_case_weight r) (sparging_mashing_water_flow r)
      (mashing_temp r) (mashing_sparging_water_temp r) (grist_flow r) (gap r)
      (heat_available r).

(** [(timestamp - process_start).dt.total_seconds() / 60]: timestamps are
    counts of nanoseconds, [None] is NaT. *)
Definition elapsed_minutes (process_start t : option Z) : F :=
  match t, process_start with
  | Some a, Some b => of_int (a - b) / lit 1000000000 / lit 60
  | _, _ => nan
  end.

(** [process_start = batch['timestamp'].min()] and the assignment of the
    column minutes; a loaded row is its timestamp and its sensor columns. *)
Definition add_minutes (batch_mashing : list (option Z * row F)) : frame F :=
  let process_start := timestamp_min (fst <$> batch_mashing) in
  (fun tr => set_minutes tr.2 (elapsed_minutes process_start tr.1)) <$> batch_mashing.

(** [phases[pnum]]. *)
Definition phase_at (phases : gmap nat (phase F)) (pnum : nat) : result (phase F) :=
  match phases !! pnum with
  | Some p => Ok p
  | None => Raise KeyError
  end.

(** The loop [for pnum in range(1, 8)] of plot_single_batch: the span and
    the label position of each phase. *)
Fixpoint phase_markers (phases : gmap nat (phase F)) (pnums : list nat)
  : result (list (F * F * F)) :=
  match pnums with
  | [] => Ok []
  | pnum :: rest =>
      p ← phase_at phases pnum;
      let p_start := start p in
      let p_end := end_ p in
      let p_mid := (p_start + p_end) / lit 2 in
      markers ← phase_markers phases rest;
      mret ((p_start, p_end, p_mid) :: markers)
  end.

(** [DataFrame.sort_values('timestamp')] is pandas': a new frame with the
    same rows, which the contract [sorts_by_timestamp] describes. *)
Variable sort_values : list (option Z * row F) -> list (option Z * row F).

(** plot_single_batch, as far as the phases go: the copy sorted by
    timestamp, the guard on an empty batch, the elapsed minutes, the call of
    detect_phases_new and the phase markers drawn from its result.  [None]
    is the early [return None]; the curves of the sensor columns are
    matplotlib calls and not part of the result here. *)
Definition plot_single_batch (batch_mashing : list (option Z * row F))
  : M F (option (list (F * F * F))) :=
  let batch_mashing := sort_values batch_mashing in
  if decide (length batch_mashing = 0%nat) then mret None
  else
    batch_mashing ← new_frame (add_minutes batch_mashing);
    phases ← V3.detect_phases_new batch_mashing;
    markers ← lift (phase_markers phases (seq 1 7));
    mret (Some markers).

(** The window of samples the plot_phase functions of the page select:
    [batch[(minutes >= p_start) & (minutes <= p_end)]]. *)
Definition phase_window (batch_mashing : frame F) (p_start p_end : F) : frame F :=
  List.filter (fun s => (minutes s >=? p_start) && (minutes s <=? p_end)) batch_mashing.

(** The two numbers plot_phase_6 shows: the discharge duration and the
    final weight, which is 0 when the window is empty. *)
Definition plot_phase_6 (batch_mashing : frame F) (phases : gmap nat (phase F))
  : result (F * F) :=
  p7 ← phase_at phases 7;
  let p_start := start p7 in
  let p_end := end_ p7 in
  let phase_data := phase_window batch_mashing p_start p_end in
  let duration := p_end - p_start in
  let final_weight :=
    match last phase_data with
    | Some s => greast_case_weight s
    | None => lit 0
    end in
  mret (duration, final_weight).

End Callers.

(** What is assumed of [sort_values]: the result has the rows of its
    argument and its timestamps never decrease, NaT last. *)
Definition sorts_by_timestamp {F : Type}
    (sort_values : list (option Z * row F) -> list (option Z * row F)) : Prop :=
  forall l, sort_values l ≡ₚ l /\ ts_sorted (fst <$> sort_values l) = true.

(** A sort that meets the contract, by insertion. *)
Fixpoint ts_insert {A : Type} (x : option Z * A) (l : list (option Z * A))
  : list (option Z * A) :=
  match l with
  | [] => [x]
  | y :: rest => if ts_le x.1 y.1 then x :: y :: rest else y :: ts_insert x rest
  end.

Definition ts_insertion_sort {A : Type} (l : list (option Z * A)) : list (option Z * A) :=
  foldr ts_insert [] l.

(** Three samples loaded out of order, one minute apart. *)
Definition batch_unsorted : list (option Z * row xnum) :=
  [(Some 120000000000%Z, sample 0 80 0);
   (Some 0%Z, sample 0 100 0);
   (Some 60000000000%Z, sample 0 90 0)].

(** The second sparge still runs at the last sample. *)
Definition batch_late_sparge : frame xnum :=
  [sample 0 100 0; sample 1 80 0; sample 2 80 400; sample 3 80 400].

(** * Properties *)

(** ** Column assignment and the derived column *)

Section AssignFacts.
Context {F : Type} `{Number F} {pd : pandas_release}.

Lemma length_diff_from (prev : F) (xs : list F) :
  length (diff_from prev xs) = length xs.
Proof. revert prev; induction xs as [|x t IH]; intros prev; simpl; [done|]. by rewrite IH. Qed.

Lemma diff_from_lookup (xs : list F) (prev : F) (i : nat) (a b : F) :
  (prev :: xs) !! i = Some a -> (prev :: xs) !! S i = Some b ->
  diff_from prev xs !! i = Some (fsub b a).
Proof.
  revert prev i; induction xs as [|x t IH]; intros prev i Ha Hb.
  - destruct i; done.
  - destruct i as [|i]; simpl in *.
    + by injection Ha as <-; injection Hb as <-.
    + by apply IH.
Qed.

Lemma length_series_diff (xs : list F) : length (series_diff xs) = length xs.
Proof. destruct xs; simpl; [done|]. by rewrite length_diff_from. Qed.

Lemma length_grist_flow_raw (ws : list F) : length (V3.grist_flow_raw ws) = length ws.
Proof.
  unfold V3.grist_flow_raw, series_neg, fillna.
  by rewrite !length_fmap, length_series_diff.
Qed.

Lemma length_grist_flow_new (ws : list F) : length (V3.grist_flow_new ws) = length ws.
Proof. unfold V3.grist_flow_new. by rewrite length_fmap, length_grist_flow_raw. Qed.

Lemma grist_flow_old_new (ws : list F) : V3.grist_flow_old ws = V3.grist_flow_new ws.
Proof. reflexivity. Qed.

Lemma assign_grist_flow_read (df : frame F) (xs : list F) :
  length xs = length df -> grist_flow <$> assign set_grist_flow df xs = xs.
Proof.
  revert xs; induction df as [|r t IH]; intros [|x xs] Hlen; simpl in *; try done.
  f_equal. apply IH. lia.
Qed.

Lemma assign_grist_flow_twice (df : frame F) (xs ys : list F) :
  length xs = length df ->
  assign set_grist_flow (assign set_grist_flow df xs) ys = assign set_grist_flow df ys.
Proof.
  revert xs ys; induction df as [|r t IH]; intros [|x xs] [|y ys] Hlen; simpl in *; try done.
  f_equal. apply IH. lia.
Qed.

(** What a call of detect_phases_new does to the store and what it
    returns: one new object, the private copy with its derived column, and
    the phases computed from it. *)
Lemma detect_phases_new_run (σ : gmap ref (frame F)) (r : ref) (bm : frame F) :
  σ !! r = Some bm ->
  V3.detect_phases_new r σ =
    (<[fresh (dom σ) := derive_new bm]> σ,
     V3.new_phases (derive_new bm) (series_min (minutes <$> bm))
                   (series_max (minutes <$> bm))).
Proof.
  intros Hr.
  unfold V3.detect_phases_new, copy, new_frame, read, update, lift, mbind, M_bind.
  repeat (first [rewrite Hr | rewrite lookup_insert_eq]; cbn beta iota).
  rewrite !insert_insert_eq.
  assert (Hlen : length (V3.grist_flow_raw (greast_case_weight <$> bm)) = length bm)
    by (by rewrite length_grist_flow_raw, length_fmap).
  rewrite assign_grist_flow_read by done.
  rewrite assign_grist_flow_twice by done.
  reflexivity.
Qed.

Lemma detect_phases_with_run (p2 : frame F -> result F)
    (σ : gmap ref (frame F)) (r : ref) (bm : frame F) :
  σ !! r = Some bm ->
  V3.detect_phases_with p2 r σ =
    (<[fresh (dom σ) := derive_old bm]> σ,
     V3.old_phases p2 (derive_old bm) (series_min (minutes <$> bm))
                   (series_max (minutes <$> bm))).
Proof.
  intros Hr.
  unfold V3.detect_phases_with, copy, new_frame, read, update, lift, mbind, M_bind.
  repeat (first [rewrite Hr | rewrite lookup_insert_eq]; cbn beta iota).
  rewrite !insert_insert_eq.
  assert (Hlen : length (V3.grist_flow_raw (greast_case_weight <$> bm)) = length bm)
    by (by rewrite length_grist_flow_raw, length_fmap).
  rewrite assign_grist_flow_read by done.
  rewrite assign_grist_flow_twice by done.
  reflexivity.
Qed.

Lemma fresh_not_in (σ : gmap ref (frame F)) : σ !! fresh (dom σ) = None.
Proof. apply not_elem_of_dom. apply is_fresh. Qed.

Lemma insert_fresh_lookup (σ : gmap ref (frame F)) (df df' : frame F) (r : ref) :
  σ !! r = Some df -> <[fresh (dom σ) := df']> σ !! r = Some df.
Proof.
  intros Hr. rewrite lookup_insert_ne; [done|].
  intros Heq. rewrite <- Heq, fresh_not_in in Hr. done.
Qed.
End AssignFacts.

(** ** The loop of calculate_heat_available *)

Section HeatFacts.
Context {F : Type} `{Number F}.

Lemma heat_from_set_heat (prev : row F) (h : F) (rest : frame F) :
  heat_from (set_heat_available prev h) rest = heat_from prev rest.
Proof. destruct rest; reflexivity. Qed.

Lemma length_heat_from (prev : row F) (rest : frame F) :
  length (heat_from prev rest) = length rest.
Proof. revert prev; induction rest as [|c t IH]; intros prev; simpl; [done|]. by rewrite IH. Qed.

Lemma length_heat_frame (data : frame F) : length (heat_frame data) = length data.
Proof. destruct data; simpl; [done|]. by rewrite length_heat_from. Qed.

(** Loop invariant: the rows before position [i] are final, the rows from
    [i] on still hold 0.0. *)
Lemma heat_loop (σ : gmap ref (frame F)) (l : ref) (rest done : frame F) (prev : row F) :
  for_each (seq (S (length done)) (length rest)) (V3.heat_iteration l)
    (<[l := done ++ prev :: ((fun r => set_heat_available r (lit 0.0)) <$> rest)]> σ)
  = (<[l := done ++ prev :: heat_from prev rest]> σ, Ok tt).
Proof.
  revert done prev. induction rest as [|cur rest IH]; intros done prev.
  - reflexivity.
  - cbn [length seq for_each fmap list_fmap heat_from].
    unfold mbind at 1, M_bind at 1.
    unfold V3.heat_iteration at 1.
    unfold read, update, lift, mbind, M_bind, V3.iloc.
    rewrite lookup_insert_eq. cbn beta iota.
    rewrite !list_lookup_fmap.
    replace (S (length done) - 1)%nat with (length done) by lia.
    rewrite list_lookup_middle by done.
    replace (done ++ prev :: set_heat_available cur (lit 0.0)
               :: ((fun r => set_heat_available r (lit 0.0)) <$> rest))
      with ((done ++ [prev]) ++ set_heat_available cur (lit 0.0)
               :: ((fun r => set_heat_available r (lit 0.0)) <$> rest))
      by (by rewrite <- app_assoc).
    rewrite list_lookup_middle by (rewrite length_app; simpl; lia).
    cbn [fmap option_fmap option_map]. cbn beta iota.
    rewrite lookup_insert_eq. cbn beta iota.
    rewrite insert_insert_eq.
    rewrite alter_app_r_alt by (rewrite length_app; simpl; lia).
    replace (S (length done) - length (done ++ [prev]))%nat with 0%nat
      by (rewrite length_app; simpl; lia).
    cbn [alter list_alter].
    specialize (IH (done ++ [prev]) (set_heat_available cur (heat_of prev cur))).
    rewrite length_app in IH. simpl in IH.
    replace (length done + 1)%nat with (S (length done)) in IH by lia.
    etrans; [exact IH|].
    rewrite heat_from_set_heat, <- app_assoc. reflexivity.
Qed.

(** What a call of calculate_heat_available does to the store and what it
    returns: one new object, holding the input rows with the column
    heat_available filled in. *)
Lemma calculate_heat_available_run (σ : gmap ref (frame F)) (r : ref) (data : frame F) :
  σ !! r = Some data ->
  V3.calculate_heat_available r σ =
    (<[fresh (dom σ) := heat_frame data]> σ, Ok (fresh (dom σ))).
Proof.
  intros Hr.
  unfold V3.calculate_heat_available, copy, new_frame.
  unfold read at 1 2, update at 1, mbind at 1 2 3 4 5, M_bind at 1 2 3 4 5.
  repeat (first [rewrite Hr | rewrite lookup_insert_eq]; cbn beta iota).
  rewrite insert_insert_eq.
  destruct data as [|r0 rest].
  - reflexivity.
  - cbn [fmap list_fmap length].
    replace (S (length ((fun r1 => set_heat_available r1 (lit 0.0)) <$> rest)) - 1)%nat
      with (length rest) by (rewrite length_fmap; lia).
    pose proof (heat_loop σ (fresh (dom σ)) rest [] (set_heat_available r0 (lit 0.0))) as Hloop.
    simpl app in Hloop. simpl length in Hloop.
    unfold mbind, M_bind. rewrite Hloop.
    rewrite heat_from_set_heat. reflexivity.
Qed.
End HeatFacts.

(** ** Comparisons and arithmetic of the exact numbers *)

Lemma xlt_true (a b : Q) : flt (Fin a) (Fin b) = true <-> (a < b)%Q.
Proof.
  cbn. rewrite negb_true_iff. split.
  - intros Hf. apply Qnot_le_lt. intros Hle. apply Qle_bool_iff in Hle. congruence.
  - intros Hlt. destruct (Qle_bool b a) eqn:E; [|done].
    apply Qle_bool_iff in E. lra.
Qed.

Lemma xlt_false (a b : Q) : flt (Fin a) (Fin b) = false <-> (b <= a)%Q.
Proof.
  cbn. rewrite negb_false_iff. apply Qle_bool_iff.
Qed.

Lemma xle_true (a b : Q) : fle (Fin a) (Fin b) = true <-> (a <= b)%Q.
Proof. cbn. apply Qle_bool_iff. Qed.

Lemma xle_false (a b : Q) : fle (Fin a) (Fin b) = false <-> (b < a)%Q.
Proof.
  cbn. split.
  - intros Hf. apply Qnot_le_lt. intros Hle. apply Qle_bool_iff in Hle. congruence.
  - intros Hlt. destruct (Qle_bool a b) eqn:E; [|done].
    apply Qle_bool_iff in E. lra.
Qed.

Lemma xeq_true (a b : Q) : feq (Fin a) (Fin b) = true <-> (a == b)%Q.
Proof. cbn. apply Qeq_bool_iff. Qed.

Lemma notna_Fin (a : Q) : notna (Fin a) = true.
Proof. apply Qeq_bool_refl. Qed.

Lemma isna_Fin (a : Q) : isna (Fin a) = false.
Proof. unfold isna. cbn. by rewrite Qeq_bool_refl. Qed.

Lemma notna_is_Fin (x : xnum) : notna x = true -> exists a, x = Fin a.
Proof. destruct x as [a|]; [by exists a | done]. Qed.

Lemma xle_is_Fin_r (x y : xnum) : fle x y = true -> exists b, y = Fin b.
Proof. destruct x, y as [b|]; try done. by exists b. Qed.

Lemma xlt_is_Fin_r (x y : xnum) : flt x y = true -> exists b, y = Fin b.
Proof. destruct x, y as [b|]; try done. by exists b. Qed.

Lemma py_min_Fin (a b : Q) :
  exists q, py_min (Fin a) (Fin b) = Fin q /\ (q <= a)%Q /\ (q <= b)%Q /\ (q = a \/ q = b).
Proof.
  unfold py_min. destruct (flt (Fin b) (Fin a)) eqn:E.
  - apply xlt_true in E. exists b. repeat split; [lra | lra | by right].
  - apply xlt_false in E. exists a. repeat split; [lra | lra | by left].
Qed.

(** Turn the boolean comparisons of the context and of the goal into
    statements about rationals. *)
Ltac xnum_props :=
  repeat match goal with
  | H : flt (Fin _) (Fin _) = true |- _ => apply xlt_true in H
  | H : flt (Fin _) (Fin _) = false |- _ => apply xlt_false in H
  | H : fle (Fin _) (Fin _) = true |- _ => apply xle_true in H
  | H : fle (Fin _) (Fin _) = false |- _ => apply xle_false in H
  | H : feq (Fin _) (Fin _) = true |- _ => apply xeq_true in H
  | |- flt (Fin _) (Fin _) = true => apply xlt_true
  | |- flt (Fin _) (Fin _) = false => apply xlt_false
  | |- fle (Fin _) (Fin _) = true => apply xle_true
  | |- fle (Fin _) (Fin _) = false => apply xle_false
  | |- feq (Fin _) (Fin _) = true => apply xeq_true
  end.

(** ** Rows selected by a boolean mask *)

Section FilterFacts.
Context {A : Type}.

Lemma filter_head_In (f : A -> bool) (l : list A) (x : A) (t : list A) :
  List.filter f l = x :: t -> In x l /\ f x = true.
Proof.
  intros E. apply (filter_In f x l). rewrite E. by left.
Qed.

Lemma filter_nil_all (f : A -> bool) (l : list A) :
  List.filter f l = [] -> forall x, In x l -> f x = false.
Proof.
  intros E x Hx. destruct (f x) eqn:Ef; [|done].
  assert (Hin : In x (List.filter f l)) by (by apply filter_In).
  rewrite E in Hin. destruct Hin.
Qed.

Lemma filter_last_In (f : A -> bool) (l : list A) (x : A) :
  last (List.filter f l) = Some x -> In x l /\ f x = true.
Proof.
  intros E. apply last_Some_elem_of, list_elem_of_In in E.
  by apply filter_In in E.
Qed.

Lemma filter_last_nil (f : A -> bool) (l : list A) :
  last (List.filter f l) = None -> forall x, In x l -> f x = false.
Proof. intros E. apply last_None in E. by apply filter_nil_all. Qed.

Lemma filter_idem (f : A -> bool) (l : list A) :
  List.filter f (List.filter f l) = List.filter f l.
Proof.
  induction l as [|x t IH]; simpl; [done|].
  destruct (f x) eqn:E; simpl; [|done]. by rewrite E, IH.
Qed.

Lemma filter_implied (f g : A -> bool) (l : list A) :
  (forall x, In x l -> f x = true -> g x = true) ->
  List.filter f (List.filter g l) = List.filter f l.
Proof.
  induction l as [|x t IH]; intros Himp; simpl; [done|].
  assert (IH' : List.filter f (List.filter g t) = List.filter f t).
  { apply IH. intros y Hy. apply Himp. by right. }
  destruct (g x) eqn:Eg; simpl.
  - by rewrite IH'.
  - destruct (f x) eqn:Ef; [|done].
    rewrite (Himp x) in Eg; [done | by left | done].
Qed.
End FilterFacts.

(** ** Ordered batches and the derived frame *)

Section DeriveFacts.
Context {F : Type} `{Number F}.

Lemma assign_In (df : frame F) (xs : list F) (s : row F) :
  In s (assign set_grist_flow df xs) ->
  exists s' g, In s' df /\ s = set_grist_flow s' g.
Proof.
  revert xs; induction df as [|r t IH]; intros [|x xs] Hin; simpl in *; try done.
  destruct Hin as [<- | Hin].
  - exists r, x. split; [by left | done].
  - destruct (IH xs Hin) as (s' & g & Hs' & ->). exists s', g. split; [by right | done].
Qed.

Lemma derive_new_In (bm : frame F) (s : row F) :
  In s (derive_new bm) -> exists s' g, In s' bm /\ s = set_grist_flow s' g.
Proof. apply assign_In. Qed.

Lemma assign_In_rev (df : frame F) (xs : list F) (s : row F) :
  length xs = length df -> In s df ->
  exists g, In (set_grist_flow s g) (assign set_grist_flow df xs).
Proof.
  revert xs; induction df as [|r t IH]; intros [|x xs] Hlen Hin; simpl in *; try done.
  destruct Hin as [<- | Hin].
  - exists x. by left.
  - destruct (IH xs) as (g & Hg); [lia | done |]. exists g. by right.
Qed.

Lemma derive_new_In_rev (bm : frame F) (s : row F) :
  In s bm -> exists g, In (set_grist_flow s g) (derive_new bm).
Proof.
  apply assign_In_rev. by rewrite length_grist_flow_new, length_fmap.
Qed.

Lemma has_weight_assign (df : frame F) (xs : list F) :
  length xs = length df ->
  has_weight (assign set_grist_flow df xs) = has_weight df.
Proof.
  unfold has_weight.
  revert xs; induction df as [|r t IH]; intros [|x xs] Hlen; simpl in *; try done.
  f_equal. apply IH. lia.
Qed.

Lemma has_weight_derive_new (bm : frame F) : has_weight (derive_new bm) = has_weight bm.
Proof.
  apply has_weight_assign. by rewrite length_grist_flow_new, length_fmap.
Qed.

Lemma timed_derive_new (bm : frame F) : timed bm -> timed (derive_new bm).
Proof.
  intros Ht s Hs. destruct (derive_new_In bm s Hs) as (s' & g & Hs' & ->).
  exact (Ht s' Hs').
Qed.

Lemma last_default_irrel {A} (l : list A) (d d' : A) :
  l <> [] -> List.last l d = List.last l d'.
Proof.
  induction l as [|x l IH]; intros Hne; [done|].
  destruct l as [|y l]; [done|]. apply IH. done.
Qed.

Lemma last_cons_default {A} (x : A) (t : list A) : last (x :: t) = Some (List.last t x).
Proof.
  revert x; induction t as [|y t IH]; intros x; [done|].
  rewrite last_cons_cons, IH. f_equal.
  destruct t as [|z t]; [done|].
  change (List.last (y :: z :: t) x) with (List.last (z :: t) x).
  by apply last_default_irrel.
Qed.
End DeriveFacts.

Lemma ordered_from_ge (a : Q) (df : frame xnum) :
  ordered_from (Fin a) df = true ->
  forall s, In s df -> exists q, minutes s = Fin q /\ (a <= q)%Q.
Proof.
  revert a; induction df as [|r t IH]; intros a Hord s Hs; [destruct Hs|].
  cbn [ordered ordered_from] in Hord. apply andb_true_iff in Hord as [Hle Hrest].
  destruct (xle_is_Fin_r _ _ Hle) as [b Hb]. rewrite Hb in Hle, Hrest.
  xnum_props.
  destruct Hs as [<- | Hs].
  - exists b. by split.
  - destruct (IH b Hrest s Hs) as (q & Hq & Hbq). exists q. split; [done | lra].
Qed.

Lemma ordered_head_le (s0 : row xnum) (t : frame xnum) :
  ordered (s0 :: t) = true ->
  exists q0, minutes s0 = Fin q0 /\
    forall s, In s (s0 :: t) -> exists q, minutes s = Fin q /\ (q0 <= q)%Q.
Proof.
  cbn [ordered]. intros Hord. apply andb_true_iff in Hord as [Hna Hrest].
  destruct (notna_is_Fin _ Hna) as [q0 Hq0]. rewrite Hq0 in Hrest.
  exists q0. split; [done|]. intros s [<- | Hs].
  - exists q0. split; [done | lra].
  - by apply ordered_from_ge with (df := t).
Qed.

Lemma ordered_timed (df : frame xnum) : ordered df = true -> timed df.
Proof.
  destruct df as [|s0 t]; intros Hord s Hs; [destruct Hs|].
  destruct (ordered_head_le s0 t Hord) as (q0 & _ & Hall).
  destruct (Hall s Hs) as (q & -> & _). apply notna_Fin.
Qed.

Lemma fold_nanmin2_ordered (ms : list xnum) (q0 : Q) :
  (forall m, In m ms -> exists q, m = Fin q /\ (q0 <= q)%Q) ->
  fold_left nanmin2 ms (Fin q0) = Fin q0.
Proof.
  induction ms as [|m ms IH]; intros Hall; [done|].
  simpl. destruct (Hall m) as (q & -> & Hq); [by left|].
  unfold nanmin2 at 2. rewrite !isna_Fin.
  assert (Hlt : flt (Fin q) (Fin q0) = false) by (xnum_props; lra).
  rewrite Hlt. apply IH. intros m' Hm'. apply Hall. by right.
Qed.

(** On an ordered batch [minutes.min()] is the elapsed time of the first
    sample. *)
Lemma series_min_ordered (s0 : row xnum) (t : frame xnum) :
  ordered (s0 :: t) = true ->
  series_min (minutes <$> s0 :: t) = minutes s0.
Proof.
  intros Hord. destruct (ordered_head_le s0 t Hord) as (q0 & Hq0 & Hall).
  unfold series_min. cbn [fmap list_fmap fold_left]. rewrite Hq0.
  unfold nanmin2 at 2. rewrite isna_Fin. cbn [isna feq xnum_number xnum_cmp negb nan].
  apply fold_nanmin2_ordered.
  intros m Hm. apply list_elem_of_In, list_elem_of_fmap in Hm as (s & -> & Hs).
  apply list_elem_of_In in Hs. apply Hall. by right.
Qed.

Lemma fold_nanmax2_ordered (t : frame xnum) (d : row xnum) (a a' : Q) :
  minutes d = Fin a -> (a' == a)%Q -> ordered_from (Fin a) t = true ->
  exists b qn,
    fold_left nanmax2 (minutes <$> t) (Fin a') = Fin b /\
    minutes (List.last t d) = Fin qn /\ (b == qn)%Q.
Proof.
  revert d a a'; induction t as [|s t IH]; intros d a a' Hd Ha Hord.
  - exists a', a. by repeat split.
  - cbn [ordered ordered_from] in Hord. apply andb_true_iff in Hord as [Hle Hrest].
    destruct (xle_is_Fin_r _ _ Hle) as [q Hq]. rewrite Hq in Hle, Hrest.
    xnum_props.
    cbn [fmap list_fmap fold_left]. rewrite Hq.
    unfold nanmax2 at 2. rewrite !isna_Fin.
    assert (Hlast : List.last (s :: t) d = List.last t s).
    { destruct t as [|y t']; [done|].
      change (List.last (s :: y :: t') d) with (List.last (y :: t') d).
      by apply last_default_irrel. }
    rewrite Hlast.
    destruct (flt (Fin a') (Fin q)) eqn:E.
    + apply (IH s q q); [done | lra | done].
    + xnum_props. apply (IH s q a'); [done | lra | done].
Qed.

(** On an ordered batch [minutes.max()] equals the elapsed time of the
    last sample. *)
Lemma series_max_ordered (df : frame xnum) (sn : row xnum) :
  ordered df = true -> last df = Some sn ->
  exists b qn,
    series_max (minutes <$> df) = Fin b /\ minutes sn = Fin qn /\ (b == qn)%Q.
Proof.
  destruct df as [|s0 t]; [done|]. intros Hord Hlast.
  rewrite last_cons_default in Hlast. injection Hlast as <-.
  cbn [ordered ordered_from] in Hord. apply andb_true_iff in Hord as [Hna Hrest].
  destruct (notna_is_Fin _ Hna) as [q0 Hq0]. rewrite Hq0 in Hrest.
  unfold series_max. cbn [fmap list_fmap fold_left]. rewrite Hq0.
  unfold nanmax2 at 2. rewrite isna_Fin. cbn [isna feq xnum_number xnum_cmp negb nan].
  apply (fold_nanmax2_ordered t s0 q0 q0); [done | lra | done].
Qed.

Lemma ordered_from_le_last (a : Q) (df : frame xnum) (sn : row xnum) :
  ordered_from (Fin a) df = true -> last df = Some sn ->
  exists qn, minutes sn = Fin qn /\ (a <= qn)%Q /\
    forall s, In s df -> exists q, minutes s = Fin q /\ (q <= qn)%Q.
Proof.
  revert a; induction df as [|r t IH]; intros a Hord Hlast; [done|].
  cbn [ordered_from] in Hord. apply andb_true_iff in Hord as [Hle Hrest].
  destruct (xle_is_Fin_r _ _ Hle) as [b Hb]. rewrite Hb in Hle, Hrest.
  xnum_props. rewrite last_cons in Hlast.
  destruct (last t) as [y|] eqn:Et.
  - injection Hlast as ->.
    destruct (IH b Hrest eq_refl) as (qn & Hqn & Hbq & Hall).
    exists qn. split; [done|]. split; [lra|].
    intros s [<- | Hs]; [|by apply Hall]. exists b. split; [done | lra].
  - injection Hlast as ->. apply last_None in Et as ->.
    exists b. split; [done|]. split; [done|].
    intros s [<- | []]. exists b. split; [done | lra].
Qed.

Lemma ordered_le_last (df : frame xnum) (sn : row xnum) :
  ordered df = true -> last df = Some sn ->
  exists qn, minutes sn = Fin qn /\
    forall s, In s df -> exists q, minutes s = Fin q /\ (q <= qn)%Q.
Proof.
  destruct df as [|s0 t]; [done|]. intros Hord Hlast.
  cbn [ordered] in Hord. apply andb_true_iff in Hord as [Hna Hrest].
  destruct (notna_is_Fin _ Hna) as [q0 Hq0]. rewrite Hq0 in Hrest.
  rewrite last_cons in Hlast. destruct (last t) as [y|] eqn:Et.
  - injection Hlast as ->.
    destruct (ordered_from_le_last q0 t sn Hrest Et) as (qn & Hqn & H0n & Hall).
    exists qn. split; [done|].
    intros s [<- | Hs]; [|by apply Hall]. by exists q0.
  - injection Hlast as ->. apply last_None in Et as ->.
    exists q0. split; [done|]. intros s [<- | []]. exists q0. split; [done | lra].
Qed.

(** ** The gap column and idxmin *)

Ltac case_frame E :=
  match goal with
  | |- context [match ?l with [] => _ | _ :: _ => _ end] => destruct l eqn:E
  end.

Ltac case_last E :=
  match goal with
  | |- context [match last ?l with Some _ => _ | None => _ end] => destruct (last l) eqn:E
  end.

Section ScanFacts.
Context {F : Type} `{Number F} {pd : pandas_release}.

Lemma with_gap_cons (h : row F) (t : frame F) :
  with_gap (h :: t) =
  set_gap h nan :: zip_with set_gap t (diff_from (minutes h) (minutes <$> t)).
Proof. reflexivity. Qed.

Lemma gap_tail_In (t : frame F) (h x : row F) :
  In x (zip_with set_gap t (diff_from (minutes h) (minutes <$> t))) ->
  exists y prev, In y t /\ In prev (h :: t) /\ x = set_gap y (fsub (minutes y) (minutes prev)).
Proof.
  revert h; induction t as [|y t IH]; intros h Hin; [destruct Hin|].
  cbn [fmap list_fmap diff_from zip_with] in Hin.
  destruct Hin as [<- | Hin].
  - exists y, h. repeat split; [by left | by left].
  - destruct (IH y Hin) as (y' & prev & Hy' & Hprev & ->).
    exists y', prev. repeat split; [by right | by right].
Qed.

Lemma with_gap_In (hf : frame F) (x : row F) :
  In x (with_gap hf) -> exists y g, In y hf /\ x = set_gap y g.
Proof.
  destruct hf as [|h t]; [intros []|].
  rewrite with_gap_cons. intros [<- | Hin].
  - exists h, nan. split; [by left | done].
  - destruct (gap_tail_In t h x Hin) as (y & prev & Hy & _ & ->).
    exists y, (fsub (minutes y) (minutes prev)). split; [by right | done].
Qed.

Lemma List_last_In {A} (l : list A) (d : A) : l <> [] -> In (List.last l d) l.
Proof.
  induction l as [|x l IH]; intros Hne; [done|].
  destruct l as [|y l]; [by left|].
  right. apply IH. done.
Qed.

Lemma idxmin_from_bound (ws : list F) (k : nat) (best : option (nat * F)) (i : nat) (x : F) :
  idxmin_from k ws best = Some (i, x) ->
  best = Some (i, x) \/ (k <= i < k + length ws)%nat.
Proof.
  revert k best; induction ws as [|w ws IH]; intros k best Hmin; [by left|].
  cbn [idxmin_from] in Hmin. apply IH in Hmin as [Hbest | Hrange].
  - destruct (isna w); [by left|].
    destruct best as [[j b]|].
    + destruct (flt w b); [|by left].
      injection Hbest as <- <-. right. simpl. lia.
    + injection Hbest as <- <-. right. simpl. lia.
  - right. simpl. lia.
Qed.

Lemma idxmin_from_is_Some (ws : list F) (k : nat) (best : option (nat * F)) :
  is_Some best \/ existsb notna ws = true -> is_Some (idxmin_from k ws best).
Proof.
  revert k best; induction ws as [|w ws IH]; intros k best Hsome.
  - destruct Hsome as [Hb | Hex]; [done | discriminate].
  - cbn [idxmin_from]. apply IH.
    unfold isna. destruct (notna w) eqn:Ew.
    + left. unfold notna in Ew. rewrite Ew. simpl.
      destruct best as [[j b]|]; [destruct (flt w b)|]; done.
    + unfold notna in Ew. rewrite Ew. simpl.
      destruct Hsome as [Hb | Hex]; [by left|].
      right. cbn [existsb] in Hex. unfold notna at 1 in Hex.
      rewrite Ew in Hex. exact Hex.
Qed.

Lemma has_weight_existsb (df : frame F) :
  existsb notna (greast_case_weight <$> df) = has_weight df.
Proof.
  unfold has_weight. induction df as [|r t IH]; [done|].
  cbn [fmap list_fmap existsb]. by rewrite <- IH.
Qed.

(** The minimum-weight lookup of Phase 2 succeeds on a non-empty frame
    that carries the weight. *)
Lemma min_weight_lookup (df : frame F) :
  df <> [] -> has_weight df = true ->
  exists s, In s df /\
    (idxmin (greast_case_weight <$> df) ≫= loc_minutes df) = Ok (minutes s).
Proof.
  intros Hne Hw. destruct df as [|r t]; [done|].
  rewrite <- has_weight_existsb in Hw.
  destruct (idxmin_from_is_Some (greast_case_weight <$> r :: t) 0 None (or_intror Hw))
    as [[i x] Hmin].
  unfold idxmin. cbn [fmap list_fmap]. cbn [fmap list_fmap] in Hmin.
  rewrite Hmin. cbn [mbind result_bind fmap option_fmap option_map fst loc_minutes].
  apply idxmin_from_bound in Hmin as [Hbest | Hrange]; [done|].
  cbn [length] in Hrange. rewrite length_fmap in Hrange.
  destruct (lookup_lt_is_Some_2 (r :: t) i) as [s Hs]; [simpl; lia|].
  rewrite Hs. exists s. split; [|done].
  apply list_elem_of_In. by apply list_elem_of_lookup_2 with i.
Qed.

(** The three ways in which Phase 2 of detect_phases_new ends. *)
Lemma new_p2_end_cases (df : frame F) (p : F) :
  df = [] \/ has_weight df = true ->
  exists e, V3.new_p2_end df p = Ok e /\
    ((exists s, In s df /\ fle p (minutes s) = true /\
                flt (lit 0.5) (grist_flow s) = true /\ e = fadd (minutes s) (lit 1))
     \/ ((exists s, In s df /\ e = minutes s) /\
         (exists s, In s df /\ fle p (minutes s) = true) /\
         (forall s, In s df -> fle p (minutes s) = true ->
                    flt (lit 0.5) (grist_flow s) = false))
     \/ ((forall s, In s df -> fle p (minutes s) = false) /\ e = fadd p (lit 10))).
Proof.
  intros Hw. unfold V3.new_p2_end.
  case_frame Edata.
  - exists (fadd p (lit 10)). split; [done|]. right; right. split; [|done].
    by apply filter_nil_all.
  - rewrite <- Edata. case_last Eact.
    + eexists. split; [done|]. left.
      apply filter_last_In in Eact as [Hin Hflow].
      apply filter_In in Hin as [Hin Hge].
      exists r0. by repeat split.
    + assert (Hr : In r df /\ fle p (minutes r) = true) by (by apply (filter_head_In _ _ _ _ Edata)).
      destruct Hr as [Hr Hrge].
      destruct Hw as [-> | Hw]; [destruct Hr|].
      destruct (min_weight_lookup df) as (s & Hs & Hmin); [by intros -> | done |].
      exists (minutes s). split; [exact Hmin|]. right; left.
      split; [by exists s|]. split; [by exists r|].
      intros s' Hs' Hge'. apply (filter_last_nil _ _ Eact).
      by apply filter_In.
Qed.
End ScanFacts.

(** ** The dictionary of phases *)

Section PhasesFacts.
Context {F : Type} `{Number F} {pd : pandas_release}.

Lemma seven_dom (b0 b1 b2 b3 b4 b5 b6 b7 : F) :
  dom (seven b0 b1 b2 b3 b4 b5 b6 b7) = phase_ids.
Proof.
  unfold seven, phase_ids. rewrite !dom_insert_L, dom_empty_L.
  cbn [seq list_to_set foldr]. set_solver.
Qed.

Lemma new_phases_seven (df : frame F) (ps pe e2 : F) :
  V3.new_p2_end df (V3.new_p1_end df ps) = Ok e2 ->
  let e1 := V3.new_p1_end df ps in
  let e3 := V3.new_p3_end df e2 pe in
  let e4 := V3.new_p4_end df e3 pe in
  let e5 := V3.new_p5_end df e4 pe in
  let e6 := V3.new_p6_end df e5 pe in
  V3.new_phases df ps pe = Ok (seven ps e1 e2 e3 e4 e5 e6 pe).
Proof. intros H2. unfold V3.new_phases. rewrite H2. reflexivity. Qed.

(** detect_phases_new returns whenever the batch is empty or carries the
    vessel weight, and what it returns has the seven ids. *)
Lemma detect_phases_new_returns (σ : gmap ref (frame F)) (r : ref) (bm : frame F) :
  σ !! r = Some bm -> bm = [] \/ has_weight bm = true ->
  exists e2,
    let df := derive_new bm in
    let ps := series_min (minutes <$> bm) in
    let pe := series_max (minutes <$> bm) in
    V3.new_p2_end df (V3.new_p1_end df ps) = Ok e2 /\
    (V3.detect_phases_new r σ).2 =
      Ok (seven ps (V3.new_p1_end df ps) e2 (V3.new_p3_end df e2 pe)
            (V3.new_p4_end df (V3.new_p3_end df e2 pe) pe)
            (V3.new_p5_end df (V3.new_p4_end df (V3.new_p3_end df e2 pe) pe) pe)
            (V3.new_p6_end df
               (V3.new_p5_end df (V3.new_p4_end df (V3.new_p3_end df e2 pe) pe) pe) pe)
            pe).
Proof.
  intros Hr Hw.
  assert (Hw' : derive_new bm = [] \/ has_weight (derive_new bm) = true).
  { destruct Hw as [-> | Hw]; [by left | right]. by rewrite has_weight_derive_new. }
  destruct (new_p2_end_cases (derive_new bm)
              (V3.new_p1_end (derive_new bm) (series_min (minutes <$> bm))) Hw')
    as (e2 & He2 & _).
  exists e2. cbn zeta. split; [done|].
  rewrite (detect_phases_new_run σ r bm Hr). cbn [snd].
  by apply new_phases_seven.
Qed.
End PhasesFacts.

(** ** The boundaries of detect_phases_new on exact numbers *)

Lemma in_ge_window (p : Q) (df : frame xnum) (s : row xnum) :
  In s (List.filter (fun s => fle (Fin p) (minutes s)) df) ->
  In s df /\ exists q, minutes s = Fin q /\ (p <= q)%Q.
Proof.
  intros Hin. apply filter_In in Hin as [Hin Hge]. split; [done|].
  destruct (xle_is_Fin_r _ _ Hge) as [q Hq]. rewrite Hq in Hge. xnum_props.
  by exists q.
Qed.

Lemma in_gt_window (p : Q) (df : frame xnum) (s : row xnum) :
  In s (List.filter (fun s => flt (Fin p) (minutes s)) df) ->
  In s df /\ exists q, minutes s = Fin q /\ (p < q)%Q.
Proof.
  intros Hin. apply filter_In in Hin as [Hin Hgt]. split; [done|].
  destruct (xlt_is_Fin_r _ _ Hgt) as [q Hq]. rewrite Hq in Hgt. xnum_props.
  by exists q.
Qed.

Lemma new_p1_end_bound (df : frame xnum) (ps : Q) :
  timed df ->
  exists q, V3.new_p1_end df (Fin ps) = Fin q /\
    ((forall s, In s df -> exists q', minutes s = Fin q' /\ (ps <= q')%Q) -> (ps <= q)%Q).
Proof.
  intros Ht. unfold V3.new_p1_end. case_frame E.
  - exists (ps + 5)%Q. split; [done|]. intros _. lra.
  - apply filter_head_In in E as [Hin _].
    destruct (notna_is_Fin _ (Ht r Hin)) as [q Hq].
    exists q. split; [done|]. intros Hall.
    destruct (Hall r Hin) as (q' & Hq' & Hle). congruence.
Qed.

Lemma new_p2_end_bound {pd : pandas_release} (df : frame xnum) (p : Q) :
  timed df -> df = [] \/ has_weight df = true ->
  exists q, V3.new_p2_end df (Fin p) = Ok (Fin q) /\
    ((forall s, In s df -> fle (Fin p) (minutes s) = false) \/
     (exists s, In s df /\ fle (Fin p) (minutes s) = true /\
                flt (lit 0.5) (grist_flow s) = true) ->
     (p <= q)%Q).
Proof.
  intros Ht Hw.
  destruct (new_p2_end_cases df (Fin p) Hw) as (e & He & Hcases).
  destruct Hcases as [(s & Hs & Hge & Hact & ->) | [((s & Hs & ->) & (s1 & Hs1 & Hge1) & Hidle) | (Hnone & ->)]].
  - destruct (xle_is_Fin_r _ _ Hge) as [q Hq]. rewrite Hq in *. xnum_props.
    exists (q + 1)%Q. split; [done|]. intros _. lra.
  - destruct (notna_is_Fin _ (Ht s Hs)) as [q Hq]. rewrite Hq in *.
    exists q. split; [done|]. intros [Hnone | (s2 & Hs2 & Hge2 & Hact2)].
    + rewrite (Hnone s1 Hs1) in Hge1. discriminate.
    + rewrite (Hidle s2 Hs2 Hge2) in Hact2. discriminate.
  - exists (p + 10)%Q. split; [done|]. intros _. lra.
Qed.

Lemma new_p3_end_bound (df : frame xnum) (p e : Q) :
  exists q, V3.new_p3_end df (Fin p) (Fin e) = Fin q /\ ((p <= e)%Q -> (p <= q)%Q).
Proof.
  unfold V3.new_p3_end. case_frame E.
  - destruct (py_min_Fin (p + 60) e) as (q & Hq & _ & _ & Hor).
    exists q. split; [exact Hq|]. intros Hpe. destruct Hor as [-> | ->]; lra.
  - apply filter_head_In in E as [Hin _].
    apply in_gt_window in Hin as (_ & q & Hq & Hlt).
    exists q. split; [done|]. intros _. lra.
Qed.

Lemma new_p5_end_bound (df : frame xnum) (p e : Q) :
  exists q, V3.new_p5_end df (Fin p) (Fin e) = Fin q /\
    ((p <= e)%Q ->
     (forall s, In s df -> flt (Fin p) (minutes s) = true ->
                flt (lit 200) (sparging_mashing_water_flow s) = true ->
                fle (Fin p) (fsub (minutes s) (lit 1)) = true) ->
     (p <= q)%Q).
Proof.
  unfold V3.new_p5_end. case_frame E.
  - destruct (py_min_Fin (p + 30) e) as (q & Hq & _ & _ & Hor).
    exists q. split; [exact Hq|]. intros Hpe _. destruct Hor as [-> | ->]; lra.
  - apply filter_head_In in E as [Hin Hflow].
    pose proof Hin as Hin'. apply filter_In in Hin' as [Hdf Hgt].
    apply in_gt_window in Hin as (_ & q & Hq & Hlt).
    rewrite Hq. exists (q - 1)%Q. split; [done|]. intros _ Hspaced.
    specialize (Hspaced r Hdf Hgt Hflow). rewrite Hq in Hspaced.
    change (fsub (Fin q) (lit 1)) with (Fin (q - 1)) in Hspaced. by xnum_props.
Qed.

Lemma new_p6_end_bound (df : frame xnum) (p e : Q) :
  exists q, V3.new_p6_end df (Fin p) (Fin e) = Fin q /\ ((p <= e)%Q -> (p <= q)%Q) /\
    ((forall s, In s df -> exists q', minutes s = Fin q' /\ (q' <= e)%Q) ->
     (forall s, In s df -> fle (Fin p) (minutes s) = true ->
                flt (lit 200) (sparging_mashing_water_flow s) = false) \/
     (exists l, In l df /\ flt (sparging_mashing_water_flow l) (lit 50) = true /\
        forall h, In h df -> fle (Fin p) (minutes h) = true ->
                  flt (lit 200) (sparging_mashing_water_flow h) = true ->
                  flt (minutes h) (minutes l) = true) ->
     (q <= e)%Q).
Proof.
  unfold V3.new_p6_end.
  destruct (last (List.filter (fun s => flt (lit 200) (sparging_mashing_water_flow s))
                    (List.filter (fun s => fle (Fin p) (minutes s)) df)))
    as [hl|] eqn:Ehigh.
  - apply filter_last_In in Ehigh as [Hin Hhigh].
    apply in_ge_window in Hin as (Hdf & qr & Hqr & Hle).
    rewrite Hqr.
    destruct (List.filter (fun s => flt (sparging_mashing_water_flow s) (lit 50))
                (List.filter (fun s => flt (Fin qr) (minutes s)) df))
      as [|lo rest] eqn:Elow.
    + exists (qr + 5)%Q. split; [done|]. split; [intros _; lra|].
      intros _ [Hnone | (l & Hl & Hlow & Hafter)].
      * rewrite Hnone in Hhigh; [done | done |]. rewrite Hqr. by xnum_props.
      * assert (Hge : fle (Fin p) (minutes hl) = true) by (rewrite Hqr; by xnum_props).
        pose proof (Hafter hl Hdf Hge Hhigh) as Hlt. rewrite Hqr in Hlt.
        assert (Hin : In l (List.filter (fun s => flt (Fin qr) (minutes s)) df))
          by (by apply filter_In).
        rewrite (filter_nil_all _ _ Elow l Hin) in Hlow. done.
    + apply filter_head_In in Elow as [Hin _].
      apply in_gt_window in Hin as (Hlo & ql & Hql & Hlt).
      exists ql. split; [done|]. split; [intros _; lra|].
      intros Hall _. destruct (Hall lo Hlo) as (q' & Hq' & Hq'e). congruence.
  - destruct (py_min_Fin (p + 20) e) as (q & Hq & _ & Hqe & Hor).
    exists q. split; [exact Hq|].
    split; [intros Hpe; destruct Hor as [-> | ->]; lra | by intros _ _].
Qed.

Lemma new_p4_end_bound (df : frame xnum) (p e : Q) :
  exists q, V3.new_p4_end df (Fin p) (Fin e) = Fin q /\ ((p <= e)%Q -> (p <= q)%Q).
Proof.
  unfold V3.new_p4_end.
  destruct (List.filter (fun s => flt (lit 200) (sparging_mashing_water_flow s))
              (List.filter (fun s => fle (Fin p) (minutes s)) df)) as [|h hrest] eqn:Ehigh.
  - destruct (py_min_Fin (p + 15) e) as (q & Hq & _ & _ & Hor).
    exists q. split; [exact Hq|]. intros Hpe. destruct Hor as [-> | ->]; lra.
  - assert (Hwin : forall s, In s (h :: hrest) ->
                     exists q, minutes s = Fin q /\ (p <= q)%Q).
    { intros s Hs. rewrite <- Ehigh in Hs. apply filter_In in Hs as [Hs _].
      by apply in_ge_window in Hs as [_ Hq]. }
    destruct (List.filter (fun s => flt (lit 3) (gap s)) (with_gap (h :: hrest)))
      as [|g grest] eqn:Egap.
    + change (minutes (hd h (with_gap (h :: hrest)))) with (minutes h).
      destruct (Hwin h (or_introl eq_refl)) as (qh & Hqh & Hph). rewrite Hqh.
      case_frame Elow.
      * destruct (with_gap_In (h :: hrest) (List.last (with_gap (h :: hrest)) h))
          as (y & gy & Hy & Hlast).
        { apply List_last_In. by rewrite with_gap_cons. }
        rewrite Hlast. change (minutes (set_gap y gy)) with (minutes y).
        destruct (Hwin y Hy) as (qy & Hqy & Hpy). rewrite Hqy.
        exists (qy + 2)%Q. split; [done|]. intros _. lra.
      * apply filter_head_In in Elow as [Hin _].
        apply in_gt_window in Hin as (_ & ql & Hql & Hlt).
        exists ql. split; [done|]. intros _. lra.
    + apply filter_head_In in Egap as [Hin Hgap].
      rewrite with_gap_cons in Hin. destruct Hin as [<- | Hin]; [discriminate Hgap|].
      destruct (gap_tail_In hrest h g Hin) as (y & prev & Hy & Hprev & ->).
      change (minutes (set_gap y (fsub (minutes y) (minutes prev)))) with (minutes y).
      change (gap (set_gap y (fsub (minutes y) (minutes prev))))
        with (fsub (minutes y) (minutes prev)) in Hgap.
      destruct (Hwin y (or_intror Hy)) as (qy & Hqy & Hpy).
      destruct (Hwin prev Hprev) as (qp & Hqp & Hpp).
      rewrite Hqy, Hqp in *.
      change (fsub (Fin qy) (Fin qp)) with (Fin (qy - qp)) in Hgap.
      change (lit 3) with (Fin 3) in Hgap. xnum_props.
      exists (qy - 1)%Q. split; [done|]. intros _. lra.
Qed.

(** The eight boundaries of detect_phases_new on an ordered batch that
    carries the vessel weight: all of them numbers, with the conditions
    under which each phase has its end at or after its start. *)
Lemma new_boundaries {pd : pandas_release} (σ : gmap ref (frame xnum)) (r : ref)
    (bm : frame xnum) (s0 sn : row xnum) :
  σ !! r = Some bm -> head bm = Some s0 -> last bm = Some sn ->
  ordered bm = true -> has_weight bm = true ->
  exists q0 q1 q2 q3 q4 q5 q6 b qn,
    minutes s0 = Fin q0 /\ minutes sn = Fin qn /\ (b == qn)%Q /\
    (V3.detect_phases_new r σ).2 =
      Ok (seven (Fin q0) (Fin q1) (Fin q2) (Fin q3) (Fin q4) (Fin q5) (Fin q6) (Fin b)) /\
    (q0 <= q1)%Q /\
    ((forall s, In s (derive_new bm) -> fle (Fin q1) (minutes s) = false) \/
     (exists s, In s (derive_new bm) /\ fle (Fin q1) (minutes s) = true /\
                flt (lit 0.5) (grist_flow s) = true) -> (q1 <= q2)%Q) /\
    ((q2 <= b)%Q -> (q2 <= q3)%Q) /\
    ((q3 <= b)%Q -> (q3 <= q4)%Q) /\
    ((q4 <= b)%Q ->
     (forall s, In s (derive_new bm) -> flt (Fin q4) (minutes s) = true ->
                flt (lit 200) (sparging_mashing_water_flow s) = true ->
                fle (Fin q4) (fsub (minutes s) (lit 1)) = true) -> (q4 <= q5)%Q) /\
    ((q5 <= b)%Q -> (q5 <= q6)%Q) /\
    ((forall s, In s (derive_new bm) -> fle (Fin q5) (minutes s) = true ->
                flt (lit 200) (sparging_mashing_water_flow s) = false) \/
     (exists l, In l (derive_new bm) /\
        flt (sparging_mashing_water_flow l) (lit 50) = true /\
        forall h, In h (derive_new bm) -> fle (Fin q5) (minutes h) = true ->
                  flt (lit 200) (sparging_mashing_water_flow h) = true ->
                  flt (minutes h) (minutes l) = true) ->
     (q6 <= b)%Q).
Proof.
  intros Hr Hhead Hlast Hord Hw.
  destruct (ordered_le_last bm sn Hord Hlast) as (qn' & Hqn' & Hbelow).
  destruct bm as [|s0' t]; [done|]. injection Hhead as ->.
  pose proof (series_min_ordered s0 t Hord) as Hmin.
  destruct (ordered_head_le s0 t Hord) as (q0 & Hq0 & Hall).
  destruct (series_max_ordered (s0 :: t) sn Hord Hlast) as (b & qn & Hmax & Hqn & Hb).
  rewrite Hqn in Hqn'. injection Hqn' as <-.
  destruct (detect_phases_new_returns σ r (s0 :: t) Hr (or_intror Hw)) as (e2 & He2 & Hres).
  cbn zeta in He2, Hres. rewrite Hmin, Hq0 in He2, Hres. rewrite Hmax in Hres.
  assert (Ht : timed (derive_new (s0 :: t))) by (by apply timed_derive_new, ordered_timed).
  assert (Hw' : derive_new (s0 :: t) = [] \/ has_weight (derive_new (s0 :: t)) = true)
    by (right; by rewrite has_weight_derive_new).
  destruct (new_p1_end_bound (derive_new (s0 :: t)) q0 Ht) as (q1 & H1 & H1le).
  rewrite H1 in He2, Hres.
  destruct (new_p2_end_bound (derive_new (s0 :: t)) q1 Ht Hw') as (q2 & H2 & H2le).
  rewrite H2 in He2. injection He2 as <-.
  destruct (new_p3_end_bound (derive_new (s0 :: t)) q2 b) as (q3 & H3 & H3le).
  rewrite H3 in Hres.
  destruct (new_p4_end_bound (derive_new (s0 :: t)) q3 b) as (q4 & H4 & H4le).
  rewrite H4 in Hres.
  destruct (new_p5_end_bound (derive_new (s0 :: t)) q4 b) as (q5 & H5 & H5le).
  rewrite H5 in Hres.
  destruct (new_p6_end_bound (derive_new (s0 :: t)) q5 b) as (q6 & H6 & H6le & H6cap).
  rewrite H6 in Hres.
  exists q0, q1, q2, q3, q4, q5, q6, b, qn.
  repeat split; try done.
  - apply H1le. intros s Hs.
    destruct (derive_new_In _ s Hs) as (s' & g & Hs' & ->).
    exact (Hall s' Hs').
  - apply H6cap. intros s Hs.
    destruct (derive_new_In _ s Hs) as (s' & g & Hs' & ->).
    destruct (Hbelow s' Hs') as (q' & Hq' & Hle).
    exists q'. split; [done|]. rewrite Hb. exact Hle.
Qed.

Lemma seven_lookups {F : Type} (b0 b1 b2 b3 b4 b5 b6 b7 : F) :
  let ph := seven b0 b1 b2 b3 b4 b5 b6 b7 in
  ph !! 1%nat = Some (Phase "Water Pre-Fill" b0 b1) /\
  ph !! 2%nat = Some (Phase "Grist Addition" b1 b2) /\
  ph !! 3%nat = Some (Phase "Resting" b2 b3) /\
  ph !! 4%nat = Some (Phase "Sparge" b3 b4) /\
  ph !! 5%nat = Some (Phase "First Wort" b4 b5) /\
  ph !! 6%nat = Some (Phase "Second Sparge" b5 b6) /\
  ph !! 7%nat = Some (Phase "Grain Disposal" b6 b7).
Proof. cbn zeta. unfold seven. repeat split; by simplify_map_eq. Qed.

(** * The claims *)

(** C1.  On every ordered, non-empty batch that carries the vessel weight,
    detect_phases_new returns exactly seven phases, with ids 1 to 7; each
    phase ends where the next one starts, phase 1 starts at the elapsed time
    of the first sample and phase 7 ends at the elapsed time of the last
    sample; every boundary is a number. *)
Theorem detect_phases_new_partition {pd : pandas_release} (σ : gmap ref (frame xnum)) (r : ref)
    (bm : frame xnum) (s0 sn : row xnum) :
  σ !! r = Some bm -> head bm = Some s0 -> last bm = Some sn ->
  ordered bm = true -> has_weight bm = true ->
  exists ph p1 p2 p3 p4 p5 p6 p7,
    (V3.detect_phases_new r σ).2 = Ok ph /\ dom ph = phase_ids /\
    ph !! 1%nat = Some p1 /\ ph !! 2%nat = Some p2 /\ ph !! 3%nat = Some p3 /\
    ph !! 4%nat = Some p4 /\ ph !! 5%nat = Some p5 /\ ph !! 6%nat = Some p6 /\
    ph !! 7%nat = Some p7 /\
    start p1 = minutes s0 /\
    end_ p1 = start p2 /\ end_ p2 = start p3 /\ end_ p3 = start p4 /\
    end_ p4 = start p5 /\ end_ p5 = start p6 /\ end_ p6 = start p7 /\
    feq (end_ p7) (minutes sn) = true /\
    Forall (fun p => notna (start p) = true /\ notna (end_ p) = true)
           [p1; p2; p3; p4; p5; p6; p7].
Proof.
  intros Hr Hhead Hlast Hord Hw.
  destruct (new_boundaries σ r bm s0 sn Hr Hhead Hlast Hord Hw)
    as (q0 & q1 & q2 & q3 & q4 & q5 & q6 & b & qn & Hq0 & Hqn & Hb & Hres & _).
  destruct (seven_lookups (Fin q0) (Fin q1) (Fin q2) (Fin q3) (Fin q4) (Fin q5) (Fin q6) (Fin b))
    as (L1 & L2 & L3 & L4 & L5 & L6 & L7).
  eexists _, _, _, _, _, _, _, _.
  split; [exact Hres|]. split; [apply seven_dom|].
  split; [exact L1|]. split; [exact L2|]. split; [exact L3|]. split; [exact L4|].
  split; [exact L5|]. split; [exact L6|]. split; [exact L7|].
  cbn [start end_]. rewrite Hq0, Hqn.
  repeat split; try done.
  - by xnum_props.
  - repeat constructor; apply notna_Fin.
Qed.

Lemma detect_phases_new_partition_witness :
  exists ph p1 p2 p3 p4 p5 p6 p7,
    (V3.detect_phases_new (pd:=Pandas3) 0%nat (store_of (F:=xnum) batch_between)).2 = Ok ph /\
    dom ph = phase_ids /\
    ph !! 1%nat = Some p1 /\ ph !! 2%nat = Some p2 /\ ph !! 3%nat = Some p3 /\
    ph !! 4%nat = Some p4 /\ ph !! 5%nat = Some p5 /\ ph !! 6%nat = Some p6 /\
    ph !! 7%nat = Some p7 /\
    start p1 = minutes (sample (F:=xnum) 0 100 0) /\
    end_ p1 = start p2 /\ end_ p2 = start p3 /\ end_ p3 = start p4 /\
    end_ p4 = start p5 /\ end_ p5 = start p6 /\ end_ p6 = start p7 /\
    feq (end_ p7) (minutes (sample (F:=xnum) 4 80 0)) = true /\
    Forall (fun p => notna (start p) = true /\ notna (end_ p) = true)
           [p1; p2; p3; p4; p5; p6; p7].
Proof.
  apply (detect_phases_new_partition (store_of batch_between) 0%nat batch_between
           (sample 0 100 0) (sample 4 80 0)); reflexivity.
Defined.




(** Why the condition on Phase 5 is written on the value the code
    computes.  In binary64, on a batch sampled at 0, 60, 150, 184, 244 and
    300 seconds, Phase 5 starts at 184/60 and ends at 244/60 - 1, which is
    one unit in the last place below its start, although the start plus one
    minute is not after 244/60. *)
Lemma phase5_rounding_edge :
  exists s e : float,
    bounds (V3.detect_phases_new (pd:=Pandas3) 0%nat (store_of batch_one_ulp)) 5
      = Some (s, e) /\
    s = lit (184 # 60) /\ e = fsub (lit (244 # 60)) (lit 1) /\
    flt e s = true /\
    fle (fadd s (lit 1)) (lit (244 # 60)) = true /\
    fle s (fsub (lit (244 # 60)) (lit 1)) = false.
Proof. eexists _, _. repeat split; vm_compute; reflexivity. Qed.

(** C3 at a batch of one sample.  The code leaves three fallback windows
    uncapped, one in detect_phases_new and two in detect_phases: with the
    last (and only) sample at minute 0, Phase 1 of detect_phases_new ends at
    minute 5, and Phases 3 and 4 of detect_phases end at minutes 45 and 65.
    The capped siblings (Phase 3 of detect_phases_new, Phase 5 of
    detect_phases) end at minute 0. *)
Theorem uncapped_fallback_windows {pd : pandas_release} :
  series_max (minutes <$> batch_single) = (lit 0 : float) /\
  bounds (V3.detect_phases_new 0%nat (store_of (F:=float) batch_single)) 1
    = Some (lit 0, lit 5) /\
  flt (lit 0 : float) (lit 5) = true /\
  bounds (V3.detect_phases_new 0%nat (store_of (F:=float) batch_single)) 3
    = Some (lit 15, lit 0) /\
  bounds (V3.detect_phases 0%nat (store_of (F:=float) batch_single)) 3
    = Some (lit 0, lit 45) /\
  bounds (V3.detect_phases 0%nat (store_of (F:=float) batch_single)) 4
    = Some (lit 45, lit 65) /\
  bounds (V3.detect_phases 0%nat (store_of (F:=float) batch_single)) 5
    = Some (lit 65, lit 0) /\
  bounds (PhaseAnalysis.detect_phases 0%nat (store_of (F:=float) batch_single)) 3
    = Some (lit 0, lit 45) /\
  bounds (PhaseAnalysis.detect_phases 0%nat (store_of (F:=float) batch_single)) 4
    = Some (lit 45, lit 65).
Proof. repeat split; vm_compute; reflexivity. Qed.

(** C4, as the code has it.  detect_phases_new has no check for an empty
    batch: it returns seven phases for the empty batch as well, all
    boundaries NaN there, and for every batch that carries the vessel weight
    in at least one sample, whatever the other signals are. *)
Theorem detect_phases_new_never_rejects {F : Type} `{Number F} {pd : pandas_release}
    (σ : gmap ref (frame F)) (r : ref) (bm : frame F) :
  σ !! r = Some bm -> bm = [] \/ has_weight bm = true ->
  (exists ph, (V3.detect_phases_new r σ).2 = Ok ph /\ dom ph = phase_ids) /\
  (fun k => bounds (V3.detect_phases_new 0%nat (store_of (F:=float) [])) k) <$> seq 1 7
    = replicate 7 (Some (nan, nan)).
Proof.
  intros Hr Hw. split; [|vm_compute; reflexivity].
  destruct (detect_phases_new_returns σ r bm Hr Hw) as (e2 & _ & Hres).
  cbn zeta in Hres. eexists. split; [exact Hres|]. apply seven_dom.
Qed.

Lemma detect_phases_new_never_rejects_witness :
  (store_of (F:=float) batch_idle !! 0%nat = Some batch_idle /\
   has_weight (F:=float) batch_idle = true) /\
  exists ph, (V3.detect_phases_new (pd:=Pandas3) 0%nat (store_of (F:=float) batch_idle)).2 = Ok ph /\
             dom ph = phase_ids.
Proof.
  split; [split; reflexivity|].
  apply (detect_phases_new_never_rejects (store_of batch_idle) 0%nat batch_idle);
    [reflexivity | right; reflexivity].
Defined.

(** C4 as stated fails: on the batch with zero samples detect_phases_new
    raises nothing; it returns seven phases whose boundaries are all NaN. *)
Lemma empty_batch_is_segmented :
  exists ph, (V3.detect_phases_new (pd:=Pandas3) 0%nat (store_of (F:=float) [])).2 = Ok ph /\
    dom ph = phase_ids /\
    (fun k => bounds (V3.detect_phases_new (pd:=Pandas3) 0%nat (store_of (F:=float) [])) k) <$> seq 1 7
      = replicate 7 (Some (nan, nan)).
Proof.
  destruct (detect_phases_new_returns (pd:=Pandas3) (store_of (F:=float) []) 0%nat [] eq_refl
              (or_introl eq_refl)) as (e2 & _ & Hres).
  cbn zeta in Hres. eexists. split; [exact Hres|]. split; [apply seven_dom|].
  vm_compute. reflexivity.
Qed.

(** C9.  The two threshold variants are not the same function: on a batch
    whose water flow rises to 250, between the two high-flow thresholds,
    detect_phases_new ends Phase 3 at minute 3 and detect_phases (in both
    files) ends it at minute 46. *)
Theorem threshold_variants_differ {pd : pandas_release} :
  exists bm : frame float,
    bounds (V3.detect_phases_new 0%nat (store_of bm)) 3 = Some (lit 2, lit 3) /\
    bounds (V3.detect_phases 0%nat (store_of bm)) 3 = Some (lit 1, lit 46) /\
    bounds (PhaseAnalysis.detect_phases 0%nat (store_of bm)) 3 = Some (lit 1, lit 46) /\
    feq (lit 3 : float) (lit 46) = false /\
    (V3.detect_phases_new 0%nat (store_of bm)).2 <> (V3.detect_phases 0%nat (store_of bm)).2.
Proof.
  exists batch_between.
  assert (Hnew : bounds (V3.detect_phases_new 0%nat (store_of (F:=float) batch_between)) 3
                 = Some (lit 2, lit 3)) by (vm_compute; reflexivity).
  assert (Hold : bounds (V3.detect_phases 0%nat (store_of (F:=float) batch_between)) 3
                 = Some (lit 1, lit 46)) by (vm_compute; reflexivity).
  repeat split; try (vm_compute; reflexivity).
  intros Heq.
  assert (Hb : bounds (V3.detect_phases_new 0%nat (store_of (F:=float) batch_between)) 3
               = bounds (V3.detect_phases 0%nat (store_of (F:=float) batch_between)) 3)
    by (unfold bounds; by rewrite Heq).
  rewrite Hnew, Hold in Hb.
  apply (f_equal (fun o : option (float * float) =>
                    match o with
                    | Some (_, e) => feq e (lit 3)
                    | None => false
                    end)) in Hb.
  vm_compute in Hb. discriminate.
Qed.

(** The column of list values behind the derived column: one value per
    weight, 0 first, max(0, -(w[i] - w[i-1])) between two weights, 0 next to
    a missing weight, never negative. *)
Lemma grist_flow_new_values (ws : list xnum) :
  V3.grist_flow_old ws = V3.grist_flow_new ws /\
  length (V3.grist_flow_new ws) = length ws /\
  (forall w t, ws = w :: t -> V3.grist_flow_new ws !! 0%nat = Some (Fin 0)) /\
  (forall i a b, ws !! i = Some (Fin a) -> ws !! S i = Some (Fin b) ->
     exists q, V3.grist_flow_new ws !! S i = Some (Fin q) /\
               (q == Qmax 0 (- (b - a)))%Q) /\
  (forall i a b, ws !! i = Some a -> ws !! S i = Some b -> a = NaN \/ b = NaN ->
     exists x, V3.grist_flow_new ws !! S i = Some x /\ feq x (lit 0) = true) /\
  (forall i x, V3.grist_flow_new ws !! i = Some x -> fle (lit 0) x = true).
Proof.
  split; [apply grist_flow_old_new|]. split; [apply length_grist_flow_new|].
  split; [|split; [|split]].
  - intros w t ->. reflexivity.
  - intros i a b Ha Hb.
    unfold V3.grist_flow_new, V3.grist_flow_raw, series_neg, fillna.
    rewrite !list_lookup_fmap.
    destruct ws as [|w t]; [done|]. cbn [series_diff lookup list_lookup].
    rewrite (diff_from_lookup t w i (Fin a) (Fin b) Ha Hb).
    cbn [fmap option_fmap option_map].
    change (fsub (Fin b) (Fin a)) with (Fin (b - a)). rewrite isna_Fin.
    change (fneg (Fin (b - a))) with (Fin (- (b - a))).
    unfold py_max. change (lit 0) with (Fin 0).
    destruct (flt (Fin (- (b - a))) (Fin 0)) eqn:E; xnum_props.
    + exists 0%Q. split; [done|]. rewrite Q.max_l; [reflexivity | lra].
    + exists (- (b - a))%Q. split; [done|]. rewrite Q.max_r; [reflexivity | lra].
  - intros i a b Ha Hb Hmiss.
    unfold V3.grist_flow_new, V3.grist_flow_raw, series_neg, fillna.
    rewrite !list_lookup_fmap.
    destruct ws as [|w t]; [done|]. cbn [series_diff lookup list_lookup].
    rewrite (diff_from_lookup t w i a b Ha Hb).
    cbn [fmap option_fmap option_map]. eexists. split; [reflexivity|].
    destruct Hmiss as [-> | ->]; [destruct b | destruct a]; vm_compute; reflexivity.
  - intros i x Hx.
    unfold V3.grist_flow_new, V3.grist_flow_raw, series_neg, fillna in Hx.
    rewrite !list_lookup_fmap in Hx.
    destruct (series_diff ws !! i) as [d|]; [|done].
    cbn [fmap option_fmap option_map] in Hx. injection Hx as <-.
    destruct d as [q|].
    + rewrite isna_Fin. change (fneg (Fin q)) with (Fin (- q)).
      unfold py_max. change (lit 0) with (Fin 0).
      destruct (flt (Fin (- q)) (Fin 0)) eqn:E; xnum_props; lra.
    + vm_compute. reflexivity.
Qed.

Lemma grist_flow_assign {F : Type} (df : frame F) (xs : list F) :
  length xs = length df -> grist_flow <$> assign set_grist_flow df xs = xs.
Proof.
  revert xs; induction df as [|r t IH]; intros [|x xs] Hlen; simpl in *; try done.
  f_equal. apply IH. lia.
Qed.

(** C5.  The column grist_flow that detect_phases_new and detect_phases
    (both files) write into their private copy of the batch, and from which
    they read their phases, has one value per sample; the first is 0; where
    two consecutive weights are present it is max(0, -(w[i] - w[i-1])),
    where one of them is missing it is 0; and every value is at least 0,
    whatever the weights are. *)
Theorem grist_flow_nonnegative {pd : pandas_release} (σ : gmap ref (frame xnum))
    (r : ref) (bm : frame xnum) :
  σ !! r = Some bm ->
  exists df,
    σ !! fresh (dom σ) = None /\
    V3.detect_phases_new r σ =
      (<[fresh (dom σ) := df]> σ,
       V3.new_phases df (series_min (minutes <$> bm)) (series_max (minutes <$> bm))) /\
    V3.detect_phases r σ =
      (<[fresh (dom σ) := df]> σ,
       V3.old_phases V3.old_p2_end df
         (series_min (minutes <$> bm)) (series_max (minutes <$> bm))) /\
    PhaseAnalysis.detect_phases r σ =
      (<[fresh (dom σ) := df]> σ,
       V3.old_phases PhaseAnalysis.old_p2_end df
         (series_min (minutes <$> bm)) (series_max (minutes <$> bm))) /\
    length df = length bm /\
    (forall s0, bm !! 0%nat = Some s0 -> grist_flow <$> df !! 0%nat = Some (Fin 0)) /\
    (forall i si sj a b, bm !! i = Some si -> bm !! S i = Some sj ->
       greast_case_weight si = Fin a -> greast_case_weight sj = Fin b ->
       exists q, grist_flow <$> df !! S i = Some (Fin q) /\
                 (q == Qmax 0 (- (b - a)))%Q) /\
    (forall i si sj, bm !! i = Some si -> bm !! S i = Some sj ->
       greast_case_weight si = NaN \/ greast_case_weight sj = NaN ->
       exists x, grist_flow <$> df !! S i = Some x /\ feq x (lit 0) = true) /\
    (forall i s, df !! i = Some s -> fle (lit 0) (grist_flow s) = true).
Proof.
  intros Hr. exists (derive_new bm).
  destruct (grist_flow_new_values (greast_case_weight <$> bm))
    as (_ & Hlen & Hfirst & Hformula & Hmissing & Hnonneg).
  assert (Hcol : forall i, grist_flow <$> derive_new bm !! i
                           = V3.grist_flow_new (greast_case_weight <$> bm) !! i).
  { intros i. rewrite <- list_lookup_fmap. unfold derive_new.
    rewrite grist_flow_assign; [done|]. by rewrite Hlen, length_fmap. }
  split; [apply fresh_not_in|].
  split; [by apply detect_phases_new_run|].
  split; [unfold V3.detect_phases; by rewrite (detect_phases_with_run _ σ r bm Hr)|].
  split; [unfold PhaseAnalysis.detect_phases;
          by rewrite (detect_phases_with_run _ σ r bm Hr)|].
  split.
  { unfold derive_new, assign. rewrite length_zip_with, Hlen, length_fmap. lia. }
  split; [|split; [|split]].
  - intros s0 H0. rewrite Hcol. destruct bm as [|s0' t]; [done|].
    by apply (Hfirst (greast_case_weight s0') (greast_case_weight <$> t)).
  - intros i si sj a b Hi Hj Ha Hb. rewrite Hcol. apply (Hformula i a b).
    + by rewrite list_lookup_fmap, Hi, <- Ha.
    + by rewrite list_lookup_fmap, Hj, <- Hb.
  - intros i si sj Hi Hj Hmiss. rewrite Hcol.
    apply (Hmissing i (greast_case_weight si) (greast_case_weight sj)); [| |done].
    + by rewrite list_lookup_fmap, Hi.
    + by rewrite list_lookup_fmap, Hj.
  - intros i x Hx. apply (Hnonneg i). by rewrite <- Hcol, Hx.
Qed.

Lemma grist_flow_nonnegative_witness :
  exists df,
    V3.detect_phases_new (pd:=Pandas3) 0%nat (store_of (F:=xnum) batch_between) =
      (<[fresh (dom (store_of (F:=xnum) batch_between)) := df]> (store_of batch_between),
       V3.new_phases (pd:=Pandas3) df (series_min (minutes <$> batch_between))
         (series_max (minutes <$> batch_between))) /\
    grist_flow <$> df !! 0%nat = Some (Fin 0) /\
    (exists q, grist_flow <$> df !! 1%nat = Some (Fin q) /\
               (q == Qmax 0 (- (80 - 100)))%Q) /\
    (forall i s, df !! i = Some s -> fle (lit 0) (grist_flow s) = true).
Proof.
  destruct (grist_flow_nonnegative (pd:=Pandas3) (store_of batch_between) 0%nat
              batch_between ltac:(reflexivity))
    as (df & _ & Hrun & _ & _ & _ & Hfirst & Hformula & _ & Hnonneg).
  exists df. split; [exact Hrun|].
  split; [by apply (Hfirst (sample 0 100 0))|].
  split; [|exact Hnonneg].
  by apply (Hformula 0%nat (sample 0 100 0) (sample 1 80 0) 100%Q 80%Q).
Defined.

(** ** The rows of the frame calculate_heat_available returns *)

Section HeatRows.
Context {F : Type} `{Number F}.

Lemma heat_from_lookup (rest : frame F) (prev : row F) (i : nat) (a c : row F) :
  (prev :: rest) !! i = Some a -> (prev :: rest) !! S i = Some c ->
  heat_from prev rest !! i = Some (set_heat_available c (heat_of a c)).
Proof.
  revert prev i; induction rest as [|x t IH]; intros prev i Ha Hc.
  - destruct i; done.
  - destruct i as [|i]; simpl in *.
    + by injection Ha as <-; injection Hc as <-.
    + by apply IH.
Qed.

Lemma heat_frame_lookup_S (data : frame F) (i : nat) (a c : row F) :
  data !! i = Some a -> data !! S i = Some c ->
  heat_frame data !! S i = Some (set_heat_available c (heat_of a c)).
Proof.
  destruct data as [|r0 rest]; [done|]. intros Ha Hc.
  cbn [heat_frame lookup list_lookup]. by apply heat_from_lookup.
Qed.

Lemma heat_frame_lookup_0 (data : frame F) (r0 : row F) :
  data !! 0%nat = Some r0 ->
  heat_frame data !! 0%nat = Some (set_heat_available r0 (lit 0.0)).
Proof. destruct data as [|r rest]; [done|]. by intros [= ->]. Qed.

(** calculate_heat_available returns a new frame with one row per input
    row; the first row has 0.0, and a later row whose two temperatures are
    present has the product of the loop body. *)
Lemma calculate_heat_available_rows (σ : gmap ref (frame F)) (r : ref) (data : frame F) :
  σ !! r = Some data ->
  exists out df,
    V3.calculate_heat_available r σ = (<[out := df]> σ, Ok out) /\
    σ !! out = None /\ length df = length data /\
    (forall r0, data !! 0%nat = Some r0 ->
                heat_available <$> df !! 0%nat = Some (lit 0.0)) /\
    (forall i prev cur, data !! i = Some prev -> data !! S i = Some cur ->
       heat_available <$> df !! S i = Some (heat_of prev cur)).
Proof.
  intros Hr. exists (fresh (dom σ)), (heat_frame data).
  split; [by apply calculate_heat_available_run|].
  split; [apply fresh_not_in|]. split; [apply length_heat_frame|].
  split.
  - intros r0 H0. by rewrite (heat_frame_lookup_0 data r0 H0).
  - intros i prev cur Hp Hc. by rewrite (heat_frame_lookup_S data i prev cur Hp Hc).
Qed.
End HeatRows.

(** C6, as the code has it.  For every sample after the first with both
    temperatures present, Q[i] = rho_water * (water_flow[i-1] / 60) * 4.18 *
    (mash_temp[i] - water_temp[i-1]) in the arithmetic of the columns, which
    on exact numbers equals (water_flow[i-1] / 60) * 4.18 * (mash_temp[i] -
    water_temp[i-1]); Q of the first sample is 0.  With flow 300, water at
    20 and mash at 65 degrees this is 940.5 on exact numbers and the double
    next below 940.5 in binary64. *)
Theorem thermal_flux_values :
  (forall (F : Type) (N : Number F) (σ : gmap ref (frame F)) (r : ref) (data : frame F),
     σ !! r = Some data ->
     exists out df,
       V3.calculate_heat_available r σ = (<[out := df]> σ, Ok out) /\
       length df = length data /\
       (forall r0, data !! 0%nat = Some r0 ->
                   heat_available <$> df !! 0%nat = Some (lit 0.0)) /\
       (forall i prev cur, data !! i = Some prev -> data !! S i = Some cur ->
          notna (mashing_sparging_water_temp prev) = true ->
          notna (mashing_temp cur) = true ->
          heat_available <$> df !! S i =
            Some (fmul (fmul (fmul V3.rho_water
                                   (fdiv (sparging_mashing_water_flow prev) (lit 60.0)))
                             V3.cp_water)
                       (fsub (mashing_temp cur) (mashing_sparging_water_temp prev))))) /\
  (forall (σ : gmap ref (frame xnum)) (r : ref) (data : frame xnum)
          (i : nat) (prev cur : row xnum) (f w m : Q),
     σ !! r = Some data -> data !! i = Some prev -> data !! S i = Some cur ->
     sparging_mashing_water_flow prev = Fin f ->
     mashing_sparging_water_temp prev = Fin w -> mashing_temp cur = Fin m ->
     exists out df h,
       V3.calculate_heat_available r σ = (<[out := df]> σ, Ok out) /\
       heat_available <$> df !! S i = Some (Fin h) /\
       (h == f / 60 * 4.18 * (m - w))%Q) /\
  (exists h, heat_column (V3.calculate_heat_available 0%nat (store_of (F:=xnum) batch_thermal))
             = Some [lit 0.0; Fin h] /\ (h == 940.5)%Q) /\
  heat_column (V3.calculate_heat_available 0%nat (store_of (F:=float) batch_thermal))
    = Some [lit 0.0; PrimFloat.next_down (lit 940.5)] /\
  heat_column (PhaseAnalysis.calculate_heat_available 0%nat (store_of (F:=float) batch_thermal))
    = Some [lit 0.0; PrimFloat.next_down (lit 940.5)].
Proof.
  split; [|split; [|split; [|split]]].
  - intros F N σ r data Hr.
    destruct (calculate_heat_available_rows σ r data Hr)
      as (out & df & Hrun & _ & Hlen & H0 & HS).
    exists out, df. repeat split; try done.
    intros i prev cur Hp Hc Hw Hm. rewrite (HS i prev cur Hp Hc).
    unfold heat_of. cbn zeta. by rewrite Hw, Hm.
  - intros σ r data i prev cur f w m Hr Hp Hc Hf Hw Hm.
    destruct (calculate_heat_available_rows σ r data Hr)
      as (out & df & Hrun & _ & _ & _ & HS).
    exists out, df. eexists. split; [exact Hrun|].
    rewrite (HS i prev cur Hp Hc). unfold heat_of. cbn zeta.
    rewrite Hf, Hw, Hm, !notna_Fin. cbn [andb].
    split; [reflexivity|]. field.
  - eexists. split; [vm_compute; reflexivity|]. reflexivity.
  - vm_compute. reflexivity.
  - vm_compute. reflexivity.
Qed.

Lemma thermal_flux_values_witness :
  exists out df h,
    V3.calculate_heat_available 0%nat (store_of (F:=xnum) batch_thermal)
      = (<[out := df]> (store_of batch_thermal), Ok out) /\
    heat_available <$> df !! 1%nat = Some (Fin h) /\
    (h == 300 / 60 * 4.18 * (65 - 20))%Q.
Proof.
  destruct thermal_flux_values as (_ & Hexact & _).
  apply (Hexact (store_of batch_thermal) 0%nat batch_thermal 0%nat
           (thermal_sample (lit 300) (lit 60) (lit 20))
           (thermal_sample (lit 300) (lit 65) (lit 20)) 300%Q 20%Q 65%Q); reflexivity.
Defined.

(** C6 as stated fails on its last clause: in binary64, which is what the
    program computes with, (300 / 60.0) * 4.18 * 45 is not 940.5 but the
    double next below it. *)
Lemma thermal_scenario_is_not_940_5 :
  exists h,
    heat_column (V3.calculate_heat_available 0%nat (store_of (F:=float) batch_thermal))
      = Some [lit 0.0; h] /\
    feq h (lit 940.5) = false /\ flt h (lit 940.5) = true.
Proof. eexists. repeat split; vm_compute; reflexivity. Qed.

(** C7, as the code has it.  For every pair of samples where mash_temp[i]
    or water_temp[i-1] is missing, the sample is kept and Q[i] is the product
    rho_water * (water_flow[i-1] / 60) * 4.18 * 0 in the arithmetic of the
    columns.  On exact numbers that is 0, and not NaN, when water_flow[i-1]
    is a number, and NaN when it is missing.  In binary64 it is NaN when
    water_flow[i-1] is missing or infinite. *)
Theorem thermal_flux_missing_temperature :
  (forall (F : Type) (N : Number F) (σ : gmap ref (frame F)) (r : ref) (data : frame F)
          (i : nat) (prev cur : row F),
     σ !! r = Some data -> data !! i = Some prev -> data !! S i = Some cur ->
     isna (mashing_sparging_water_temp prev) = true \/ isna (mashing_temp cur) = true ->
     exists out df,
       V3.calculate_heat_available r σ = (<[out := df]> σ, Ok out) /\
       length df = length data /\
       heat_available <$> df !! S i =
         Some (fmul (fmul (fmul V3.rho_water
                                (fdiv (sparging_mashing_water_flow prev) (lit 60.0)))
                          V3.cp_water)
                    (lit 0))) /\
  (forall (σ : gmap ref (frame xnum)) (r : ref) (data : frame xnum)
          (i : nat) (prev cur : row xnum),
     σ !! r = Some data -> data !! i = Some prev -> data !! S i = Some cur ->
     isna (mashing_sparging_water_temp prev) = true \/ isna (mashing_temp cur) = true ->
     exists out df h,
       V3.calculate_heat_available r σ = (<[out := df]> σ, Ok out) /\
       length df = length data /\
       heat_available <$> df !! S i = Some h /\
       (forall f, sparging_mashing_water_flow prev = Fin f ->
                  feq h (lit 0) = true /\ isna h = false) /\
       (sparging_mashing_water_flow prev = NaN -> h = NaN)) /\
  (forall (σ : gmap ref (frame float)) (r : ref) (data : frame float)
          (i : nat) (prev cur : row float),
     σ !! r = Some data -> data !! i = Some prev -> data !! S i = Some cur ->
     isna (mashing_sparging_water_temp prev) = true \/ isna (mashing_temp cur) = true ->
     sparging_mashing_water_flow prev = PrimFloat.nan \/
     sparging_mashing_water_flow prev = PrimFloat.infinity \/
     sparging_mashing_water_flow prev = PrimFloat.neg_infinity ->
     exists out df,
       V3.calculate_heat_available r σ = (<[out := df]> σ, Ok out) /\
       length df = length data /\
       heat_available <$> df !! S i = Some PrimFloat.nan).
Proof.
  assert (Hgen : forall (F : Type) (N : Number F) (σ : gmap ref (frame F)) (r : ref)
                        (data : frame F) (i : nat) (prev cur : row F),
            σ !! r = Some data -> data !! i = Some prev -> data !! S i = Some cur ->
            isna (mashing_sparging_water_temp prev) = true \/
            isna (mashing_temp cur) = true ->
            exists out df,
              V3.calculate_heat_available r σ = (<[out := df]> σ, Ok out) /\
              length df = length data /\
              heat_available <$> df !! S i =
                Some (fmul (fmul (fmul V3.rho_water
                                       (fdiv (sparging_mashing_water_flow prev) (lit 60.0)))
                                 V3.cp_water)
                           (lit 0))).
  { intros F N σ r data i prev cur Hr Hp Hc Hmiss.
    destruct (calculate_heat_available_rows σ r data Hr)
      as (out & df & Hrun & _ & Hlen & _ & HS).
    exists out, df. split; [exact Hrun|]. split; [exact Hlen|].
    rewrite (HS i prev cur Hp Hc). unfold heat_of. cbn zeta.
    assert (Hcond : notna (mashing_sparging_water_temp prev) && notna (mashing_temp cur)
                    = false).
    { unfold isna in Hmiss. unfold notna.
      destruct Hmiss as [Hm | Hm]; apply negb_true_iff in Hm; rewrite Hm;
        [done | apply andb_false_r]. }
    by rewrite Hcond. }
  split; [exact Hgen|]. split.
  - intros σ r data i prev cur Hr Hp Hc Hmiss.
    destruct (Hgen xnum _ σ r data i prev cur Hr Hp Hc Hmiss) as (out & df & Hrun & Hlen & Hh).
    exists out, df. eexists. split; [exact Hrun|]. split; [exact Hlen|].
    split; [exact Hh|]. split.
    + intros f ->.
      change (V3.rho_water * (Fin f / lit 60.0) * V3.cp_water * lit 0)%py
        with (Fin (1.0 * (f / 60.0) * 4.18 * 0)).
      split; [apply xeq_true; ring | apply isna_Fin].
    + intros ->. reflexivity.
  - intros σ r data i prev cur Hr Hp Hc Hmiss Hflow.
    destruct (Hgen float _ σ r data i prev cur Hr Hp Hc Hmiss) as (out & df & Hrun & Hlen & Hh).
    exists out, df. split; [exact Hrun|]. split; [exact Hlen|].
    rewrite Hh. destruct Hflow as [-> | [-> | ->]]; vm_compute; reflexivity.
Qed.

Lemma thermal_flux_missing_temperature_witness :
  exists out df h,
    V3.calculate_heat_available 0%nat
        (store_of (F:=xnum) [thermal_sample (lit 300) nan nan; thermal_sample (lit 300) nan nan])
      = (<[out := df]>
           (store_of [thermal_sample (lit 300) nan nan; thermal_sample (lit 300) nan nan]),
         Ok out) /\
    length df = 2%nat /\
    heat_available <$> df !! 1%nat = Some h /\
    feq h (lit 0) = true /\ isna h = false.
Proof.
  destruct thermal_flux_missing_temperature as (_ & Hexact & _).
  destruct (Hexact
              (store_of [thermal_sample (lit 300) nan nan; thermal_sample (lit 300) nan nan])
              0%nat [thermal_sample (lit 300) nan nan; thermal_sample (lit 300) nan nan]
              0%nat (thermal_sample (lit 300) nan nan) (thermal_sample (lit 300) nan nan)
              ltac:(reflexivity) ltac:(reflexivity) ltac:(reflexivity)
              ltac:(left; reflexivity))
    as (out & df & h & Hrun & Hlen & Hh & Hfin & _).
  exists out, df, h. split; [exact Hrun|]. split; [exact Hlen|]. split; [exact Hh|].
  apply (Hfin 300%Q). reflexivity.
Defined.

(** C7 as stated fails: when water_flow[i-1] is missing as well, Q[i] is
    NaN, in binary64 and on exact numbers alike. *)
Lemma missing_flow_gives_nan :
  heat_column (V3.calculate_heat_available 0%nat (store_of (F:=float) batch_no_flow))
    = Some [lit 0.0; nan] /\
  feq (nan : float) (lit 0) = false /\
  heat_column (V3.calculate_heat_available 0%nat (store_of (F:=xnum) batch_no_flow))
    = Some [lit 0.0; nan] /\
  feq (nan : xnum) (lit 0) = false.
Proof. repeat split; vm_compute; reflexivity. Qed.

(** C8, as the code has it.  The scans of Phases 3 and 5 read only samples
    strictly after the boundary they start from; the scans of Phases 4 and
    6, and the scan of Phase 2 whenever it finds grist movement, read only
    samples at or after that boundary: a sample exactly at the boundary is
    part of the scan, a sample before it never is. *)
Theorem scans_start_at_boundary {pd : pandas_release} :
  (forall (F : Type) (N : Number F) (df : frame F) (p e : F),
     V3.new_p3_end df p e
       = V3.new_p3_end (List.filter (fun s => flt p (minutes s)) df) p e /\
     V3.new_p5_end df p e
       = V3.new_p5_end (List.filter (fun s => flt p (minutes s)) df) p e /\
     V3.new_p4_end df p e
       = V3.new_p4_end (List.filter (fun s => fle p (minutes s)) df) p e /\
     (forall s, In s df -> fle p (minutes s) = true ->
                flt (lit 0.5) (grist_flow s) = true ->
                V3.new_p2_end df p
                  = V3.new_p2_end (List.filter (fun s => fle p (minutes s)) df) p)) /\
  (forall (df : frame xnum) (p : Q) (e : xnum),
     V3.new_p6_end df (Fin p) e
       = V3.new_p6_end (List.filter (fun s => fle (Fin p) (minutes s)) df) (Fin p) e).
Proof.
  split.
  - intros F N df p e. repeat split.
    + unfold V3.new_p3_end. by rewrite filter_idem.
    + unfold V3.new_p5_end. by rewrite filter_idem.
    + unfold V3.new_p4_end. by rewrite filter_idem.
    + intros s Hs Hge Hact. unfold V3.new_p2_end. rewrite filter_idem.
      destruct (List.filter (fun s => fle p (minutes s)) df) as [|r t] eqn:Edata; [done|].
      destruct (last (List.filter (fun s => flt (lit 0.5) (grist_flow s)) (r :: t)))
        as [l|] eqn:Eact; [done|].
      assert (Hin : In s (r :: t)) by (rewrite <- Edata; by apply filter_In).
      rewrite (filter_last_nil _ _ Eact s Hin) in Hact. discriminate.
  - intros df p e. unfold V3.new_p6_end. rewrite filter_idem.
    case_last Ehigh; [|done].
    apply filter_last_In in Ehigh as [Hin _].
    apply in_ge_window in Hin as (_ & qr & Hqr & Hle). rewrite Hqr.
    rewrite (filter_implied (fun s => flt (Fin qr) (minutes s))
                            (fun s => fle (Fin p) (minutes s)) df); [done|].
    intros x _ Hgt. cbn beta in *.
    destruct (xlt_is_Fin_r _ _ Hgt) as [qx Hqx]. rewrite Hqx in *.
    xnum_props. lra.
Qed.

Lemma scans_start_at_boundary_witness :
  V3.new_p2_end (pd:=Pandas3) (derive_new (F:=xnum) batch_boundary) (lit 1)
    = V3.new_p2_end (pd:=Pandas3) (List.filter (fun s => fle (lit 1) (minutes s))
                                 (derive_new (F:=xnum) batch_boundary)) (lit 1).
Proof.
  destruct (scans_start_at_boundary (pd:=Pandas3)) as (Hgen & _).
  destruct (Hgen xnum _ (derive_new batch_boundary) (lit 1) (lit 3)) as (_ & _ & _ & H2).
  apply (H2 (set_grist_flow (sample 1 80 0) (lit 20))).
  - right; left. reflexivity.
  - reflexivity.
  - reflexivity.
Defined.

(** C8 as stated fails: the scan of Phase 4 reads the sample that lies
    exactly on the boundary.  Phase 3 ends at minute 3, at the first sample
    with a high water flow; that sample is the high-flow run of Phase 4,
    which therefore ends at minute 5; without the samples at or before
    minute 3 the phase would end at minute 3. *)
Lemma boundary_sample_decides_phase4 :
  bounds (V3.detect_phases_new (pd:=Pandas3) 0%nat (store_of (F:=float) batch_boundary)) 3
    = Some (lit 2, lit 3) /\
  bounds (V3.detect_phases_new (pd:=Pandas3) 0%nat (store_of (F:=float) batch_boundary)) 4
    = Some (lit 3, lit 5) /\
  V3.new_p4_end (derive_new (F:=float) batch_boundary) (lit 3) (lit 3) = lit 5 /\
  V3.new_p4_end (List.filter (fun s => flt (lit 3) (minutes s))
                             (derive_new (F:=float) batch_boundary)) (lit 3) (lit 3)
    = lit 3 /\
  feq (lit 5 : float) (lit 3) = false.
Proof. repeat split; vm_compute; reflexivity. Qed.

(** C10.  A call of detect_phases_new or of calculate_heat_available
    leaves every frame of the store as it was, the input included, and adds
    one object, its private copy; a second call returns the same phases,
    respectively a frame with the same content.  detect_phases, in both
    files, leaves every frame as it was too. *)
Theorem calls_leave_input_unchanged {F : Type} `{Number F} {pd : pandas_release}
    (σ : gmap ref (frame F)) (data : ref) (bm : frame F) :
  σ !! data = Some bm ->
  let seg := V3.detect_phases_new data σ in
  let th := V3.calculate_heat_available data σ in
  (forall r df, σ !! r = Some df -> seg.1 !! r = Some df) /\
  dom seg.1 = {[fresh (dom σ)]} ∪ dom σ /\
  (V3.detect_phases_new data seg.1).2 = seg.2 /\
  (forall p2 r df, σ !! r = Some df -> (V3.detect_phases_with p2 data σ).1 !! r = Some df) /\
  (forall r df, σ !! r = Some df -> th.1 !! r = Some df) /\
  dom th.1 = {[fresh (dom σ)]} ∪ dom σ /\
  th.2 = Ok (fresh (dom σ)) /\
  (exists col, heat_column th = Some col /\
               heat_column (V3.calculate_heat_available data th.1) = Some col).
Proof.
  intros Hdata. cbn zeta.
  rewrite (detect_phases_new_run σ data bm Hdata).
  rewrite (calculate_heat_available_run σ data bm Hdata). cbn [fst snd].
  assert (Hnew : forall df' : frame F, <[fresh (dom σ) := df']> σ !! data = Some bm)
    by (intros df'; by apply insert_fresh_lookup).
  repeat split.
  - intros r df Hr. by apply insert_fresh_lookup.
  - by rewrite dom_insert_L.
  - by rewrite (detect_phases_new_run _ data bm (Hnew _)).
  - intros p2 r df Hr. rewrite (detect_phases_with_run p2 σ data bm Hdata).
    by apply insert_fresh_lookup.
  - intros r df Hr. by apply insert_fresh_lookup.
  - by rewrite dom_insert_L.
  - exists (heat_available <$> heat_frame bm). split.
    + unfold heat_column. by rewrite lookup_insert_eq.
    + rewrite (calculate_heat_available_run _ data bm (Hnew _)).
      unfold heat_column. by rewrite lookup_insert_eq.
Qed.

Lemma calls_leave_input_unchanged_witness :
  store_of (F:=float) batch_scenario !! 0%nat = Some batch_scenario /\
  (V3.detect_phases_new (pd:=Pandas3) 0%nat (store_of (F:=float) batch_scenario)).1 !! 0%nat
    = Some batch_scenario /\
  (V3.calculate_heat_available 0%nat (store_of (F:=float) batch_scenario)).1 !! 0%nat
    = Some batch_scenario.
Proof.
  assert (H0 : store_of (F:=float) batch_scenario !! 0%nat = Some batch_scenario)
    by reflexivity.
  destruct (calls_leave_input_unchanged (pd:=Pandas3) (store_of batch_scenario) 0%nat batch_scenario H0)
    as (Hseg & _ & _ & _ & Hth & _).
  split; [exact H0|]. split; [exact (Hseg _ _ H0) | exact (Hth _ _ H0)].
Defined.

(** * Further properties of the code *)

(** ** detect_phases: errors and the phases it returns *)

Section OldFacts.
Context {F : Type} `{Number F} {pd : pandas_release}.

Lemma idxmin_from_None (ws : list F) (k : nat) :
  existsb notna ws = false -> idxmin_from k ws None = None.
Proof.
  revert k; induction ws as [|w ws IH]; intros k Hex; [done|].
  cbn [existsb] in Hex. apply orb_false_iff in Hex as [Hw Hrest].
  cbn [idxmin_from]. unfold isna. unfold notna in Hw. rewrite Hw. cbn [negb].
  by apply IH.
Qed.

(** Without any weight reading the minimum-weight lookup fails. *)
Lemma min_weight_lookup_fails (df : frame F) :
  df <> [] -> has_weight df = false ->
  (idxmin (greast_case_weight <$> df) ≫= loc_minutes df) = Raise (no_weight_error pd).
Proof.
  intros Hne Hw. destruct df as [|r t]; [done|].
  rewrite <- has_weight_existsb in Hw.
  unfold idxmin. cbn [fmap list_fmap].
  pose proof (idxmin_from_None (greast_case_weight <$> r :: t) 0 Hw) as Hmin.
  cbn [fmap list_fmap] in Hmin. rewrite Hmin. by destruct pd.
Qed.

Lemma old_phases_seven (p2 : frame F -> result F) (df : frame F) (ps pe e2 : F) :
  p2 df = Ok e2 ->
  V3.old_phases p2 df ps pe =
    Ok (seven ps (V3.old_p1_end df ps) e2 (V3.old_p3_end df e2)
          (V3.old_p4_end df (V3.old_p3_end df e2))
          (V3.old_p5_end df (V3.old_p4_end df (V3.old_p3_end df e2)) pe)
          (V3.old_p6_end df
             (V3.old_p5_end df (V3.old_p4_end df (V3.old_p3_end df e2)) pe) pe)
          pe).
Proof. intros H2. unfold V3.old_phases. rewrite H2. reflexivity. Qed.

Lemma old_phases_raises (p2 : frame F -> result F) (df : frame F) (ps pe : F) (e : pyexn) :
  p2 df = Raise e -> V3.old_phases p2 df ps pe = Raise e.
Proof. intros H2. unfold V3.old_phases. rewrite H2. reflexivity. Qed.

Lemma derive_old_new (bm : frame F) : derive_old bm = derive_new bm.
Proof. reflexivity. Qed.

Lemma derive_new_nil_iff (bm : frame F) : derive_new bm = [] <-> bm = [].
Proof.
  split; [|by intros ->].
  destruct bm as [|r t]; [done|]. discriminate.
Qed.

(** The Phase 2 block of detect_phases in the two files. *)
Lemma old_p2_end_outcome (df : frame F) :
  (df = [] -> V3.old_p2_end df = Raise IndexError /\
              PhaseAnalysis.old_p2_end df = Raise ValueError) /\
  (df <> [] -> has_weight df = false ->
     V3.old_p2_end df = Raise (no_weight_error pd) /\
     PhaseAnalysis.old_p2_end df = Raise (no_weight_error pd)) /\
  (df <> [] -> has_weight df = true ->
     exists s, In s df /\ V3.old_p2_end df = Ok (minutes s) /\
               PhaseAnalysis.old_p2_end df = Ok (minutes s)).
Proof.
  split; [by intros ->|]. split.
  - intros Hne Hw. pose proof (min_weight_lookup_fails df Hne Hw) as Hmin.
    unfold V3.old_p2_end, PhaseAnalysis.old_p2_end.
    destruct df as [|r t]; [done|]. split; exact Hmin.
  - intros Hne Hw. destruct (min_weight_lookup df Hne Hw) as (s & Hs & Hmin).
    exists s. split; [done|].
    unfold V3.old_p2_end, PhaseAnalysis.old_p2_end.
    destruct df as [|r t]; [done|]. split; exact Hmin.
Qed.
End OldFacts.

(** With a weight reading in some sample the pandas release plays no part
    in the minimum-weight lookup. *)
Lemma old_p2_end_release {F : Type} `{Number F} (pd1 pd2 : pandas_release) (df : frame F) :
  has_weight df = true ->
  V3.old_p2_end (pd:=pd1) df = V3.old_p2_end (pd:=pd2) df /\
  PhaseAnalysis.old_p2_end (pd:=pd1) df = PhaseAnalysis.old_p2_end (pd:=pd2) df.
Proof.
  intros Hw. destruct df as [|r t]; [done|].
  rewrite <- has_weight_existsb in Hw.
  destruct (idxmin_from_is_Some (greast_case_weight <$> r :: t) 0 None (or_intror Hw))
    as [[i x] Hmin].
  unfold V3.old_p2_end, PhaseAnalysis.old_p2_end, idxmin.
  cbn [fmap list_fmap] in *. by rewrite Hmin.
Qed.

(** X1.  detect_phases rejects an empty batch, with IndexError in src/v3.py
    and with ValueError in the page.  It rejects a non-empty batch without
    any weight reading in both files alike: with KeyError, raised by the
    .loc lookup of the NaN label, up to pandas 2.x, and with ValueError,
    raised by idxmin itself, from pandas 3.0 on.  On every other batch both
    files return the same seven phases, whatever the release. *)
Theorem detect_phases_outcome {F : Type} `{Number F}
    (σ : gmap ref (frame F)) (r : ref) (bm : frame F) :
  σ !! r = Some bm ->
  (bm = [] -> forall pd : pandas_release,
     (V3.detect_phases r σ).2 = Raise IndexError /\
     (PhaseAnalysis.detect_phases r σ).2 = Raise ValueError) /\
  (bm <> [] -> has_weight bm = false ->
     (V3.detect_phases (pd:=Pandas2) r σ).2 = Raise KeyError /\
     (PhaseAnalysis.detect_phases (pd:=Pandas2) r σ).2 = Raise KeyError /\
     (V3.detect_phases (pd:=Pandas3) r σ).2 = Raise ValueError /\
     (PhaseAnalysis.detect_phases (pd:=Pandas3) r σ).2 = Raise ValueError) /\
  (bm <> [] -> has_weight bm = true ->
     exists ph, dom ph = phase_ids /\
       forall pd : pandas_release,
         (V3.detect_phases r σ).2 = Ok ph /\ (PhaseAnalysis.detect_phases r σ).2 = Ok ph).
Proof.
  intros Hr.
  assert (Hrun : forall pd : pandas_release,
            (V3.detect_phases r σ).2
              = V3.old_phases V3.old_p2_end (derive_new bm)
                  (series_min (minutes <$> bm)) (series_max (minutes <$> bm)) /\
            (PhaseAnalysis.detect_phases r σ).2
              = V3.old_phases PhaseAnalysis.old_p2_end (derive_new bm)
                  (series_min (minutes <$> bm)) (series_max (minutes <$> bm))).
  { intros pd. unfold V3.detect_phases, PhaseAnalysis.detect_phases.
    by rewrite !(detect_phases_with_run _ σ r bm Hr), derive_old_new. }
  split; [|split].
  - intros -> pd. destruct (Hrun pd) as [-> ->].
    destruct (old_p2_end_outcome (pd:=pd) (derive_new (F:=F) [])) as (Hempty & _).
    destruct (Hempty eq_refl) as [H1 H2].
    split; by apply old_phases_raises.
  - intros Hne Hw.
    assert (Hnone : forall pd : pandas_release,
              (V3.detect_phases r σ).2 = Raise (no_weight_error pd) /\
              (PhaseAnalysis.detect_phases r σ).2 = Raise (no_weight_error pd)).
    { intros pd. destruct (Hrun pd) as [-> ->].
      destruct (old_p2_end_outcome (pd:=pd) (derive_new bm)) as (_ & Hnone & _).
      destruct Hnone as [H1 H2].
      - by rewrite derive_new_nil_iff.
      - by rewrite has_weight_derive_new.
      - split; by apply old_phases_raises. }
    destruct (Hnone Pandas2) as [H2v H2p]. destruct (Hnone Pandas3) as [H3v H3p].
    done.
  - intros Hne Hw.
    destruct (old_p2_end_outcome (pd:=Pandas3) (derive_new bm)) as (_ & _ & Hok).
    destruct Hok as (s & _ & H1 & H2).
    + by rewrite derive_new_nil_iff.
    + by rewrite has_weight_derive_new.
    + eexists. split; [apply seven_dom|]. intros pd.
      destruct (Hrun pd) as [-> ->].
      destruct (old_p2_end_release pd Pandas3 (derive_new bm)) as [Ev Ep];
        [by rewrite has_weight_derive_new|].
      rewrite <- Ev in H1. rewrite <- Ep in H2.
      split; by apply old_phases_seven.
Qed.

Lemma detect_phases_outcome_witness :
  (V3.detect_phases (pd:=Pandas2) 0%nat (store_of (F:=float) batch_weightless)).2
    = Raise KeyError /\
  (PhaseAnalysis.detect_phases (pd:=Pandas2) 0%nat (store_of (F:=float) batch_weightless)).2
    = Raise KeyError /\
  (V3.detect_phases (pd:=Pandas3) 0%nat (store_of (F:=float) batch_weightless)).2
    = Raise ValueError /\
  (PhaseAnalysis.detect_phases (pd:=Pandas3) 0%nat (store_of (F:=float) batch_weightless)).2
    = Raise ValueError.
Proof.
  destruct (detect_phases_outcome (store_of (F:=float) batch_weightless) 0%nat
              batch_weightless eq_refl) as (_ & Hnone & _).
  apply Hnone; [discriminate | reflexivity].
Defined.

Lemma old_p1_end_bound (df : frame xnum) (ps : Q) :
  timed df ->
  exists q, V3.old_p1_end df (Fin ps) = Fin q /\
    ((forall s, In s df -> exists q', minutes s = Fin q' /\ (ps <= q')%Q) -> (ps <= q)%Q).
Proof.
  intros Ht. unfold V3.old_p1_end. case_frame E.
  - exists (ps + 5)%Q. split; [done|]. intros _. lra.
  - apply filter_head_In in E as [Hin _].
    destruct (notna_is_Fin _ (Ht r Hin)) as [q Hq].
    exists q. split; [done|]. intros Hall.
    destruct (Hall r Hin) as (q' & Hq' & Hle). congruence.
Qed.

Lemma old_p3_end_bound (df : frame xnum) (p : Q) :
  exists q, V3.old_p3_end df (Fin p) = Fin q /\ (p <= q)%Q.
Proof.
  unfold V3.old_p3_end. case_frame E.
  - exists (p + 45)%Q. split; [done | lra].
  - apply filter_head_In in E as [Hin _].
    apply in_gt_window in Hin as (_ & q & Hq & Hlt).
    exists q. split; [done | lra].
Qed.

Lemma old_p4_end_bound (df : frame xnum) (p : Q) :
  exists q, V3.old_p4_end df (Fin p) = Fin q /\ (p <= q)%Q.
Proof.
  unfold V3.old_p4_end.
  destruct (List.filter (fun s => flt (lit 300) (sparging_mashing_water_flow s))
              (List.filter (fun s => fle (Fin p) (minutes s)) df)) as [|h hrest] eqn:Ehigh.
  - exists (p + 20)%Q. split; [done | lra].
  - assert (Hwin : forall s, In s (h :: hrest) ->
                     exists q, minutes s = Fin q /\ (p <= q)%Q).
    { intros s Hs. rewrite <- Ehigh in Hs. apply filter_In in Hs as [Hs _].
      by apply in_ge_window in Hs as [_ Hq]. }
    destruct (List.filter (fun s => flt (lit 5) (gap s)) (with_gap (h :: hrest)))
      as [|g grest] eqn:Egap.
    + destruct (with_gap_In (h :: hrest) (List.last (with_gap (h :: hrest)) h))
        as (y & gy & Hy & Hlast).
      { apply List_last_In. by rewrite with_gap_cons. }
      rewrite Hlast. change (minutes (set_gap y gy)) with (minutes y).
      destruct (Hwin y Hy) as (qy & Hqy & Hpy). rewrite Hqy.
      exists (qy + 2)%Q. split; [done | lra].
    + apply filter_head_In in Egap as [Hin Hgap].
      rewrite with_gap_cons in Hin. destruct Hin as [<- | Hin]; [discriminate Hgap|].
      destruct (gap_tail_In hrest h g Hin) as (y & prev & Hy & Hprev & ->).
      change (minutes (set_gap y (fsub (minutes y) (minutes prev)))) with (minutes y).
      change (gap (set_gap y (fsub (minutes y) (minutes prev))))
        with (fsub (minutes y) (minutes prev)) in Hgap.
      destruct (Hwin y (or_intror Hy)) as (qy & Hqy & Hpy).
      destruct (Hwin prev Hprev) as (qp & Hqp & Hpp).
      rewrite Hqy, Hqp in *.
      change (fsub (Fin qy) (Fin qp)) with (Fin (qy - qp)) in Hgap.
      change (lit 5) with (Fin 5) in Hgap. xnum_props.
      exists (qy - 2)%Q. split; [done | lra].
Qed.

Lemma old_p5_end_bound (df : frame xnum) (p e : Q) :
  exists q, V3.old_p5_end df (Fin p) (Fin e) = Fin q.
Proof.
  unfold V3.old_p5_end. case_frame E.
  - destruct (py_min_Fin (p + 40) e) as (q & Hq & _). by exists q.
  - apply filter_head_In in E as [Hin _].
    apply in_gt_window in Hin as (_ & q & Hq & _).
    rewrite Hq. by exists (q - 2)%Q.
Qed.

Lemma old_p6_end_bound (df : frame xnum) (p e : Q) :
  exists q, V3.old_p6_end df (Fin p) (Fin e) = Fin q.
Proof.
  unfold V3.old_p6_end. case_last E.
  - apply filter_last_In in E as [Hin _].
    apply in_ge_window in Hin as (_ & q & Hq & _).
    rewrite Hq. by exists (q + 5)%Q.
  - destruct (py_min_Fin (p + 30) e) as (q & Hq & _). by exists q.
Qed.

(** The eight boundaries of detect_phases on an ordered batch that carries
    the vessel weight. *)
Lemma old_boundaries {pd : pandas_release} (σ : gmap ref (frame xnum)) (r : ref) (bm : frame xnum)
    (s0 sn : row xnum) :
  σ !! r = Some bm -> head bm = Some s0 -> last bm = Some sn ->
  ordered bm = true -> has_weight bm = true ->
  exists q0 q1 q2 q3 q4 q5 q6 b qn,
    minutes s0 = Fin q0 /\ minutes sn = Fin qn /\ (b == qn)%Q /\
    (V3.detect_phases r σ).2 =
      Ok (seven (Fin q0) (Fin q1) (Fin q2) (Fin q3) (Fin q4) (Fin q5) (Fin q6) (Fin b)) /\
    (PhaseAnalysis.detect_phases r σ).2 =
      Ok (seven (Fin q0) (Fin q1) (Fin q2) (Fin q3) (Fin q4) (Fin q5) (Fin q6) (Fin b)) /\
    (q0 <= q1)%Q /\ (q2 <= q3)%Q /\ (q3 <= q4)%Q /\
    (exists s, In s bm /\ minutes s = Fin q2).
Proof.
  intros Hr Hhead Hlast Hord Hw.
  destruct bm as [|s0' t]; [done|]. injection Hhead as ->.
  pose proof (series_min_ordered s0 t Hord) as Hmin.
  destruct (ordered_head_le s0 t Hord) as (q0 & Hq0 & Hall).
  destruct (series_max_ordered (s0 :: t) sn Hord Hlast) as (b & qn & Hmax & Hqn & Hb).
  assert (Ht : timed (derive_new (s0 :: t))) by (by apply timed_derive_new, ordered_timed).
  destruct (old_p2_end_outcome (derive_new (s0 :: t))) as (_ & _ & Hok).
  destruct Hok as (s & Hs & H2v & H2p); [done | by rewrite has_weight_derive_new |].
  destruct (derive_new_In _ s Hs) as (s' & g & Hs' & ->).
  change (minutes (set_grist_flow s' g)) with (minutes s') in H2v, H2p.
  destruct (Hall s' Hs') as (q2 & Hq2 & _). rewrite Hq2 in H2v, H2p.
  unfold V3.detect_phases, PhaseAnalysis.detect_phases.
  rewrite !(detect_phases_with_run _ σ r (s0 :: t) Hr). cbn [snd].
  rewrite derive_old_new, Hmin, Hq0, Hmax.
  rewrite (old_phases_seven _ _ _ _ _ H2v), (old_phases_seven _ _ _ _ _ H2p).
  destruct (old_p1_end_bound (derive_new (s0 :: t)) q0 Ht) as (q1 & H1 & H1le).
  rewrite H1.
  destruct (old_p3_end_bound (derive_new (s0 :: t)) q2) as (q3 & H3 & H3le).
  rewrite H3.
  destruct (old_p4_end_bound (derive_new (s0 :: t)) q3) as (q4 & H4 & H4le).
  rewrite H4.
  destruct (old_p5_end_bound (derive_new (s0 :: t)) q4 b) as (q5 & H5).
  rewrite H5.
  destruct (old_p6_end_bound (derive_new (s0 :: t)) q5 b) as (q6 & H6).
  rewrite H6.
  exists q0, q1, q2, q3, q4, q5, q6, b, qn.
  repeat split; try done.
  - apply H1le. intros x Hx.
    destruct (derive_new_In _ x Hx) as (x' & gx & Hx' & ->).
    exact (Hall x' Hx').
  - by exists s'.
Qed.

(** X2.  On every ordered, non-empty batch that carries the vessel weight,
    detect_phases (both files) returns seven phases, ids 1 to 7, each ending
    where the next starts, phase 1 starting at the first elapsed time and
    phase 7 ending at the last; every boundary is a number, phase 2 ends at
    the elapsed time of a sample, and phases 1, 3 and 4 never have negative
    length. *)
Theorem detect_phases_partition {pd : pandas_release} (σ : gmap ref (frame xnum)) (r : ref)
    (bm : frame xnum) (s0 sn : row xnum) :
  σ !! r = Some bm -> head bm = Some s0 -> last bm = Some sn ->
  ordered bm = true -> has_weight bm = true ->
  exists ph p1 p2 p3 p4 p5 p6 p7,
    (V3.detect_phases r σ).2 = Ok ph /\ (PhaseAnalysis.detect_phases r σ).2 = Ok ph /\
    dom ph = phase_ids /\
    ph !! 1%nat = Some p1 /\ ph !! 2%nat = Some p2 /\ ph !! 3%nat = Some p3 /\
    ph !! 4%nat = Some p4 /\ ph !! 5%nat = Some p5 /\ ph !! 6%nat = Some p6 /\
    ph !! 7%nat = Some p7 /\
    start p1 = minutes s0 /\
    end_ p1 = start p2 /\ end_ p2 = start p3 /\ end_ p3 = start p4 /\
    end_ p4 = start p5 /\ end_ p5 = start p6 /\ end_ p6 = start p7 /\
    feq (end_ p7) (minutes sn) = true /\
    Forall (fun p => notna (start p) = true /\ notna (end_ p) = true)
           [p1; p2; p3; p4; p5; p6; p7] /\
    (exists s, In s bm /\ end_ p2 = minutes s) /\
    fle (start p1) (end_ p1) = true /\ fle (start p3) (end_ p3) = true /\
    fle (start p4) (end_ p4) = true.
Proof.
  intros Hr Hhead Hlast Hord Hw.
  destruct (old_boundaries σ r bm s0 sn Hr Hhead Hlast Hord Hw)
    as (q0 & q1 & q2 & q3 & q4 & q5 & q6 & b & qn & Hq0 & Hqn & Hb & Hv & Hp
        & H1 & H3 & H4 & (s & Hs & Hs2)).
  destruct (seven_lookups (Fin q0) (Fin q1) (Fin q2) (Fin q3) (Fin q4) (Fin q5) (Fin q6) (Fin b))
    as (L1 & L2 & L3 & L4 & L5 & L6 & L7).
  eexists _, _, _, _, _, _, _, _.
  split; [exact Hv|]. split; [exact Hp|]. split; [apply seven_dom|].
  split; [exact L1|]. split; [exact L2|]. split; [exact L3|]. split; [exact L4|].
  split; [exact L5|]. split; [exact L6|]. split; [exact L7|].
  cbn [start end_]. rewrite Hq0, Hqn.
  repeat split; try done.
  - by xnum_props.
  - repeat constructor; apply notna_Fin.
  - by exists s.
  - by xnum_props.
  - by xnum_props.
  - by xnum_props.
Qed.

Lemma detect_phases_partition_witness :
  exists ph p1 p2 p3 p4 p5 p6 p7,
    (V3.detect_phases (pd:=Pandas3) 0%nat (store_of (F:=xnum) batch_between)).2 = Ok ph /\
    (PhaseAnalysis.detect_phases (pd:=Pandas3) 0%nat (store_of (F:=xnum) batch_between)).2 = Ok ph /\
    dom ph = phase_ids /\
    ph !! 1%nat = Some p1 /\ ph !! 2%nat = Some p2 /\ ph !! 3%nat = Some p3 /\
    ph !! 4%nat = Some p4 /\ ph !! 5%nat = Some p5 /\ ph !! 6%nat = Some p6 /\
    ph !! 7%nat = Some p7 /\
    start p1 = minutes (sample (F:=xnum) 0 100 0) /\
    end_ p1 = start p2 /\ end_ p2 = start p3 /\ end_ p3 = start p4 /\
    end_ p4 = start p5 /\ end_ p5 = start p6 /\ end_ p6 = start p7 /\
    feq (end_ p7) (minutes (sample (F:=xnum) 4 80 0)) = true /\
    Forall (fun p => notna (start p) = true /\ notna (end_ p) = true)
           [p1; p2; p3; p4; p5; p6; p7] /\
    (exists s, In s (batch_between (F:=xnum)) /\ end_ p2 = minutes s) /\
    fle (start p1) (end_ p1) = true /\ fle (start p3) (end_ p3) = true /\
    fle (start p4) (end_ p4) = true.
Proof.
  apply (detect_phases_partition (store_of batch_between) 0%nat batch_between
           (sample 0 100 0) (sample 4 80 0)); reflexivity.
Defined.

(** ** detect_phases_new on a batch without weight readings *)

Section WeightlessFacts.
Context {F : Type} `{Number F}.

Lemma assign_In_col (df : frame F) (xs : list F) (s : row F) :
  In s (assign set_grist_flow df xs) ->
  exists s' g, In s' df /\ In g xs /\ s = set_grist_flow s' g.
Proof.
  revert xs; induction df as [|r t IH]; intros [|x xs] Hin; simpl in *; try done.
  destruct Hin as [<- | Hin].
  - exists r, x. repeat split; by left.
  - destruct (IH xs Hin) as (s' & g & Hs' & Hg & ->).
    exists s', g. repeat split; by right.
Qed.

Lemma filter_all_false {A} (f : A -> bool) (l : list A) :
  (forall x, In x l -> f x = false) -> List.filter f l = [].
Proof.
  induction l as [|x t IH]; intros Hall; [done|].
  simpl. rewrite (Hall x) by (by left). apply IH. intros y Hy. apply Hall. by right.
Qed.
End WeightlessFacts.

Lemma weightless_all_nan (bm : frame xnum) :
  has_weight bm = false -> forall s, In s bm -> greast_case_weight s = NaN.
Proof.
  unfold has_weight. induction bm as [|r t IH]; intros Hw s Hs; [destruct Hs|].
  cbn [existsb] in Hw. apply orb_false_iff in Hw as [Hr Ht].
  destruct Hs as [<- | Hs]; [|by apply IH].
  destruct (greast_case_weight r) as [q|]; [|done].
  by rewrite notna_Fin in Hr.
Qed.

Lemma diff_from_all_nan (ws : list xnum) (prev : xnum) :
  Forall (fun w => w = NaN) ws -> Forall (fun d => d = NaN) (diff_from prev ws).
Proof.
  intros Hall. revert prev. induction Hall as [|w ws Hw _ IH]; intros prev; [constructor|].
  cbn [diff_from]. constructor; [by rewrite Hw | apply IH].
Qed.

(** Without weight readings the derived addition rate is 0 everywhere. *)
Lemma grist_flow_new_all_nan (ws : list xnum) :
  Forall (fun w => w = NaN) ws -> Forall (fun g => g = Fin 0) (V3.grist_flow_new ws).
Proof.
  intros Hall.
  assert (Hdiff : Forall (fun d => d = NaN) (series_diff ws)).
  { destruct Hall as [|w ws Hw Hrest]; [constructor|].
    cbn [series_diff]. constructor; [done | by apply diff_from_all_nan]. }
  unfold V3.grist_flow_new, V3.grist_flow_raw, series_neg, fillna.
  rewrite !Forall_fmap. eapply Forall_impl; [exact Hdiff|].
  intros d ->. reflexivity.
Qed.

Lemma weightless_inactive (bm : frame xnum) (s : row xnum) :
  has_weight bm = false -> In s (derive_new bm) ->
  flt (lit 0.5) (grist_flow s) = false.
Proof.
  intros Hw Hs. destruct (assign_In_col _ _ _ Hs) as (s' & g & _ & Hg & ->).
  assert (Hall : Forall (fun w => w = NaN) (greast_case_weight <$> bm)).
  { rewrite Forall_fmap, Forall_forall. intros x Hx.
    apply (weightless_all_nan bm Hw). by apply list_elem_of_In. }
  pose proof (grist_flow_new_all_nan _ Hall) as Hzero.
  rewrite Forall_forall in Hzero.
  rewrite (Hzero g) by (by apply list_elem_of_In). reflexivity.
Qed.

(** X3.  On an ordered batch without any weight reading, detect_phases_new
    fails exactly when some sample lies five minutes or more after the first
    one: the minimum-weight lookup of Phase 2 is then reached, and it ends
    in KeyError (from .loc) up to pandas 2.x and in ValueError (from idxmin)
    from pandas 3.0 on.  On a shorter batch it returns its seven phases,
    whatever the release. *)
Theorem weightless_batch_rejected (σ : gmap ref (frame xnum)) (r : ref)
    (bm : frame xnum) (s0 : row xnum) :
  σ !! r = Some bm -> head bm = Some s0 -> ordered bm = true -> has_weight bm = false ->
  ((exists s, In s bm /\ fle (fadd (minutes s0) (lit 5)) (minutes s) = true) ->
     (V3.detect_phases_new (pd:=Pandas2) r σ).2 = Raise KeyError /\
     (V3.detect_phases_new (pd:=Pandas3) r σ).2 = Raise ValueError) /\
  ((forall s, In s bm -> fle (fadd (minutes s0) (lit 5)) (minutes s) = false) ->
     exists ph, dom ph = phase_ids /\
       forall pd : pandas_release, (V3.detect_phases_new r σ).2 = Ok ph).
Proof.
  intros Hr Hhead Hord Hw.
  destruct bm as [|s0' t]; [done|]. injection Hhead as ->.
  pose proof (series_min_ordered s0 t Hord) as Hmin.
  assert (Hrun : forall pd : pandas_release,
            (V3.detect_phases_new r σ).2
              = V3.new_phases (derive_new (s0 :: t)) (minutes s0)
                  (series_max (minutes <$> s0 :: t))).
  { intros pd. rewrite (detect_phases_new_run σ r (s0 :: t) Hr). cbn [snd].
    by rewrite Hmin. }
  assert (Hidle : forall s, In s (derive_new (s0 :: t)) ->
                    flt (lit 0.5) (grist_flow s) = false)
    by (intros s; by apply weightless_inactive).
  assert (H1 : V3.new_p1_end (derive_new (s0 :: t)) (minutes s0) = fadd (minutes s0) (lit 5)).
  { unfold V3.new_p1_end. by rewrite (filter_all_false _ _ Hidle). }
  split.
  - intros (s & Hs & Hge).
    destruct (derive_new_In_rev (s0 :: t) s Hs) as (g & Hg).
    assert (Hfail : forall pd : pandas_release,
              (V3.detect_phases_new r σ).2 = Raise (no_weight_error pd)).
    { intros pd. rewrite (Hrun pd).
      unfold V3.new_phases. rewrite H1. unfold V3.new_p2_end.
      destruct (List.filter (fun x => fle (fadd (minutes s0) (lit 5)) (minutes x))
                  (derive_new (s0 :: t))) as [|x xs] eqn:Edata.
      - pose proof (filter_nil_all _ _ Edata _ Hg) as Hno. cbn beta in Hno.
        change (minutes (set_grist_flow s g)) with (minutes s) in Hno. congruence.
      - rewrite (filter_all_false (fun x => flt (lit 0.5) (grist_flow x)) (x :: xs)).
        + cbn [last]. rewrite min_weight_lookup_fails; [done | done |].
          by rewrite has_weight_derive_new.
        + intros y Hy. apply Hidle. rewrite <- Edata in Hy.
          by apply filter_In in Hy as [Hy _]. }
    split; [exact (Hfail Pandas2) | exact (Hfail Pandas3)].
  - intros Hnone.
    assert (H2 : forall pd : pandas_release,
              V3.new_p2_end (derive_new (s0 :: t)) (fadd (minutes s0) (lit 5))
              = Ok (fadd (fadd (minutes s0) (lit 5)) (lit 10))).
    { intros pd. unfold V3.new_p2_end. rewrite filter_all_false; [done|].
      intros x Hx. destruct (derive_new_In _ x Hx) as (x' & g & Hx' & ->).
      exact (Hnone x' Hx'). }
    eexists. split; [apply seven_dom|]. intros pd. rewrite (Hrun pd).
    apply new_phases_seven. rewrite H1. apply H2.
Qed.

Lemma weightless_batch_rejected_witness :
  (V3.detect_phases_new (pd:=Pandas2) 0%nat (store_of (F:=xnum) batch_weightless)).2
    = Raise KeyError /\
  (V3.detect_phases_new (pd:=Pandas3) 0%nat (store_of (F:=xnum) batch_weightless)).2
    = Raise ValueError.
Proof.
  apply (proj1 (weightless_batch_rejected (store_of batch_weightless) 0%nat batch_weightless
                  (Row (lit 0) nan (lit 0) nan nan nan nan nan)
                  ltac:(reflexivity) ltac:(reflexivity) ltac:(reflexivity)
                  ltac:(reflexivity))).
  exists (Row (lit 6) nan (lit 0) nan nan nan nan nan).
  split; [|reflexivity]. do 6 right. by left.
Defined.

(** X4.  The two variants place the end of Phase 1 at the same time
    whenever no addition rate lies between their thresholds, that is, above
    0.5 and not above 10. *)
Theorem phase1_variants_agree (df : frame xnum) (ps : xnum) :
  (forall s, In s df -> flt (lit 0.5) (grist_flow s) = true ->
             flt (lit 10) (grist_flow s) = true) ->
  V3.new_p1_end df ps = V3.old_p1_end df ps.
Proof.
  intros Hgap. unfold V3.new_p1_end, V3.old_p1_end.
  rewrite (filter_ext_in (fun s => flt (lit 0.5) (grist_flow s))
                         (fun s => flt (lit 10) (grist_flow s))); [done|].
  intros s Hs. destruct (flt (lit 0.5) (grist_flow s)) eqn:E.
  - symmetry. by apply Hgap.
  - symmetry. destruct (grist_flow s) as [v|]; [|done].
    change (lit 0.5) with (Fin 0.5) in E. change (lit 10) with (Fin 10).
    xnum_props. lra.
Qed.

Lemma phase1_variants_agree_witness :
  V3.new_p1_end (derive_new (F:=xnum) batch_between) (lit 0)
    = V3.old_p1_end (derive_new (F:=xnum) batch_between) (lit 0).
Proof.
  apply phase1_variants_agree.
  intros s Hs Hact.
  repeat (destruct Hs as [<- | Hs]; [first [reflexivity | discriminate Hact]|]).
  destruct Hs.
Defined.

(** ** calculate_heat_available on windows and on its own output *)

Section HeatMore.
Context {F : Type} `{Number F}.

Lemma heat_column_run (σ : gmap ref (frame F)) (r : ref) (data : frame F) :
  σ !! r = Some data ->
  heat_column (V3.calculate_heat_available r σ) = Some (heat_available <$> heat_frame data).
Proof.
  intros Hr. rewrite (calculate_heat_available_run σ r data Hr).
  unfold heat_column. by rewrite lookup_insert_eq.
Qed.

Lemma heat_from_again (rest : frame F) (prev : row F) (h : F) :
  heat_from (set_heat_available prev h) (heat_from prev rest) = heat_from prev rest.
Proof.
  revert prev h; induction rest as [|c rest IH]; intros prev h; [done|].
  cbn [heat_from].
  change (heat_of (set_heat_available prev h) (set_heat_available c (heat_of prev c)))
    with (heat_of prev c).
  change (set_heat_available (set_heat_available c (heat_of prev c)) (heat_of prev c))
    with (set_heat_available c (heat_of prev c)).
  f_equal. apply IH.
Qed.

Lemma heat_frame_again (data : frame F) : heat_frame (heat_frame data) = heat_frame data.
Proof.
  destruct data as [|r0 rest]; [done|].
  cbn [heat_frame].
  change (set_heat_available (set_heat_available r0 (lit 0.0)) (lit 0.0))
    with (set_heat_available r0 (lit 0.0)).
  f_equal. apply heat_from_again.
Qed.
End HeatMore.

(** X5.  The thermal flux computed on a contiguous window of a batch, as
    plot_phase_1 does, agrees with the flux computed on the whole batch at
    every sample of the window but the first, where it is 0. *)
Theorem heat_on_window {F : Type} `{Number F}
    (σ : gmap ref (frame F)) (r1 r2 : ref) (pre win post : frame F) :
  σ !! r1 = Some win -> σ !! r2 = Some (pre ++ win ++ post) ->
  exists cw ca,
    heat_column (V3.calculate_heat_available r1 σ) = Some cw /\
    heat_column (V3.calculate_heat_available r2 σ) = Some ca /\
    length cw = length win /\
    (forall i, (S i < length win)%nat -> cw !! S i = ca !! (length pre + S i)%nat) /\
    (forall w0, win !! 0%nat = Some w0 -> cw !! 0%nat = Some (lit 0.0)).
Proof.
  intros H1 H2.
  exists (heat_available <$> heat_frame win), (heat_available <$> heat_frame (pre ++ win ++ post)).
  split; [by apply heat_column_run|]. split; [by apply heat_column_run|].
  split; [by rewrite length_fmap, length_heat_frame|]. split.
  - intros i Hi. rewrite !list_lookup_fmap.
    destruct (lookup_lt_is_Some_2 win i) as [a Ha]; [lia|].
    destruct (lookup_lt_is_Some_2 win (S i)) as [c Hc]; [lia|].
    rewrite (heat_frame_lookup_S win i a c Ha Hc).
    replace (length pre + S i)%nat with (S (length pre + i)) by lia.
    rewrite (heat_frame_lookup_S (pre ++ win ++ post) (length pre + i) a c); [done| |].
    + rewrite lookup_app_r by lia.
      replace (length pre + i - length pre)%nat with i by lia.
      rewrite lookup_app_l by lia. done.
    + rewrite lookup_app_r by lia.
      replace (S (length pre + i) - length pre)%nat with (S i) by lia.
      rewrite lookup_app_l by lia. done.
  - intros w0 H0. rewrite list_lookup_fmap, (heat_frame_lookup_0 win w0 H0). done.
Qed.

Lemma heat_on_window_witness :
  exists cw ca,
    heat_column (V3.calculate_heat_available 0%nat
                   (<[1%nat := batch_no_flow ++ batch_thermal ++ []]>
                      (store_of (F:=float) batch_thermal))) = Some cw /\
    heat_column (V3.calculate_heat_available 1%nat
                   (<[1%nat := batch_no_flow ++ batch_thermal ++ []]>
                      (store_of (F:=float) batch_thermal))) = Some ca /\
    length cw = length (batch_thermal (F:=float)) /\
    (forall i, (S i < length (batch_thermal (F:=float)))%nat ->
               cw !! S i = ca !! (length (batch_no_flow (F:=float)) + S i)%nat) /\
    (forall w0, batch_thermal (F:=float) !! 0%nat = Some w0 -> cw !! 0%nat = Some (lit 0.0)).
Proof.
  apply (heat_on_window (<[1%nat := batch_no_flow ++ batch_thermal ++ []]>
                           (store_of (F:=float) batch_thermal))
           0%nat 1%nat batch_no_flow batch_thermal []); reflexivity.
Defined.

(** X6.  Running calculate_heat_available on the frame it returned gives
    the same heat_available column again. *)
Theorem heat_of_heat_frame {F : Type} `{Number F}
    (σ : gmap ref (frame F)) (r : ref) (data : frame F) :
  σ !! r = Some data ->
  exists out,
    (V3.calculate_heat_available r σ).2 = Ok out /\
    heat_column (V3.calculate_heat_available out (V3.calculate_heat_available r σ).1)
      = heat_column (V3.calculate_heat_available r σ).
Proof.
  intros Hr. exists (fresh (dom σ)).
  rewrite (heat_column_run σ r data Hr).
  rewrite (calculate_heat_available_run σ r data Hr). cbn [fst snd].
  split; [done|].
  rewrite (heat_column_run _ (fresh (dom σ)) (heat_frame data)) by apply lookup_insert_eq.
  by rewrite heat_frame_again.
Qed.

Lemma heat_of_heat_frame_witness :
  exists out,
    (V3.calculate_heat_available 0%nat (store_of (F:=float) batch_thermal)).2 = Ok out /\
    heat_column (V3.calculate_heat_available out
                   (V3.calculate_heat_available 0%nat (store_of (F:=float) batch_thermal)).1)
      = heat_column (V3.calculate_heat_available 0%nat (store_of (F:=float) batch_thermal)).
Proof.
  apply (heat_of_heat_frame (store_of batch_thermal) 0%nat batch_thermal). reflexivity.
Defined.

(** X7.  The sign of the thermal flux.  With all three signals present,
    Q[i] is 0 when no water flowed or when mash and water have the same
    temperature; with water flowing, Q[i] is positive when the mash is
    warmer than the water and negative when the water is warmer. *)
Theorem thermal_flux_sign (σ : gmap ref (frame xnum)) (r : ref) (data : frame xnum)
    (i : nat) (prev cur : row xnum) (f w m : Q) :
  σ !! r = Some data -> data !! i = Some prev -> data !! S i = Some cur ->
  sparging_mashing_water_flow prev = Fin f ->
  mashing_sparging_water_temp prev = Fin w -> mashing_temp cur = Fin m ->
  exists col h,
    heat_column (V3.calculate_heat_available r σ) = Some col /\
    col !! S i = Some (Fin h) /\
    ((f == 0)%Q \/ (m == w)%Q -> (h == 0)%Q) /\
    ((0 < f)%Q -> (w < m)%Q -> (0 < h)%Q) /\
    ((0 < f)%Q -> (m < w)%Q -> (h < 0)%Q).
Proof.
  intros Hr Hp Hc Hf Hw Hm.
  exists (heat_available <$> heat_frame data), (1.0 * (f / 60.0) * 4.18 * (m - w))%Q.
  split; [by apply heat_column_run|].
  split.
  { rewrite list_lookup_fmap, (heat_frame_lookup_S data i prev cur Hp Hc).
    cbn [fmap option_fmap option_map]. unfold heat_of. cbn zeta.
    rewrite Hf, Hw, Hm, !notna_Fin. reflexivity. }
  assert (Hh : (1.0 * (f / 60.0) * 4.18 * (m - w) == (209 # 3000) * (f * (m - w)))%Q)
    by field.
  split; [|split].
  - intros [H0 | H0]; rewrite Hh, H0; ring.
  - intros Hpos Hlt. rewrite Hh.
    assert (0 < f * (m - w))%Q by (apply Qmult_lt_0_compat; lra). lra.
  - intros Hpos Hlt. rewrite Hh.
    assert (0 < f * (w - m))%Q by (apply Qmult_lt_0_compat; lra).
    assert (f * (m - w) == - (f * (w - m)))%Q by ring. lra.
Qed.

Lemma thermal_flux_sign_witness :
  exists col h,
    heat_column (V3.calculate_heat_available 0%nat (store_of (F:=xnum) batch_thermal))
      = Some col /\
    col !! 1%nat = Some (Fin h) /\
    ((300 == 0)%Q \/ (65 == 20)%Q -> (h == 0)%Q) /\
    ((0 < 300)%Q -> (20 < 65)%Q -> (0 < h)%Q) /\
    ((0 < 300)%Q -> (65 < 20)%Q -> (h < 0)%Q).
Proof.
  apply (thermal_flux_sign (store_of batch_thermal) 0%nat batch_thermal 0%nat
           (thermal_sample (lit 300) (lit 60) (lit 20))
           (thermal_sample (lit 300) (lit 65) (lit 20)) 300%Q 20%Q 65%Q); reflexivity.
Defined.

(** ** generate_color_shades *)

Lemma shade_divisor_pos (n : Z) : (0 < inject_Z (Z.max (n - 1) 1))%Q.
Proof.
  change 0%Q with (inject_Z 0). rewrite <- Zlt_Qlt. lia.
Qed.

Lemma shade_factor_eq (n : Z) (i : nat) :
  (shade_factor n i
   == 0.4 + 0.6 * (inject_Z (Z.of_nat i) / inject_Z (Z.max (n - 1) 1)))%Q.
Proof.
  unfold shade_factor. pose proof (shade_divisor_pos n). field. lra.
Qed.

Lemma shade_ratio_bounds (n : Z) (i : nat) :
  (i < Z.to_nat n)%nat ->
  (0 <= inject_Z (Z.of_nat i) / inject_Z (Z.max (n - 1) 1) <= 1)%Q.
Proof.
  intros Hi. pose proof (shade_divisor_pos n) as Hpos. split.
  - apply Qle_shift_div_l; [done|]. rewrite Qmult_0_l.
    change 0%Q with (inject_Z 0). rewrite <- Zle_Qle. lia.
  - apply Qle_shift_div_r; [done|]. rewrite Qmult_1_l.
    rewrite <- Zle_Qle. lia.
Qed.

Lemma shade_ratio_mono (n : Z) (i j : nat) :
  (i < j)%nat ->
  (inject_Z (Z.of_nat i) / inject_Z (Z.max (n - 1) 1)
   < inject_Z (Z.of_nat j) / inject_Z (Z.max (n - 1) 1))%Q.
Proof.
  intros Hij. pose proof (shade_divisor_pos n) as Hpos.
  unfold Qdiv. apply Qmult_lt_compat_r; [by apply Qinv_lt_0_compat|].
  rewrite <- Zlt_Qlt. lia.
Qed.

Lemma shade_lookup (to_rgb : string -> result (xnum * xnum * xnum))
    (base : string) (n : Z) (i : nat) (r g b : Q) :
  match to_rgb base with
  | Ok c => c
  | Raise _ => (lit 0.5, lit 0.5, lit 0.5)
  end = (Fin r, Fin g, Fin b) ->
  (i < Z.to_nat n)%nat ->
  generate_color_shades to_rgb base n !! i
    = Some (Fin (r * shade_factor n i), Fin (g * shade_factor n i),
            Fin (b * shade_factor n i)).
Proof.
  intros Hrgb Hi. unfold generate_color_shades.
  rewrite Hrgb, list_lookup_fmap, lookup_seq_lt by done.
  cbn [fmap option_fmap option_map fst snd plus].
  unfold of_int. cbn [lit xnum_number fmul fadd fdiv xnum_lift2 xnum_div].
  assert (Hnz : Qeq_bool (inject_Z (Z.max (n - 1) 1)) 0 = false).
  { destruct (Qeq_bool (inject_Z (Z.max (n - 1) 1)) 0) eqn:E; [|done].
    apply Qeq_bool_iff in E. pose proof (shade_divisor_pos n). lra. }
  rewrite Hnz. reflexivity.
Qed.

(** X8.  generate_color_shades returns one shade per requested index, and
    shade i is the base colour (mid grey when the colour name is not valid)
    scaled by a factor that starts at 0.4, grows strictly with i and never
    exceeds 1; with two shades or more the last one is the base colour
    itself.  The shades therefore run from dark to light. *)
Theorem shades_run_dark_to_light (to_rgb : string -> result (xnum * xnum * xnum))
    (base : string) (n : Z) (r g b : Q) :
  to_rgb base = Ok (Fin r, Fin g, Fin b) \/
  ((exists e, to_rgb base = Raise e) /\ r = 0.5%Q /\ g = 0.5%Q /\ b = 0.5%Q) ->
  length (generate_color_shades to_rgb base n) = Z.to_nat n /\
  (forall i, (i < Z.to_nat n)%nat ->
     generate_color_shades to_rgb base n !! i
       = Some (Fin (r * shade_factor n i), Fin (g * shade_factor n i),
               Fin (b * shade_factor n i)) /\
     (0.4 <= shade_factor n i <= 1)%Q) /\
  (forall i j, (i < j < Z.to_nat n)%nat -> (shade_factor n i < shade_factor n j)%Q) /\
  (shade_factor n 0 == 0.4)%Q /\
  ((2 <= n)%Z -> (shade_factor n (Z.to_nat n - 1) == 1)%Q).
Proof.
  intros Hrgb.
  assert (Hc : match to_rgb base with
               | Ok c => c
               | Raise _ => (lit 0.5, lit 0.5, lit 0.5)
               end = (Fin r, Fin g, Fin b)).
  { destruct Hrgb as [-> | ((e & ->) & -> & -> & ->)]; reflexivity. }
  split; [unfold generate_color_shades; by rewrite length_fmap, length_seq|].
  split; [|split; [|split]].
  - intros i Hi. split; [by apply shade_lookup|].
    rewrite shade_factor_eq. pose proof (shade_ratio_bounds n i Hi). lra.
  - intros i j [Hij Hj]. rewrite !shade_factor_eq.
    pose proof (shade_ratio_mono n i j Hij). lra.
  - rewrite shade_factor_eq. pose proof (shade_divisor_pos n).
    change (inject_Z (Z.of_nat 0)) with 0%Q. field. lra.
  - intros Hn. rewrite shade_factor_eq.
    replace (Z.of_nat (Z.to_nat n - 1)) with (n - 1)%Z by lia.
    replace (Z.max (n - 1) 1) with (n - 1)%Z by lia.
    assert (0 < inject_Z (n - 1))%Q
      by (change 0%Q with (inject_Z 0); rewrite <- Zlt_Qlt; lia).
    field. lra.
Qed.

Lemma shades_run_dark_to_light_witness :
  length (generate_color_shades (F:=xnum) (fun _ => Raise ValueError) "brown" 3) = 3%nat /\
  (shade_factor 3 0 == 0.4)%Q /\ (shade_factor 3 (Z.to_nat 3 - 1) == 1)%Q.
Proof.
  destruct (shades_run_dark_to_light (fun _ => Raise ValueError) "brown" 3 0.5 0.5 0.5)
    as (Hlen & _ & _ & H0 & Hlast).
  - right. split; [by exists ValueError | done].
  - split; [exact Hlen|]. split; [exact H0 | apply Hlast; lia].
Defined.

(** ** Batch ids *)

Lemma string_app_cons (a : ascii) (s t : string) : String a s +:+ t = String a (s +:+ t).
Proof. reflexivity. Qed.

Lemma string_app_nil (t : string) : EmptyString +:+ t = t.
Proof. reflexivity. Qed.

Lemma string_app_empty_r (s : string) : s +:+ EmptyString = s.
Proof. induction s as [|a s IH]; [done|]. by rewrite string_app_cons, IH. Qed.

Lemma split_on_cons (c : ascii) (s : string) : exists p ps, split_on c s = p :: ps.
Proof.
  induction s as [|a s (p & ps & IH)]; [by exists EmptyString, []|].
  cbn [split_on]. destruct (Ascii.eqb a c).
  - by exists EmptyString, (split_on c s).
  - rewrite IH. by exists (String a p), ps.
Qed.

Lemma split_on_absent (c : ascii) (s : string) :
  contains c s = false -> split_on c s = [s].
Proof.
  induction s as [|a s IH]; [done|].
  cbn [contains split_on]. intros Hc. apply orb_false_iff in Hc as [Ha Hs].
  by rewrite Ha, (IH Hs).
Qed.

Lemma split_on_app (c : ascii) (p r : string) :
  contains c p = false -> split_on c (p +:+ String c r) = p :: split_on c r.
Proof.
  induction p as [|a p IH]; intros Hc.
  - rewrite ?string_app_cons, ?string_app_nil; simpl. by rewrite Ascii.eqb_refl.
  - cbn [contains] in Hc. apply orb_false_iff in Hc as [Ha Hp].
    rewrite ?string_app_cons, ?string_app_nil; simpl. by rewrite Ha, (IH Hp).
Qed.

Lemma contains_split (c : ascii) (s : string) :
  contains c s = true ->
  exists p r, s = p +:+ String c r /\ contains c p = false.
Proof.
  induction s as [|a s IH]; [done|].
  cbn [contains]. destruct (Ascii.eqb a c) eqn:Ea.
  - intros _. apply Ascii.eqb_eq in Ea as ->. by exists EmptyString, s.
  - intros Hs. destruct (IH Hs) as (p & r & -> & Hp).
    exists (String a p), r. split; [done|]. cbn [contains]. by rewrite Ea, Hp.
Qed.

(** X9.  get_batch_numeric reads the text between the first and the second
    underscore of an id and nothing else: whatever precedes the first
    underscore and whatever follows the second is ignored, and the length
    guard of the source never produces None by itself.  An id without
    underscore is read as a whole. *)
Theorem get_batch_numeric_reads_second_part (py_int : string -> option Z) (s : string) :
  (contains "_" s = false -> get_batch_numeric py_int s = py_int s) /\
  (contains "_" s = true ->
     exists prefix body tail,
       s = prefix +:+ String "_" (body +:+ tail) /\
       contains "_" prefix = false /\ contains "_" body = false /\
       (tail = EmptyString \/ exists t, tail = String "_" t) /\
       get_batch_numeric py_int s = py_int body) /\
  (forall prefix body tail,
     contains "_" prefix = false -> contains "_" body = false ->
     s = prefix +:+ String "_" body \/ s = prefix +:+ String "_" (body +:+ String "_" tail) ->
     get_batch_numeric py_int s = py_int body).
Proof.
  assert (Hform : forall prefix body rest parts,
            contains "_" prefix = false -> split_on "_" rest = body :: parts ->
            get_batch_numeric py_int (prefix +:+ String "_" rest) = py_int body).
  { intros prefix body rest parts Hp Hparts. unfold get_batch_numeric.
    assert (Hc : contains "_" (prefix +:+ String "_" rest) = true).
    { clear. induction prefix as [|a p IH]; [done|].
      rewrite string_app_cons. cbn [contains]. rewrite IH. apply orb_true_r. }
    rewrite Hc, (split_on_app _ _ _ Hp), Hparts. reflexivity. }
  split; [|split].
  - intros Hc. unfold get_batch_numeric. by rewrite Hc.
  - intros Hc. destruct (contains_split _ _ Hc) as (prefix & rest & -> & Hp).
    destruct (contains "_" rest) eqn:Hr.
    + destruct (contains_split _ _ Hr) as (body & t & -> & Hb).
      exists prefix, body, (String "_" t). repeat split; try done.
      * right. by exists t.
      * apply (Hform prefix body _ (split_on "_" t) Hp). by apply split_on_app.
    + exists prefix, rest, EmptyString. repeat split; try done.
      * by rewrite string_app_empty_r.
      * by left.
      * apply (Hform prefix rest rest [] Hp). by apply split_on_absent.
  - intros prefix body tail Hp Hb [-> | ->].
    + apply (Hform prefix body body [] Hp). by apply split_on_absent.
    + apply (Hform prefix body _ (split_on "_" tail) Hp). by apply split_on_app.
Qed.

Lemma get_batch_numeric_reads_second_part_witness :
  get_batch_numeric (fun s => if String.eqb s "101" then Some 101%Z else None) "Batch_101_b"
    = (fun s => if String.eqb s "101" then Some 101%Z else None) "101".
Proof.
  destruct (get_batch_numeric_reads_second_part
              (fun s => if String.eqb s "101" then Some 101%Z else None) "Batch_101_b")
    as (_ & _ & Hread).
  apply (Hread "Batch" "101" "b"); [reflexivity | reflexivity | by right].
Defined.

Lemma split_on_last (c : ascii) (s : string) :
  exists lp, last (split_on c s) = Some lp /\ contains c lp = false /\
    ((split_on c s = [lp] /\ s = lp) \/
     (exists pre p q ps, split_on c s = p :: q :: ps /\ s = pre +:+ String c lp)).
Proof.
  induction s as [|a s (lp & Hlast & Hlp & IH)].
  - exists EmptyString. repeat split. by left.
  - cbn [split_on]. destruct (Ascii.eqb a c) eqn:Ea.
    + apply Ascii.eqb_eq in Ea as ->. exists lp. split; [|split; [done|right]].
      * destruct IH as [[Hsp _] | (pre & p & q & ps & Hsp & _)];
          rewrite Hsp in *; by rewrite last_cons_cons.
      * destruct IH as [[-> ->] | (pre & p & q & ps & -> & ->)].
        -- by exists EmptyString, EmptyString, lp, [].
        -- by exists (String c pre), EmptyString, p, (q :: ps).
    + destruct IH as [[-> ->] | (pre & p & q & ps & Hsp & ->)].
      * exists (String a lp). cbn [contains]. rewrite Ea, Hlp. repeat split. by left.
      * rewrite Hsp in *. exists lp. split; [done|]. split; [done|]. right.
        by exists (String a pre), (String a p), q, ps.
Qed.

(** X10.  The short batch name that plot_multi_batch puts in the legend
    contains no underscore; it is the id itself when the id has no
    underscore, and otherwise the text after the last underscore: the id is
    some prefix, an underscore and the short name. *)
Theorem short_name_is_last_part (batch_id : string) :
  contains "_" (short_name batch_id) = false /\
  (contains "_" batch_id = false -> short_name batch_id = batch_id) /\
  (contains "_" batch_id = true ->
   exists pre, batch_id = pre +:+ String "_" (short_name batch_id)).
Proof.
  unfold short_name. destruct (contains "_" batch_id) eqn:Hc.
  - destruct (split_on_last "_" batch_id) as (lp & Hlast & Hlp & Hs).
    rewrite Hlast. cbn [default]. split; [done|]. split; [done|]. intros _.
    destruct Hs as [[_ ->] | (pre & _ & _ & _ & _ & Hs)]; [congruence|].
    by exists pre.
  - done.
Qed.

Lemma short_name_is_last_part_witness :
  exists pre, "Batch_101_b" = pre +:+ String "_" (short_name "Batch_101_b").
Proof.
  apply (proj2 (proj2 (short_name_is_last_part "Batch_101_b"))). reflexivity.
Defined.

(** ** The callers *)

Lemma timestamp_min_sorted (a : Z) (ts : list (option Z)) :
  ts_sorted (Some a :: ts) = true -> timestamp_min (Some a :: ts) = Some a.
Proof.
  unfold timestamp_min. cbn [ts_sorted fold_left].
  enough (Hgen : forall prev : option Z,
             match prev with Some p => (a <= p)%Z | None => True end ->
             ts_sorted_from prev ts = true ->
             fold_left (fun acc t =>
                          match t, acc with
                          | None, _ => acc
                          | Some a, None => Some a
                          | Some a, Some b => Some (Z.min b a)
                          end) ts (Some a) = Some a)
    by (apply (Hgen (Some a)); lia).
  induction ts as [|t rest IH]; intros prev Hprev Hs; [done|].
  cbn [ts_sorted_from fold_left] in *. apply andb_true_iff in Hs as [Hle Hs].
  destruct t as [y|].
  - assert (Hay : (a <= y)%Z).
    { destruct prev as [p|]; [|done]. cbn in Hle. lia. }
    rewrite Z.min_l by done. by apply (IH (Some y)).
  - by apply (IH None).
Qed.

Lemma elapsed_minutes_Some (a y : Z) :
  elapsed_minutes (F:=xnum) (Some a) (Some y)
  = Fin (inject_Z (y - a) / 1000000000 / 60).
Proof. reflexivity. Qed.

Lemma elapsed_minutes_notna (ps t : option Z) :
  notna (elapsed_minutes (F:=xnum) ps t) = true -> is_Some ps /\ is_Some t.
Proof. destruct ps, t; try done. Qed.

Lemma elapsed_minutes_le (a x y : Z) :
  (x <= y)%Z ->
  fle (elapsed_minutes (F:=xnum) (Some a) (Some x)) (elapsed_minutes (Some a) (Some y)) = true.
Proof.
  intros Hxy. rewrite !elapsed_minutes_Some. apply xle_true.
  assert (Hq : (inject_Z (x - a) <= inject_Z (y - a))%Q) by (rewrite <- Zle_Qle; lia).
  unfold Qdiv. by repeat apply Qmult_le_compat_r.
Qed.

Lemma ordered_from_elapsed (a prev : Z) (l : list (option Z * row xnum)) :
  Forall (fun tr => is_Some tr.1) l ->
  ts_sorted_from (Some prev) (fst <$> l) = true ->
  ordered_from (elapsed_minutes (Some a) (Some prev))
    ((fun tr => set_minutes tr.2 (elapsed_minutes (Some a) tr.1)) <$> l) = true.
Proof.
  revert prev; induction l as [|[t r] l IH]; intros prev Hall Hs; [done|].
  apply Forall_cons in Hall as [[y Hy] Hall]. cbn in Hy. subst t.
  cbn [fmap list_fmap ts_sorted_from fst snd] in *.
  apply andb_true_iff in Hs as [Hle Hs]. cbn in Hle.
  cbn [ordered_from set_minutes minutes].
  rewrite elapsed_minutes_le by lia. by rewrite IH.
Qed.

Lemma add_minutes_length (l : list (option Z * row xnum)) :
  length (add_minutes l) = length l.
Proof. unfold add_minutes. by rewrite length_fmap. Qed.

Lemma add_minutes_weights (l : list (option Z * row xnum)) :
  greast_case_weight <$> add_minutes l = (fun tr => greast_case_weight tr.2) <$> l.
Proof. unfold add_minutes. rewrite <- list_fmap_compose. by apply list_fmap_ext. Qed.

Lemma has_weight_weights (bm : frame xnum) :
  has_weight bm = existsb notna (greast_case_weight <$> bm).
Proof.
  unfold has_weight. induction bm as [|s t IH]; [done|].
  cbn [existsb fmap list_fmap] in *. by rewrite IH.
Qed.

Lemma existsb_Permutation {A} (f : A -> bool) (l l' : list A) :
  l ≡ₚ l' -> existsb f l = existsb f l'.
Proof.
  induction 1 as [|x l l' _ IH|x y l|l l' l'' _ IH1 _ IH2]; cbn.
  - done.
  - by rewrite IH.
  - destruct (f x), (f y); done.
  - congruence.
Qed.

Lemma add_minutes_sorted (a : Z) (r : row xnum) (l : list (option Z * row xnum)) :
  Forall (fun tr => is_Some tr.1) l ->
  ts_sorted (fst <$> (Some a, r) :: l) = true ->
  ordered (add_minutes ((Some a, r) :: l)) = true /\
  head (add_minutes ((Some a, r) :: l)) =
    Some (set_minutes r (Fin (inject_Z (a - a) / 1000000000 / 60))).
Proof.
  intros Hall Hs. unfold add_minutes.
  change (fst <$> (Some a, r) :: l) with (Some a :: (fst <$> l)) in *.
  rewrite (timestamp_min_sorted a (fst <$> l) Hs).
  cbn [fmap list_fmap fst snd head ordered set_minutes minutes].
  rewrite elapsed_minutes_Some, notna_Fin. split; [|done].
  rewrite <- elapsed_minutes_Some. by apply ordered_from_elapsed.
Qed.

Lemma add_minutes_timed (l : list (option Z * row xnum)) :
  timed (add_minutes l) -> Forall (fun tr => is_Some tr.1) l.
Proof.
  intros Ht. apply Forall_forall. intros tr Htr.
  assert (Hin : In (set_minutes tr.2
                      (elapsed_minutes (timestamp_min (fst <$> l)) tr.1))
                   (add_minutes l)).
  { unfold add_minutes. apply list_elem_of_In.
    by apply (list_elem_of_fmap_2
                (fun tr => set_minutes tr.2
                             (elapsed_minutes (timestamp_min (fst <$> l)) tr.1))). }
  apply Ht in Hin. cbn [set_minutes minutes] in Hin.
  by apply elapsed_minutes_notna in Hin as [_ Hin].
Qed.

Lemma ts_le_total (a b : option Z) : ts_le a b = false -> ts_le b a = true.
Proof. destruct a, b; cbn; try done. lia. Qed.

Lemma ts_le_trans (a b c : option Z) :
  ts_le a b = true -> ts_le b c = true -> ts_le a c = true.
Proof. destruct a, b, c; cbn; try done. lia. Qed.

Lemma ts_insert_perm {A} (x : option Z * A) (l : list (option Z * A)) :
  ts_insert x l ≡ₚ x :: l.
Proof.
  induction l as [|y l IH]; cbn [ts_insert]; [done|].
  destruct (ts_le x.1 y.1); [done|]. rewrite IH. apply Permutation_swap.
Qed.

Lemma ts_insert_sorted_from {A} (prev : option Z) (x : option Z * A)
    (l : list (option Z * A)) :
  ts_le prev x.1 = true -> ts_sorted_from prev (fst <$> l) = true ->
  ts_sorted_from prev (fst <$> ts_insert x l) = true.
Proof.
  revert prev; induction l as [|y l IH]; intros prev Hx Hs.
  - cbn. by rewrite Hx.
  - cbn [ts_insert]. cbn [fmap list_fmap ts_sorted_from] in Hs.
    apply andb_true_iff in Hs as [Hy Hs].
    destruct (ts_le x.1 y.1) eqn:E; cbn [fmap list_fmap ts_sorted_from].
    + by rewrite Hx, E, Hs.
    + rewrite Hy. cbn [andb]. apply IH; [by apply ts_le_total | done].
Qed.

Lemma ts_insertion_sort_sorts {F : Type} : sorts_by_timestamp (F:=F) ts_insertion_sort.
Proof.
  intros l. unfold ts_insertion_sort. induction l as [|x l [IHp IHs]]; [done|].
  cbn [foldr]. split.
  - by rewrite ts_insert_perm, IHp.
  - destruct (foldr ts_insert [] l) as [|y l'] eqn:E; [done|].
    cbn [ts_insert]. destruct (ts_le x.1 y.1) eqn:Exy.
    + cbn [fmap list_fmap ts_sorted ts_sorted_from] in *. by rewrite Exy, IHs.
    + cbn [fmap list_fmap ts_sorted] in *.
      apply ts_insert_sorted_from; [by apply ts_le_total | done].
Qed.

(** X11.  What the callers hand to the segmentation.  After the sort by
    timestamp and the assignment of the column minutes, a non-empty batch
    has as many samples as before and carries the vessel weight exactly
    when the loaded rows do; it is ordered exactly when no timestamp is
    missing, and then its first elapsed time is 0. *)
Theorem callers_prepare_ordered_batch
    (sort_values : list (option Z * row xnum) -> list (option Z * row xnum))
    (batch : list (option Z * row xnum)) :
  sorts_by_timestamp sort_values -> batch <> [] ->
  let bm := add_minutes (sort_values batch) in
  length bm = length batch /\
  has_weight bm = has_weight (snd <$> batch) /\
  (ordered bm = true <-> Forall (fun tr => is_Some tr.1) batch) /\
  (Forall (fun tr => is_Some tr.1) batch ->
   exists s0, head bm = Some s0 /\ feq (minutes s0) (lit 0) = true).
Proof.
  intros Hsort Hne bm. destruct (Hsort batch) as [Hperm Hs].
  assert (Hsome : Forall (fun tr => is_Some tr.1) batch ->
                  ordered bm = true /\
                  exists s0, head bm = Some s0 /\ feq (minutes s0) (lit 0) = true).
  { intros Hall. rewrite <- Hperm in Hall. subst bm.
    destruct (sort_values batch) as [|[t r] l] eqn:E.
    - apply Permutation_nil_l in Hperm. by subst.
    - apply Forall_cons in Hall as [[a Ha] Hall]. cbn in Ha. subst t.
      destruct (add_minutes_sorted a r l Hall Hs) as [Hord Hhead].
      split; [done|]. eexists. split; [exact Hhead|].
      cbn [set_minutes minutes]. apply xeq_true.
      rewrite Z.sub_diag. reflexivity. }
  split; [|split; [|split]].
  - subst bm. by rewrite add_minutes_length, Hperm.
  - subst bm. rewrite !has_weight_weights, add_minutes_weights, <- list_fmap_compose.
    apply existsb_Permutation. by apply fmap_Permutation.
  - split; [|by intros Hall; apply Hsome].
    intros Hord. rewrite <- Hperm. by apply add_minutes_timed, ordered_timed.
  - intros Hall. by apply Hsome.
Qed.

Lemma callers_prepare_ordered_batch_witness :
  let bm := add_minutes (ts_insertion_sort batch_unsorted) in
  length bm = length batch_unsorted /\
  has_weight bm = has_weight (snd <$> batch_unsorted) /\
  (ordered bm = true <-> Forall (fun tr => is_Some tr.1) batch_unsorted) /\
  (Forall (fun tr => is_Some tr.1) batch_unsorted ->
   exists s0, head bm = Some s0 /\ feq (minutes s0) (lit 0) = true).
Proof.
  apply (callers_prepare_ordered_batch ts_insertion_sort batch_unsorted
           ts_insertion_sort_sorts).
  discriminate.
Defined.

Lemma phase_markers_seven (b0 b1 b2 b3 b4 b5 b6 b7 : Q) :
  phase_markers (seven (Fin b0) (Fin b1) (Fin b2) (Fin b3) (Fin b4) (Fin b5) (Fin b6) (Fin b7))
                (seq 1 7)
  = Ok [(Fin b0, Fin b1, Fin ((b0 + b1) / 2)); (Fin b1, Fin b2, Fin ((b1 + b2) / 2));
        (Fin b2, Fin b3, Fin ((b2 + b3) / 2)); (Fin b3, Fin b4, Fin ((b3 + b4) / 2));
        (Fin b4, Fin b5, Fin ((b4 + b5) / 2)); (Fin b5, Fin b6, Fin ((b5 + b6) / 2));
        (Fin b6, Fin b7, Fin ((b6 + b7) / 2))].
Proof.
  destruct (seven_lookups (Fin b0) (Fin b1) (Fin b2) (Fin b3) (Fin b4) (Fin b5) (Fin b6) (Fin b7))
    as (L1 & L2 & L3 & L4 & L5 & L6 & L7).
  cbn [seq phase_markers]. unfold phase_at.
  rewrite L1, L2, L3, L4, L5, L6, L7. reflexivity.
Qed.

(** X12.  plot_single_batch.  An empty batch returns None before anything
    is computed and leaves the store as it is.  A non-empty batch with all
    its timestamps and a vessel weight gets seven markers: each span ends
    where the next one starts, the label sits at the middle of its span, the
    first span starts at elapsed time 0 and the last one ends at the elapsed
    time of the last sample; no lookup phases[pnum] fails, and every frame
    that was in the store is unchanged. *)
Theorem plot_single_batch_markers {pd : pandas_release}
    (sort_values : list (option Z * row xnum) -> list (option Z * row xnum))
    (batch : list (option Z * row xnum)) (σ : gmap ref (frame xnum)) :
  sorts_by_timestamp sort_values ->
  (batch = [] -> plot_single_batch sort_values batch σ = (σ, Ok None)) /\
  (batch <> [] -> Forall (fun tr => is_Some tr.1) batch ->
   has_weight (snd <$> batch) = true ->
   exists b0 b1 b2 b3 b4 b5 b6 b7 sn,
     (plot_single_batch sort_values batch σ).2 =
       Ok (Some [(Fin b0, Fin b1, Fin ((b0 + b1) / 2)); (Fin b1, Fin b2, Fin ((b1 + b2) / 2));
                 (Fin b2, Fin b3, Fin ((b2 + b3) / 2)); (Fin b3, Fin b4, Fin ((b3 + b4) / 2));
                 (Fin b4, Fin b5, Fin ((b4 + b5) / 2)); (Fin b5, Fin b6, Fin ((b5 + b6) / 2));
                 (Fin b6, Fin b7, Fin ((b6 + b7) / 2))]) /\
     (b0 == 0)%Q /\
     last (add_minutes (sort_values batch)) = Some sn /\
     feq (Fin b7) (minutes sn) = true /\
     forall r df, σ !! r = Some df ->
                  (plot_single_batch sort_values batch σ).1 !! r = Some df).
Proof.
  intros Hsort. destruct (Hsort batch) as [Hperm Hs]. split.
  - intros ->. apply Permutation_nil_r in Hperm.
    unfold plot_single_batch. by rewrite Hperm.
  - intros Hne Hall Hw.
    set (bm := add_minutes (sort_values batch)).
    assert (Hlen : length (sort_values batch) <> 0%nat).
    { rewrite Hperm. by destruct batch. }
    assert (Hall' : Forall (fun tr => is_Some tr.1) (sort_values batch))
      by (by rewrite Hperm).
    assert (Hbw : has_weight bm = true).
    { subst bm. rewrite has_weight_weights, add_minutes_weights.
      rewrite has_weight_weights, <- list_fmap_compose in Hw. rewrite <- Hw.
      apply existsb_Permutation. by apply fmap_Permutation. }
    assert (Hprep : ordered bm = true /\
                    exists s0, head bm = Some s0 /\ feq (minutes s0) (lit 0) = true).
    { subst bm. destruct (sort_values batch) as [|[t r] l] eqn:E; [done|].
      apply Forall_cons in Hall' as [[a Ha] Hall']. cbn in Ha. subst t.
      destruct (add_minutes_sorted a r l Hall' Hs) as [Hord Hhead].
      split; [done|]. eexists. split; [exact Hhead|].
      cbn [set_minutes minutes]. apply xeq_true. rewrite Z.sub_diag. reflexivity. }
    destruct Hprep as (Hord & s0 & Hhead & H0).
    assert (Hlast : exists sn, last bm = Some sn).
    { destruct bm as [|x t] eqn:Ebm; [done|]. rewrite last_cons_default. eauto. }
    destruct Hlast as [sn Hlast].
    set (σ1 := <[fresh (dom σ) := bm]> σ).
    assert (Hr1 : σ1 !! fresh (dom σ) = Some bm) by apply lookup_insert_eq.
    destruct (new_boundaries σ1 (fresh (dom σ)) bm s0 sn Hr1 Hhead Hlast Hord Hbw)
      as (q0 & q1 & q2 & q3 & q4 & q5 & q6 & b & qn & Hq0 & Hqn & Hb & Hres & _).
    assert (Hrun : plot_single_batch sort_values batch σ =
                   ((V3.detect_phases_new (fresh (dom σ)) σ1).1,
                    Ok (Some [(Fin q0, Fin q1, Fin ((q0 + q1) / 2));
                              (Fin q1, Fin q2, Fin ((q1 + q2) / 2));
                              (Fin q2, Fin q3, Fin ((q2 + q3) / 2));
                              (Fin q3, Fin q4, Fin ((q3 + q4) / 2));
                              (Fin q4, Fin q5, Fin ((q4 + q5) / 2));
                              (Fin q5, Fin q6, Fin ((q5 + q6) / 2));
                              (Fin q6, Fin b, Fin ((q6 + b) / 2))]))).
    { unfold plot_single_batch. destruct (decide _) as [Hz|_]; [done|].
      unfold mbind, M_bind, new_frame, lift, mret, M_ret. fold bm. fold σ1.
      destruct (V3.detect_phases_new (fresh (dom σ)) σ1) as [σ2 res] eqn:Edet.
      cbn [snd] in Hres. subst res. cbn [fst].
      by rewrite phase_markers_seven. }
    exists q0, q1, q2, q3, q4, q5, q6, b, sn. rewrite Hrun. cbn [fst snd].
    split; [done|]. rewrite Hq0 in H0. apply xeq_true in H0. rewrite Hqn.
    split; [done|]. split; [done|]. split; [by apply xeq_true|].
    intros r df Hr.
    rewrite (detect_phases_new_run σ1 _ bm Hr1). cbn [fst].
    apply insert_fresh_lookup. subst σ1. by apply insert_fresh_lookup.
Qed.

Lemma plot_single_batch_markers_witness :
  exists b0 b1 b2 b3 b4 b5 b6 b7 sn,
     (plot_single_batch (pd:=Pandas3) ts_insertion_sort batch_unsorted ∅).2 =
       Ok (Some [(Fin b0, Fin b1, Fin ((b0 + b1) / 2)); (Fin b1, Fin b2, Fin ((b1 + b2) / 2));
                 (Fin b2, Fin b3, Fin ((b2 + b3) / 2)); (Fin b3, Fin b4, Fin ((b3 + b4) / 2));
                 (Fin b4, Fin b5, Fin ((b4 + b5) / 2)); (Fin b5, Fin b6, Fin ((b5 + b6) / 2));
                 (Fin b6, Fin b7, Fin ((b6 + b7) / 2))]) /\
     (b0 == 0)%Q /\
     last (add_minutes (ts_insertion_sort batch_unsorted)) = Some sn /\
     feq (Fin b7) (minutes sn) = true /\
     forall r df, (∅ : gmap ref (frame xnum)) !! r = Some df ->
                  (plot_single_batch (pd:=Pandas3) ts_insertion_sort batch_unsorted ∅).1 !! r = Some df.
Proof.
  apply (proj2 (plot_single_batch_markers ts_insertion_sort batch_unsorted ∅
                  ts_insertion_sort_sorts)).
  - discriminate.
  - repeat constructor; by eexists.
  - reflexivity.
Defined.

Lemma last_filter_last {A} (f : A -> bool) (l : list A) (x : A) :
  last l = Some x -> f x = true -> last (List.filter f l) = Some x.
Proof.
  intros Hlast Hf. induction l as [|a t IH]; [done|].
  rewrite last_cons in Hlast. cbn [List.filter].
  destruct (last t) as [y|] eqn:Et.
  - injection Hlast as ->. specialize (IH eq_refl).
    destruct (f a); [|done]. by rewrite last_cons, IH.
  - injection Hlast as ->. apply last_None in Et as ->. by rewrite Hf.
Qed.

(** X13.  The tab Grain Disposal of the page.  With the phases detect_phases
    returns for an ordered batch that carries the vessel weight,
    plot_phase_6 never fails on phases[7].  When phase 7 starts at or before
    the last sample, the final weight it shows is the vessel weight of the
    last sample and the discharge duration is not negative; when phase 7
    starts after the last sample (phase 6 ends 5 minutes after its last
    high-flow sample), no sample is selected, the final weight shown is 0
    and the duration is negative. *)
Theorem plot_phase_6_final_weight {pd : pandas_release} (σ : gmap ref (frame xnum)) (r : ref)
    (bm : frame xnum) (sn : row xnum) :
  σ !! r = Some bm -> last bm = Some sn ->
  ordered bm = true -> has_weight bm = true ->
  exists ph p7 duration final_weight,
    (PhaseAnalysis.detect_phases r σ).2 = Ok ph /\ ph !! 7%nat = Some p7 /\
    plot_phase_6 bm ph = Ok (duration, final_weight) /\
    duration = fsub (end_ p7) (start p7) /\
    (fle (start p7) (minutes sn) = true ->
     final_weight = greast_case_weight sn /\ fle (lit 0) duration = true) /\
    (flt (minutes sn) (start p7) = true ->
     phase_window bm (start p7) (end_ p7) = [] /\
     final_weight = lit 0 /\ flt duration (lit 0) = true).
Proof.
  intros Hr Hlast Hord Hw.
  assert (Hhead : exists s0, head bm = Some s0) by (destruct bm; [done | eauto]).
  destruct Hhead as [s0 Hhead].
  destruct (old_boundaries σ r bm s0 sn Hr Hhead Hlast Hord Hw)
    as (q0 & q1 & q2 & q3 & q4 & q5 & q6 & b & qn & Hq0 & Hqn & Hb & _ & Hres & _).
  destruct (seven_lookups (Fin q0) (Fin q1) (Fin q2) (Fin q3) (Fin q4) (Fin q5) (Fin q6) (Fin b))
    as (_ & _ & _ & _ & _ & _ & L7).
  destruct (ordered_le_last bm sn Hord Hlast) as (qn' & Hqn' & Hall).
  rewrite Hqn in Hqn'. injection Hqn' as <-.
  eexists _, _, _, _. split; [exact Hres|]. split; [exact L7|].
  unfold plot_phase_6, phase_at. rewrite L7. cbn [mbind result_bind mret result_ret start end_].
  split; [reflexivity|]. split; [reflexivity|]. rewrite Hqn.
  unfold phase_window. split.
  - intros Hle. xnum_props.
    rewrite (last_filter_last _ bm sn Hlast).
    + split; [done|]. cbn [fsub xnum_number xnum_lift2].
      change (lit 0) with (Fin 0). xnum_props. lra.
    + rewrite Hqn. apply andb_true_iff. split; xnum_props; lra.
  - intros Hlt. xnum_props.
    rewrite filter_all_false.
    + split; [done|]. split; [done|]. cbn [fsub xnum_number xnum_lift2].
      change (lit 0) with (Fin 0). xnum_props. lra.
    + intros s Hs. destruct (Hall s Hs) as (q & -> & Hq).
      apply andb_false_iff. left. xnum_props. lra.
Qed.

Lemma plot_phase_6_final_weight_witness :
  exists ph p7 duration final_weight,
    (PhaseAnalysis.detect_phases (pd:=Pandas3) 0%nat (store_of (F:=xnum) batch_late_sparge)).2 = Ok ph /\
    ph !! 7%nat = Some p7 /\
    plot_phase_6 batch_late_sparge ph = Ok (duration, final_weight) /\
    duration = fsub (end_ p7) (start p7) /\
    (fle (start p7) (minutes (sample (F:=xnum) 3 80 400)) = true ->
     final_weight = greast_case_weight (sample (F:=xnum) 3 80 400) /\
     fle (lit 0) duration = true) /\
    (flt (minutes (sample (F:=xnum) 3 80 400)) (start p7) = true ->
     phase_window batch_late_sparge (start p7) (end_ p7) = [] /\
     final_weight = lit 0 /\ flt duration (lit 0) = true).
Proof.
  apply (plot_phase_6_final_weight (store_of batch_late_sparge) 0%nat batch_late_sparge
           (sample 3 80 400)); reflexivity.
Defined.
